(** * database_utils: a shallow embedding of the IDEB/ENEM preparation pipeline

    The development follows [database_utils.py] function by function:
    [GetIdeb], [PrepareIdeb], [GetMerged], [NormalityTest] and
    [NonParamTest].

    Modelling conventions.
    - A pandas table is a header of column names and a list of rows; a cell is
      dynamically typed: the missing marker [NaN], a number or a string.
      Numbers are rationals: float rounding and infinities are outside the
      model.  Where pandas looks at the type of a column (numeric or text),
      the model reads it off the cells.
    - A Python exception is a value of [exn]; a computation that may raise
      returns [result].
    - [GetMerged] changes the tables it is given; the model returns them next
      to the result.  [Series.fillna(..., inplace=True)] on a selected column
      writes through to the table, as it does in the pandas versions that
      still have [applymap].
    - [sort_values] is modelled by a stable sort; pandas leaves the order of
      rows with equal keys unspecified.
    - What the functions print on success is modelled for [NonParamTest]
      only, where the printed line is the result.
    - The functions of the Python runtime and of scipy that the module calls
      ([str] and [float] on numbers, [shapiro], [normaltest], [mannwhitneyu],
      [kruskal]) are parameters of the development, and so are the download,
      the archive reader and the spreadsheet parser behind [GetIdeb]. *)

From Stdlib Require Import String Ascii List Bool Arith ZArith QArith Lia.
From Stdlib Require Import Permutation Sorted Lqa.
Import ListNotations.

Local Open Scope string_scope.
Local Open Scope list_scope.
Local Open Scope nat_scope.

(** ** Values *)

Inductive cell : Type :=
| NaN
| Num (x : Q)
| Str (s : string).

Inductive exn : Type :=
| KeyError
| ValueError
| TypeError
| IndexError
| UnboundLocalError.

Inductive result (A : Type) : Type :=
| Ok (a : A)
| Raise (e : exn).

Arguments Ok {A} a.
Arguments Raise {A} e.

Definition bind {A B : Type} (m : result A) (f : A -> result B) : result B :=
  match m with
  | Ok a => f a
  | Raise e => Raise e
  end.

Notation "x <- m ;; k" := (bind m (fun x => k))
  (at level 61, m at next level, right associativity).

Fixpoint mapM {A B : Type} (f : A -> result B) (l : list A) : result (list B) :=
  match l with
  | [] => Ok []
  | a :: l' => b <- f a ;; bs <- mapM f l' ;; Ok (b :: bs)
  end.

(** [pd.isna] / [pd.notna] on a cell. *)
Definition isna (c : cell) : bool :=
  match c with
  | NaN => true
  | _ => false
  end.

Definition notna (c : cell) : bool := negb (isna c).

(** Python's [==] on two cells, as pandas applies it element by element:
    the missing marker is equal to nothing, itself included. *)
Definition py_eq (a b : cell) : bool :=
  match a, b with
  | Num x, Num y => Qeq_bool x y
  | Str s, Str t => String.eqb s t
  | _, _ => false
  end.

(** Identity of values as hashing sees it ([unique], [merge], [groupby],
    [mode]): as [py_eq], except that two missing markers are the same value. *)
Definition same_value (a b : cell) : bool :=
  match a, b with
  | NaN, NaN => true
  | _, _ => py_eq a b
  end.

(** ** Tables *)

Record DataFrame : Type := mkDF {
  columns : list string;
  rows : list (list cell)
}.

(** Every row has one cell per column. *)
Definition rect (df : DataFrame) : Prop :=
  Forall (fun r => length r = length (columns df)) (rows df).

(** A well-formed table: rectangular, and a name denotes one column. *)
Definition wf_df (df : DataFrame) : Prop :=
  NoDup (columns df) /\ rect df.

Fixpoint col_index (name : string) (cols : list string) : option nat :=
  match cols with
  | [] => None
  | c :: cols' =>
      if String.eqb c name then Some 0
      else option_map S (col_index name cols')
  end.

Definition has_col (df : DataFrame) (name : string) : bool :=
  match col_index name (columns df) with
  | Some _ => true
  | None => false
  end.

Definition cell_at (i : nat) (r : list cell) : cell := nth i r NaN.

(** [df[name]]: the column as a list, top to bottom. *)
Definition getcol (df : DataFrame) (name : string) : result (list cell) :=
  match col_index name (columns df) with
  | Some i => Ok (map (cell_at i) (rows df))
  | None => Raise KeyError
  end.

(** The cells of the column at position [i]. *)
Definition column (i : nat) (df : DataFrame) : list cell :=
  map (cell_at i) (rows df).

(** [df[[n1, ..., nk]]]: a new table with the named columns, in that order. *)
Definition select (df : DataFrame) (names : list string) : result DataFrame :=
  idx <- mapM (fun n => match col_index n (columns df) with
                        | Some i => Ok i
                        | None => Raise KeyError
                        end) names ;;
  Ok (mkDF names (map (fun r => map (fun i => cell_at i r) idx) (rows df))).

(** [df.rename(columns = mapping)]. *)
Fixpoint lookup_name (mapping : list (string * string)) (n : string) : string :=
  match mapping with
  | [] => n
  | (old, new) :: m' => if String.eqb old n then new else lookup_name m' n
  end.

Definition rename (df : DataFrame) (mapping : list (string * string)) : DataFrame :=
  mkDF (map (lookup_name mapping) (columns df)) (rows df).

(** [df[mask]] with a boolean mask computed row by row. *)
Definition filter_rows (keep : list cell -> bool) (df : DataFrame) : DataFrame :=
  mkDF (columns df) (filter keep (rows df)).

Fixpoint set_nth {A : Type} (i : nat) (v : A) (l : list A) : list A :=
  match l, i with
  | [], _ => []
  | _ :: l', 0 => v :: l'
  | a :: l', S i' => a :: set_nth i' v l'
  end.

(** Apply [f] to every cell of an existing column: the shape of
    [df[name] = g(df[name])] for an element-wise [g]. *)
Definition map_col (f : cell -> cell) (name : string) (df : DataFrame)
  : result DataFrame :=
  match col_index name (columns df) with
  | Some i => Ok (mkDF (columns df)
                       (map (fun r => set_nth i (f (cell_at i r)) r) (rows df)))
  | None => Raise KeyError
  end.

(** [df.drop(labels, axis=1)]: every label must be a column; all the
    columns that carry a dropped label go. *)
Fixpoint remove_nth {A : Type} (i : nat) (l : list A) : list A :=
  match l, i with
  | [], _ => []
  | _ :: l', 0 => l'
  | a :: l', S i' => a :: remove_nth i' l'
  end.

Definition keep_mask (name : string) (cols : list string) : list bool :=
  map (fun c => negb (String.eqb c name)) cols.

Definition pick {A : Type} (mask : list bool) (l : list A) : list A :=
  map snd (filter fst (combine mask l)).

Definition drop1 (name : string) (df : DataFrame) : result DataFrame :=
  if existsb (String.eqb name) (columns df) then
    let mask := keep_mask name (columns df) in
    Ok (mkDF (pick mask (columns df)) (map (pick mask) (rows df)))
  else Raise KeyError.

Fixpoint drop (labels : list string) (df : DataFrame) : result DataFrame :=
  match labels with
  | [] => Ok df
  | n :: labels' => df' <- drop1 n df ;; drop labels' df'
  end.

(** [df[name] = values]: overwrite an existing column, row by row. *)
Definition set_col (i : nat) (vals : list cell) (df : DataFrame) : DataFrame :=
  mkDF (columns df)
       (map (fun rv => set_nth i (snd rv) (fst rv)) (combine (rows df) vals)).

Definition index_of (name : string) (df : DataFrame) : result nat :=
  match col_index name (columns df) with
  | Some i => Ok i
  | None => Raise KeyError
  end.

(** ** Ordering, sorting *)

Definition is_num (c : cell) : bool :=
  match c with Num _ => true | _ => false end.

Definition is_str (c : cell) : bool :=
  match c with Str _ => true | _ => false end.

(** Ascending order with the missing marker last ([na_position='last']);
    strings compare by code point, numbers by value.  Python refuses to
    compare a number with a string: [sort_values] checks for that first, so
    the two mixed cases below are never reached there. *)
Definition key_le (a b : cell) : bool :=
  match a, b with
  | _, NaN => true
  | NaN, _ => false
  | Num x, Num y => Qle_bool x y
  | Str s, Str t => String.leb s t
  | Num _, Str _ => true
  | Str _, Num _ => false
  end.

Fixpoint insert_row (i : nat) (r : list cell) (l : list (list cell))
  : list (list cell) :=
  match l with
  | [] => [r]
  | r' :: l' =>
      if key_le (cell_at i r) (cell_at i r') then r :: l
      else r' :: insert_row i r l'
  end.

Definition sort_rows (i : nat) (l : list (list cell)) : list (list cell) :=
  fold_right (insert_row i) [] l.

(** [df.sort_values(by=[name])]; rows with equal keys keep their order. *)
Definition sort_values (name : string) (df : DataFrame) : result DataFrame :=
  i <- index_of name df ;;
  let keys := map (cell_at i) (rows df) in
  if existsb is_num keys && existsb is_str keys then Raise TypeError
  else Ok (mkDF (columns df) (sort_rows i (rows df))).

(** ** Aggregates *)

Fixpoint unique (l : list cell) : list cell :=
  match l with
  | [] => []
  | c :: l' => c :: filter (fun d => negb (same_value c d)) (unique l')
  end.

(** [Series.nunique()]: missing values are not counted. *)
Definition nunique (l : list cell) : nat := length (unique (filter notna l)).

Definition nums (l : list cell) : list Q :=
  flat_map (fun c => match c with Num x => [x] | _ => [] end) l.

Fixpoint insert_q (x : Q) (l : list Q) : list Q :=
  match l with
  | [] => [x]
  | y :: l' => if Qle_bool x y then x :: l else y :: insert_q x l'
  end.

Definition sort_q (l : list Q) : list Q := fold_right insert_q [] l.

(** Median of the numbers present; the missing marker when there is none. *)
Definition median_q (xs : list Q) : cell :=
  let s := sort_q xs in
  let n := length s in
  if n =? 0 then NaN
  else if Nat.odd n then Num (nth (n / 2) s 0%Q)
  else Num (Qred ((nth (n / 2 - 1) s 0%Q + nth (n / 2) s 0%Q) / 2)).

(** [Series.median()]: missing values are skipped, a string is an error. *)
Definition median_cells (vals : list cell) : result cell :=
  if existsb is_str vals then Raise TypeError
  else Ok (median_q (nums vals)).

Definition count_val (v : cell) (l : list cell) : nat :=
  length (filter (same_value v) l).

Fixpoint min_cell (l : list cell) : option cell :=
  match l with
  | [] => None
  | v :: l' =>
      match min_cell l' with
      | None => Some v
      | Some m => Some (if key_le v m then v else m)
      end
  end.

(** [Series.mode()[0]]: the most frequent non-missing value, the smallest
    one on a tie; indexing an empty result raises. *)
Definition mode0 (vals : list cell) : result cell :=
  let xs := filter notna vals in
  let best := fold_right Nat.max 0 (map (fun v => count_val v xs) xs) in
  match min_cell (filter (fun v => count_val v xs =? best) xs) with
  | Some m => Ok m
  | None => Raise KeyError
  end.

(** [Series.fillna(v)] on one cell. *)
Definition fillna (v c : cell) : cell := if isna c then v else c.

(** [df.groupby(keys)[vals].transform('median')].  Groups are the distinct
    non-missing keys; every row carries the number of its group, a row with
    a missing key carries none and receives the missing marker.  A column
    that holds a string has no median. *)
Fixpoint find_code (gk : list cell) (k : cell) : option nat :=
  match gk with
  | [] => None
  | g :: gk' => if same_value g k then Some 0 else option_map S (find_code gk' k)
  end.

Definition group_keys (keys : list cell) : list cell :=
  unique (filter notna keys).

Definition group_codes (keys : list cell) : list (option nat) :=
  map (fun k => if isna k then None else find_code (group_keys keys) k) keys.

Definition in_group (g : nat) (code : option nat) : bool :=
  match code with
  | Some g' => g' =? g
  | None => false
  end.

Definition group_vals (codes : list (option nat)) (vals : list cell) (g : nat)
  : list cell :=
  map snd (filter (fun cv => in_group g (fst cv)) (combine codes vals)).

Definition groupby_transform_median (keys vals : list cell)
  : result (list cell) :=
  if existsb is_str vals then Raise TypeError
  else
    let codes := group_codes keys in
    let agg := map (fun g => median_q (nums (group_vals codes vals g)))
                   (seq 0 (length (group_keys keys))) in
    Ok (map (fun code => match code with
                         | Some g => nth g agg NaN
                         | None => NaN
                         end) codes).

(** ** Joining *)

Definition suffixed (sfx : string) (others : list string) (key n : string)
  : string :=
  if String.eqb n key then n
  else if existsb (String.eqb n) others then n ++ sfx
  else n.

(** The type pandas gives a column, read off its cells: text as soon as a
    cell is a string, numeric when there are cells and none is a string. *)
Definition text_dtype (l : list cell) : bool := existsb is_str l.

Definition numeric_dtype (l : list cell) : bool :=
  negb (length l =? 0) && negb (existsb is_str l).

(** [left.merge(right, left_on=key, right_on=key, how='left')].  pandas
    refuses to merge a numeric key column with a text one; otherwise every
    left row is kept, once per right row with the same key, or once with
    missing cells when there is none. *)
Definition merge_left (key : string) (left right : DataFrame)
  : result DataFrame :=
  li <- index_of key left ;;
  ri <- index_of key right ;;
  if (numeric_dtype (column li left) && text_dtype (column ri right))
     || (text_dtype (column li left) && numeric_dtype (column ri right))
  then Raise ValueError
  else
    let rcols := remove_nth ri (columns right) in
    let cols := map (suffixed "_x" rcols key) (columns left)
                ++ map (suffixed "_y" (columns left) key) rcols in
    let joined (l : list cell) :=
      match filter (fun r => same_value (cell_at li l) (cell_at ri r))
                   (rows right) with
      | [] => [l ++ repeat NaN (length rcols)]
      | ms => map (fun r => l ++ remove_nth ri r) ms
      end in
    Ok (mkDF cols (flat_map joined (rows left))).

(** ** Strings *)

Definition nl : string := String "010"%char EmptyString.

(** [s[:stop]] with Python's treatment of a negative or oversized bound. *)
Definition slice_to (s : string) (stop : Z) : string :=
  let n := Z.of_nat (String.length s) in
  let hi := if (stop <? 0)%Z then Z.max 0 (stop + n) else Z.min stop n in
  substring 0 (Z.to_nat hi) s.

(** [try: ... except Exception as e: raise print(...)]: [print] returns
    [None], and raising [None] is a [TypeError], whatever [e] was. *)
Definition raise_print {A : Type} (body : result A) : result A :=
  match body with
  | Ok a => Ok a
  | Raise _ => Raise TypeError
  end.

Section Pipeline.

Set Default Proof Using "Type".

(** [str] of a number, an operation of the Python runtime. *)
Variable py_repr : Q -> string.

Definition py_str (c : cell) : string :=
  match c with
  | NaN => "nan"
  | Num x => py_repr x
  | Str s => s
  end.

(** ** PrepareIdeb *)

Definition raw_key : string := "Código da Escola".
Definition raw_rend : string := "Unnamed: 12".
Definition raw_nota : string := "Unnamed: 15".
Definition raw_ideb : string := "IDEB" ++ nl ++ "2017" ++ nl ++ "(N x P)".

Definition ideb_renames : list (string * string) :=
  [ (raw_key, "CO_ESCOLA"); (raw_rend, "IN_RENDIMENTO");
    (raw_nota, "NT_PADRONIZADA"); (raw_ideb, "IDEB") ].

(** [.replace({'-': np.nan})] on one cell. *)
Definition replace_dash (c : cell) : cell :=
  match c with
  | Str s => if String.eqb s "-" then NaN else c
  | _ => c
  end.

(** [.astype(str).str[:-2].astype(object)] on one cell. *)
Definition key_rewrite (c : cell) : cell := Str (slice_to (py_str c) (-2)).

Definition PrepareIdeb (df : DataFrame) : result DataFrame :=
  raise_print (
    ideb <- select df [raw_key; raw_rend; raw_nota; raw_ideb] ;;
    let ideb := rename ideb ideb_renames in
    key <- (match col_index "CO_ESCOLA" (columns ideb) with
            | Some i => Ok i
            | None => Raise KeyError
            end) ;;
    let ideb := filter_rows (fun r => notna (cell_at key r)) ideb in
    ideb <- map_col replace_dash "IDEB" ideb ;;
    ideb <- map_col replace_dash "IN_RENDIMENTO" ideb ;;
    ideb <- map_col replace_dash "NT_PADRONIZADA" ideb ;;
    map_col key_rewrite "CO_ESCOLA" ideb).

(** ** GetMerged *)

(** [float] of a string, an operation of the Python runtime: [None] when the
    text is no number, otherwise the missing marker (for 'nan') or a number. *)
Variable py_float : string -> option (option Q).

Definition float_cell (o : option Q) : cell :=
  match o with
  | Some x => Num x
  | None => NaN
  end.

(** [.astype('float64')] and [.apply(float)] on one cell. *)
Definition to_float (c : cell) : result cell :=
  match c with
  | NaN => Ok NaN
  | Num x => Ok (Num x)
  | Str s =>
      match py_float s with
      | Some o => Ok (float_cell o)
      | None => Raise ValueError
      end
  end.

(** The tables the caller passed, as the caller sees them afterwards. *)
Record Caller : Type := mkCaller {
  caller_enem : DataFrame;
  caller_ideb : DataFrame
}.

(** Lines 75 to 79: the join and the two unconditional drops. *)
Definition join_stage (enem ideb : DataFrame) : result DataFrame :=
  dfmerge <- merge_left "CO_ESCOLA" enem ideb ;;
  dfmerge <- drop ["CO_ESCOLA"] dfmerge ;;
  drop ["IDEB"; "NT_PADRONIZADA"] dfmerge.

(** Lines 82 to 90: the imputation rules, in source order. *)
Definition impute_stage (dfmerge : DataFrame) : result DataFrame :=
  i <- index_of "NU_IDADE" dfmerge ;;
  age <- mapM to_float (map (cell_at i) (rows dfmerge)) ;;
  let dfmerge := set_col i age dfmerge in
  med <- median_cells age ;;
  dfmerge <- map_col (fillna med) "NU_IDADE" dfmerge ;;
  civil <- getcol dfmerge "TP_ESTADO_CIVIL" ;;
  m <- mode0 civil ;;
  dfmerge <- map_col (fillna m) "TP_ESTADO_CIVIL" dfmerge ;;
  ensino <- getcol dfmerge "TP_ENSINO" ;;
  m <- mode0 ensino ;;
  dfmerge <- map_col (fillna m) "TP_ENSINO" dfmerge ;;
  j <- index_of "IN_RENDIMENTO" dfmerge ;;
  let rend := map (cell_at j) (rows dfmerge) in
  uf <- getcol dfmerge "SG_UF_RESIDENCIA" ;;
  meds <- groupby_transform_median uf rend ;;
  Ok (set_col j (map (fun cm => fillna (snd cm) (fst cm)) (combine rend meds))
              dfmerge).

(** Lines 92 to 95: every cell becomes its text, then the four named columns
    are parsed back, one after the other.  Python's [float(str(x))] is [x]
    for every number and [float('nan')] is the missing marker, so
    [float(str(c))] is [to_float c] on the cell [c] the column held before
    line 92: only a cell that already was a string goes through the
    parser. *)
Definition numeric_cols : list string :=
  ["NU_IDADE"; "NU_NOTA_TOT"; "IN_RENDIMENTO"; "Q005"].

Definition stringify (c : cell) : cell := Str (py_str c).

Definition applymap_str (df : DataFrame) : DataFrame :=
  mkDF (columns df) (map (map stringify) (rows df)).

Fixpoint cast_cols (names : list string) (before acc : DataFrame)
  : result DataFrame :=
  match names with
  | [] => Ok acc
  | n :: names' =>
      i <- index_of n before ;;
      vals <- mapM to_float (map (cell_at i) (rows before)) ;;
      cast_cols names' before (set_col i vals acc)
  end.

Definition cast_stage (dfmerge : DataFrame) : result DataFrame :=
  cast_cols numeric_cols dfmerge (applymap_str dfmerge).

(** Lines 70 to 73 rewrite and sort the caller's own tables; the rest works
    on the fresh table [dfmerge]. *)
Definition GetMerged (enem ideb : DataFrame) : Caller * result DataFrame :=
  match map_col stringify "CO_ESCOLA" ideb with
  | Raise _ => (mkCaller enem ideb, Raise TypeError)
  | Ok ideb1 =>
      match sort_values "CO_ESCOLA" ideb1 with
      | Raise _ => (mkCaller enem ideb1, Raise TypeError)
      | Ok ideb2 =>
          match sort_values "CO_ESCOLA" enem with
          | Raise _ => (mkCaller enem ideb2, Raise TypeError)
          | Ok enem1 =>
              (mkCaller enem1 ideb2,
               raise_print (dfmerge <- join_stage enem1 ideb2 ;;
                            dfmerge <- impute_stage dfmerge ;;
                            cast_stage dfmerge))
          end
      end
  end.

(** ** NormalityTest *)

(** A Python float that may be nan: [None] is nan. *)
Definition float : Type := option Q.

(** [a > b] on floats: false as soon as one side is nan. *)
Definition py_gt (a b : float) : bool :=
  match a, b with
  | Some x, Some y => negb (Qle_bool x y)
  | _, _ => false
  end.

(** The two scipy normality tests: statistic and p-value, or an exception. *)
Variable shapiro : list cell -> result (float * float).
Variable normaltest : list cell -> result (float * float).

Definition msg_gaussian : string :=
  "Amostra tem distribuição gaussiana (H0 não foi rejeitada)".
Definition msg_not_gaussian : string :=
  "Amostra não possui distribuição gaussiana (Rejeita-se H0)".

Definition normality_msg (p alpha : float) : string :=
  if py_gt p alpha then msg_gaussian else msg_not_gaussian.

Definition named_columns (df : DataFrame) : list (string * list cell) :=
  map (fun jn => (snd jn, map (cell_at (fst jn)) (rows df)))
      (combine (seq 0 (length (columns df))) (columns df)).

(** [df.select_dtypes(include=['float64', 'int64'])]: a column is numeric
    when none of its cells is a string. *)
Definition numeric_column (vals : list cell) : bool :=
  forallb (fun c => negb (is_str c)) vals.

Definition select_dtypes_numeric (df : DataFrame) : list (string * list cell) :=
  filter (fun nv => numeric_column (snd nv)) (named_columns df).

(** One loop of the sweep: a row [name, msg] per numeric column. *)
Definition sweep (test : list cell -> result (float * float)) (alpha : float)
  (input : list (string * list cell)) : result (list (string * string)) :=
  mapM (fun nv => sp <- test (snd nv) ;;
                  Ok (fst nv, normality_msg (snd sp) alpha)) input.

(** [output_1.merge(output_2, on='Variável', how='inner')]. *)
Definition merge_inner (o1 o2 : list (string * string))
  : list (string * string * string) :=
  flat_map (fun a =>
              map (fun b => (fst a, snd a, snd b))
                  (filter (fun b => String.eqb (fst a) (fst b)) o2)) o1.

Definition NormalityTest (df : DataFrame) (alpha : float)
  : result (list (string * string * string)) :=
  let input := select_dtypes_numeric df in
  output_1 <- sweep shapiro alpha input ;;
  output_2 <- sweep normaltest alpha input ;;
  Ok (merge_inner output_1 output_2).

(** ** NonParamTest *)

(** A call into scipy, as issued by the dispatch. *)
Inductive test_call : Type :=
| MannWhitneyU (x y : list cell)
| Kruskal (samples : list (list cell)) (alternative : option string).

Variable mannwhitneyu : list cell -> list cell -> result (float * float).
Variable kruskal : list (list cell) -> option string -> result (float * float).

Definition run_test (c : test_call) : result (float * float) :=
  match c with
  | MannWhitneyU x y => mannwhitneyu x y
  | Kruskal ss alt => kruskal ss alt
  end.

(** [l[i]] on a Python list or array. *)
Definition item {A : Type} (l : list A) (i : nat) : result A :=
  match nth_error l i with
  | Some a => Ok a
  | None => Raise IndexError
  end.

(** Lines 152 to 157: sample [i] holds the target values of the rows whose
    category equals the [i]-th entry of [unique()]. *)
Definition sample_of (cats tot : list cell) (cat : cell) : list cell :=
  map snd (filter (fun ct => py_eq (fst ct) cat) (combine cats tot)).

Definition build_samples (cats tot : list cell) (k : nat)
  : result (list (list cell)) :=
  mapM (fun i => cat <- item (unique cats) i ;; Ok (sample_of cats tot cat))
       (seq 0 k).

(** [kruskal(samples[0], ..., samples[n-1], ...)]. *)
Definition kruskal_call (samples : list (list cell)) (n : nat)
  (alternative : option string) : result (option test_call) :=
  args <- mapM (item samples) (seq 0 n) ;;
  Ok (Some (Kruskal args alternative)).

(** Lines 160 to 182: the chain of comparisons on [k]; [None] when no branch
    is taken, in which case [p] is never assigned. *)
Definition dispatch (k : nat) (samples : list (list cell))
  : result (option test_call) :=
  if k =? 2 then
    x <- item samples 0 ;; y <- item samples 1 ;; Ok (Some (MannWhitneyU x y))
  else if k =? 3 then kruskal_call samples 3 None
  else if k =? 4 then kruskal_call samples 4 None
  else if k =? 5 then kruskal_call samples 5 None
  else if k =? 6 then kruskal_call samples 6 None
  else if k =? 7 then kruskal_call samples 7 None
  else if k =? 8 then kruskal_call samples 8 None
  else if k =? 17 then kruskal_call samples 17 (Some "two-sided")
  else if k =? 27 then kruskal_call samples 27 (Some "two-sided")
  else Ok None.

Definition msg_same : string := "Mesma distribuição (H0 não foi rejeitada)".
Definition msg_diff : string := "Distribuições diferentes (Rejeita-se H0)".

(** What one run leaves behind: the scipy call it issued, if any, and either
    the lines it printed (message, p-value, column) or the exception. *)
Record Run : Type := mkRun {
  issued : option test_call;
  printed : result (list (string * float * string))
}.

Definition target : string := "NU_NOTA_TOT".

Definition prepare_samples (df : DataFrame) (col : string)
  : result (nat * list (list cell)) :=
  df_ <- select df [target; col] ;;
  (* with [col] equal to the target, [df_[col]] is a table and [range(k)]
     is refused *)
  _ <- (if String.eqb col target then Raise TypeError else Ok tt) ;;
  cats <- getcol df_ col ;;
  tot <- getcol df_ target ;;
  let k := nunique cats in
  samples <- build_samples cats tot k ;;
  Ok (k, samples).

Definition NonParamTest (df : DataFrame) (col : string) (alpha : float) : Run :=
  match (ks <- prepare_samples df col ;; dispatch (fst ks) (snd ks)) with
  | Raise e => mkRun None (Raise e)
  | Ok None => mkRun None (Raise UnboundLocalError)
  | Ok (Some call) =>
      mkRun (Some call)
            (sp <- run_test call ;;
             let p := snd sp in
             if py_gt p alpha then Ok [(msg_same, p, col)]
             else Ok [(msg_diff, p, col)])
  end.

(** ** Auxiliary definitions used in the statements *)

Definition ideb_header : list string :=
  ["CO_ESCOLA"; "IN_RENDIMENTO"; "NT_PADRONIZADA"; "IDEB"].

(** The rows [PrepareIdeb] returns, spelled out: the rows with a key, each
    reduced to its four cells. *)
Definition cleaned_row (k r n i : nat) (row : list cell) : list cell :=
  [ key_rewrite (cell_at k row); replace_dash (cell_at r row);
    replace_dash (cell_at n row); replace_dash (cell_at i row) ].

(** The group counts the dispatch of [NonParamTest] has a branch for. *)
Definition supported (k : nat) : bool :=
  existsb (Nat.eqb k) [2; 3; 4; 5; 6; 7; 8; 17; 27].

(** The call the enumeration of [NonParamTest] stands for, by [k]. *)
Definition enumerated_call (k : nat) (samples : list (list cell))
  : option test_call :=
  if k =? 2 then Some (MannWhitneyU (nth 0 samples []) (nth 1 samples []))
  else if existsb (Nat.eqb k) [3; 4; 5; 6; 7; 8] then Some (Kruskal samples None)
  else if existsb (Nat.eqb k) [17; 27] then
    Some (Kruskal samples (Some "two-sided"))
  else None.

(** A table whose category column starts with a missing value. *)
Definition df_null_first : DataFrame :=
  mkDF ["NU_NOTA_TOT"; "TP_ENSINO"]
       [ [Num 510; NaN]; [Num 520; Str "1"]; [Num 530; Str "1"];
         [Num 610; Str "2"]; [Num 620; Str "2"] ].

(** [0.05], the default significance level of both analyses. *)
Definition alpha_default : float := Some (5 # 100)%Q.


(** The table [GetMerged] imputes: the join of the sorted inputs, after the
    drops. *)
Definition joined (enem ideb : DataFrame) : result DataFrame :=
  ideb1 <- map_col stringify "CO_ESCOLA" ideb ;;
  ideb2 <- sort_values "CO_ESCOLA" ideb1 ;;
  enem1 <- sort_values "CO_ESCOLA" enem ;;
  join_stage enem1 ideb2.

(** [ideb] with its key column turned into text (line 70), when it has one. *)
Definition key_as_text (ideb : DataFrame) : DataFrame :=
  match map_col stringify "CO_ESCOLA" ideb with
  | Ok d => d
  | Raise _ => ideb
  end.

(** What is left of a header and of a row once [labels] are dropped. *)
Fixpoint drop_names (labels cols : list string) : list string :=
  match labels with
  | [] => cols
  | n :: labels' => drop_names labels' (pick (keep_mask n cols) cols)
  end.

Fixpoint drop_cells (labels cols : list string) (r : list cell) : list cell :=
  match labels with
  | [] => r
  | n :: labels' =>
      drop_cells labels' (pick (keep_mask n cols) cols)
                 (pick (keep_mask n cols) r)
  end.

Definition dropped_labels : list string :=
  ["CO_ESCOLA"; "IDEB"; "NT_PADRONIZADA"].

(** The [ideb] rows that carry the key of the [enem] row [l]. *)
Definition matches (li ri : nat) (ideb : DataFrame) (l : list cell)
  : list (list cell) :=
  filter (fun r => same_value (cell_at li l) (cell_at ri r)) (rows ideb).

(** The column called [n], empty when there is none: [getcol] for use in
    statements. *)
Definition col_of (df : DataFrame) (n : string) : list cell :=
  match col_index n (columns df) with
  | Some i => column i df
  | None => []
  end.

(** The values found in the rows whose key is [k], their median, and the
    median over all rows. *)
Definition group_values (keys vals : list cell) (k : cell) : list cell :=
  map snd (filter (fun kv => same_value k (fst kv)) (combine keys vals)).

Definition group_median (keys vals : list cell) (k : cell) : cell :=
  median_q (nums (group_values keys vals k)).

Definition global_median (vals : list cell) : cell := median_q (nums vals).

(** The value line 90 leaves in a row with state [k] and enrollment [c]. *)
Definition filled_enrollment (keys vals : list cell) (k c : cell) : cell :=
  fillna (if isna k then NaN else group_median keys vals k) c.

(** The four imputed columns. *)
Definition imputed_cols : list string :=
  ["NU_IDADE"; "TP_ESTADO_CIVIL"; "TP_ENSINO"; "IN_RENDIMENTO"].

(** Every imputation group of the merged table [m] has a value to offer:
    some age converts to a number, marital status and school type have a
    non-missing value, and every state met in the table has a non-missing
    enrollment index among its rows. *)
Definition groups_nonempty (m : DataFrame) : Prop :=
  (exists c x, In c (col_of m "NU_IDADE") /\ to_float c = Ok (Num x)) /\
  (exists c, In c (col_of m "TP_ESTADO_CIVIL") /\ isna c = false) /\
  (exists c, In c (col_of m "TP_ENSINO") /\ isna c = false) /\
  (forall s, In s (col_of m "SG_UF_RESIDENCIA") ->
             exists e, In e (group_values (col_of m "SG_UF_RESIDENCIA")
                                          (col_of m "IN_RENDIMENTO") s) /\
                       isna e = false).

Definition no_nulls (out : DataFrame) : Prop :=
  forall n, In n imputed_cols ->
            has_col out n = true /\
            length (col_of out n) = length (rows out) /\
            Forall (fun c => isna c = false) (col_of out n).


(** ** Sample tables

    The sample tables keep their categories and keys as text and their
    numeric columns as numbers, so that neither [str] nor [float] of the
    Python runtime is ever asked about them; [repr_unused] and
    [float_unused] stand for the two. *)

Definition repr_unused : Q -> string := fun _ => "".
Definition float_unused : string -> option (option Q) := fun _ => None.

Definition raw_sample : DataFrame :=
  mkDF [raw_key; "Nome da Escola"; raw_rend; raw_nota; raw_ideb]
       [ [Str "3500101"; Str "EE A"; Num (4 # 5); Num 4; Num (16 # 5)];
         [NaN; Str "Fonte: INEP"; NaN; NaN; NaN];
         [Str "3300101"; Str "CE B"; Str "-"; Str "-"; Str "-"] ].

Definition enem_header : list string :=
  ["CO_ESCOLA"; "NU_IDADE"; "TP_ESTADO_CIVIL"; "TP_ENSINO";
   "SG_UF_RESIDENCIA"; "NU_NOTA_TOT"; "Q005"].

Definition merged_header : list string :=
  ["NU_IDADE"; "TP_ESTADO_CIVIL"; "TP_ENSINO"; "SG_UF_RESIDENCIA";
   "NU_NOTA_TOT"; "Q005"; "IN_RENDIMENTO"].

(** Five students of two states; schools 35009 and 33009 are not in the
    school table. *)
Definition enem_sample : DataFrame :=
  mkDF enem_header
       [ [Str "35002"; Num 17; Str "1"; Str "1"; Str "SP"; Num 520; Num 4];
         [Str "35001"; NaN; NaN; Str "1"; Str "SP"; Num 610; Num 3];
         [Str "35009"; Num 18; Str "1"; NaN; Str "SP"; Num 480; Num 5];
         [Str "33001"; Num 19; Str "2"; Str "1"; Str "RJ"; Num 700; Num 2];
         [Str "33009"; Num 18; Str "1"; Str "2"; Str "RJ"; Num 555; Num 4] ].

Definition ideb_sample : DataFrame :=
  mkDF ideb_header
       [ [Str "35002"; Num (9 # 10); Num 5; Num (9 # 2)];
         [Str "33001"; Num (3 # 5); NaN; NaN];
         [Str "35001"; Num (4 # 5); Num 4; Num (16 # 5)] ].

Definition merged_sample : DataFrame :=
  mkDF merged_header
       [ [Num 19; Str "2"; Str "1"; Str "RJ"; Num 700; Num 2; Num (3 # 5)];
         [Num 18; Str "1"; Str "2"; Str "RJ"; Num 555; Num 4; NaN];
         [NaN; NaN; Str "1"; Str "SP"; Num 610; Num 3; Num (4 # 5)];
         [Num 17; Str "1"; Str "1"; Str "SP"; Num 520; Num 4; Num (9 # 10)];
         [Num 18; Str "1"; NaN; Str "SP"; Num 480; Num 5; NaN] ].

Definition output_sample : DataFrame :=
  mkDF merged_header
       [ [Num 19; Str "2"; Str "1"; Str "RJ"; Num 700; Num 2; Num (3 # 5)];
         [Num 18; Str "1"; Str "2"; Str "RJ"; Num 555; Num 4; Num (3 # 5)];
         [Num 18; Str "1"; Str "1"; Str "SP"; Num 610; Num 3; Num (4 # 5)];
         [Num 17; Str "1"; Str "1"; Str "SP"; Num 520; Num 4; Num (9 # 10)];
         [Num 18; Str "1"; Str "1"; Str "SP"; Num 480; Num 5;
          Num (17 # 20)] ].

(** The same students, two of them without a state of residence. *)
Definition enem_nostate : DataFrame :=
  mkDF enem_header
       [ [Str "35002"; Num 17; Str "1"; Str "1"; Str "SP"; Num 520; Num 4];
         [Str "35001"; NaN; NaN; Str "1"; NaN; Num 610; Num 3];
         [Str "35009"; Num 18; Str "1"; NaN; NaN; Num 480; Num 5];
         [Str "33001"; Num 19; Str "2"; Str "1"; Str "RJ"; Num 700; Num 2];
         [Str "33009"; Num 18; Str "1"; Str "2"; Str "RJ"; Num 555; Num 4] ].

Definition merged_nostate : DataFrame :=
  mkDF merged_header
       [ [Num 19; Str "2"; Str "1"; Str "RJ"; Num 700; Num 2; Num (3 # 5)];
         [Num 18; Str "1"; Str "2"; Str "RJ"; Num 555; Num 4; NaN];
         [NaN; NaN; Str "1"; NaN; Num 610; Num 3; Num (4 # 5)];
         [Num 17; Str "1"; Str "1"; Str "SP"; Num 520; Num 4; Num (9 # 10)];
         [Num 18; Str "1"; NaN; NaN; Num 480; Num 5; NaN] ].

Definition output_nostate : DataFrame :=
  mkDF merged_header
       [ [Num 19; Str "2"; Str "1"; Str "RJ"; Num 700; Num 2; Num (3 # 5)];
         [Num 18; Str "1"; Str "2"; Str "RJ"; Num 555; Num 4; Num (3 # 5)];
         [Num 18; Str "1"; Str "1"; Str "nan"; Num 610; Num 3; Num (4 # 5)];
         [Num 17; Str "1"; Str "1"; Str "SP"; Num 520; Num 4; Num (9 # 10)];
         [Num 18; Str "1"; Str "1"; Str "nan"; Num 480; Num 5; NaN] ].




(** Nine rows, nine categories. *)
Definition df_nine : DataFrame :=
  mkDF ["NU_NOTA_TOT"; "Q006"]
       [ [Num 410; Str "A"]; [Num 420; Str "B"]; [Num 430; Str "C"];
         [Num 440; Str "D"]; [Num 450; Str "E"]; [Num 460; Str "F"];
         [Num 470; Str "G"]; [Num 480; Str "H"]; [Num 490; Str "I"] ].

Definition normaltest_sample (x : list cell) : result (float * float) :=
  Ok (Some (12 # 1), Some (1 # 100))%Q.
Definition mannwhitneyu_sample (x y : list cell) : result (float * float) :=
  Ok (Some (3 # 1), Some (1 # 5))%Q.
Definition kruskal_sample (ss : list (list cell)) (alt : option string)
  : result (float * float) :=
  Ok (Some (7 # 1), Some (1 # 50))%Q.

(** No two entries are the same value. *)
Fixpoint distinct (us : list cell) : Prop :=
  match us with
  | [] => True
  | u :: us' => Forall (fun v => same_value u v = false) us' /\ distinct us'
  end.

(** The rows are in ascending order of the key at position [i]; the table
    is in ascending order of [CO_ESCOLA]. *)
Definition key_sorted (i : nat) (l : list (list cell)) : Prop :=
  Sorted (fun a b => key_le (cell_at i a) (cell_at i b) = true) l.

Definition sorted_by_key (df : DataFrame) : Prop :=
  exists i, col_index "CO_ESCOLA" (columns df) = Some i /\
            key_sorted i (rows df).

(** ** GetIdeb *)

(** [requests.get(url).content], reading one entry of a ZIP archive, and
    [pd.read_excel(..., skiprows=n)]: operations of the libraries, each with
    its own ways to fail. *)
Variable http_get : string -> result string.
Variable zip_read : string -> string -> result string.
Variable read_excel : string -> nat -> result DataFrame.

Definition ideb_entry : string := "divulgacao_ensino_medio-escolas-2017.xlsx".

Definition GetIdeb (url : string) : result DataFrame :=
  raise_print (
    content <- http_get url ;;
    sheet <- zip_read content ideb_entry ;;
    read_excel sheet 6).

(** ** Further notions used in the statements *)


(** The caller's [ideb] once line 72 has been reached. *)
Definition ideb_after_sort (ideb : DataFrame) : DataFrame :=
  match sort_values "CO_ESCOLA" (key_as_text ideb) with
  | Ok d => d
  | Raise _ => key_as_text ideb
  end.

(** [v] is a most frequent value of [vals], missing values set aside. *)
Definition most_frequent (v : cell) (vals : list cell) : Prop :=
  isna v = false /\ In v vals /\
  forall w, count_val w (filter notna vals) <= count_val v (filter notna vals).

(** The rows the left join makes of the [enem] row [l]. *)
Definition join_block (li ri : nat) (ideb : DataFrame) (l : list cell)
  : list (list cell) :=
  match matches li ri ideb l with
  | [] => [l ++ repeat NaN (length (remove_nth ri (columns ideb)))]
  | ms => map (fun r => l ++ remove_nth ri r) ms
  end.

(** ** Further sample tables *)

(** The table [PrepareIdeb] makes of [raw_sample]. *)
Definition cleaned_sample : DataFrame :=
  mkDF ideb_header
       [ [Str "35001"; Num (4 # 5); Num 4; Num (16 # 5)];
         [Str "33001"; NaN; NaN; NaN] ].

(** Students with a column [IDEB] of their own. *)
Definition enem_clash : DataFrame :=
  mkDF (enem_header ++ ["IDEB"])
       [ [Str "35002"; Num 17; Str "1"; Str "1"; Str "SP"; Num 520; Num 4;
          Num 5];
         [Str "33001"; Num 19; Str "2"; Str "1"; Str "RJ"; Num 700; Num 2;
          Num 4] ].

(** No student at all. *)
Definition enem_empty : DataFrame := mkDF enem_header [].

(** A total score that is no number. *)
Definition enem_text : DataFrame :=
  mkDF enem_header
       [ [Str "35002"; Num 17; Str "1"; Str "1"; Str "SP"; Str "ausente";
          Num 4];
         [Str "33001"; Num 19; Str "2"; Str "1"; Str "RJ"; Num 700; Num 2] ].

(** Tables without the key column. *)
Definition ideb_nokey : DataFrame :=
  mkDF ["IN_RENDIMENTO"; "NT_PADRONIZADA"; "IDEB"]
       [ [Num (9 # 10); Num 5; Num (9 # 2)] ].

Definition enem_nokey : DataFrame :=
  mkDF ["NU_IDADE"; "SG_UF_RESIDENCIA"] [ [Num 17; Str "SP"] ].

(** Two rows only; scipy's [shapiro] wants three values at least. *)
Definition df_two : DataFrame :=
  mkDF ["NU_NOTA_TOT"; "SG_UF_RESIDENCIA"]
       [ [Num 520; Str "SP"]; [Num 700; Str "RJ"] ].

Definition shapiro_short (x : list cell) : result (float * float) :=
  if length x <? 3 then Raise ValueError
  else Ok (Some (97 # 100), Some (1 # 2))%Q.


(** * Properties *)

(** ** Generic facts on the table operations *)

Lemma bind_Ok {A B : Type} (m : result A) (f : A -> result B) (b : B) :
  bind m f = Ok b -> exists a, m = Ok a /\ f a = Ok b.
Proof.
  destruct m as [a|e]; simpl; intros H; [exists a; auto | discriminate].
Qed.

Lemma col_index_In (n : string) (cols : list string) :
  In n cols -> exists i, col_index n cols = Some i.
Proof.
  induction cols as [|c cols IH]; simpl; [intros []|].
  intros [->|H].
  - rewrite String.eqb_refl. eauto.
  - destruct (String.eqb c n); [eauto|].
    destruct (IH H) as [i ->]. simpl. eauto.
Qed.

Lemma col_index_nth (n : string) (cols : list string) (i : nat) :
  col_index n cols = Some i -> i < length cols /\ nth i cols "" = n.
Proof.
  revert i. induction cols as [|c cols IH]; simpl; [discriminate|].
  intros i. destruct (String.eqb c n) eqn:E.
  - intros [= <-]. apply String.eqb_eq in E. split; [lia|assumption].
  - destruct (col_index n cols) as [j|]; simpl; [|discriminate].
    intros [= <-]. destruct (IH j eq_refl). split; [lia|assumption].
Qed.

Lemma col_index_inj (a b : string) (cols : list string) (i : nat) :
  col_index a cols = Some i -> col_index b cols = Some i -> a = b.
Proof.
  intros Ha Hb. apply col_index_nth in Ha, Hb.
  destruct Ha as [_ <-], Hb as [_ <-]. reflexivity.
Qed.

Lemma set_nth_length {A : Type} (i : nat) (v : A) (l : list A) :
  length (set_nth i v l) = length l.
Proof.
  revert i. induction l as [|a l IH]; intros [|i]; simpl; auto.
Qed.

Lemma cell_at_set_nth_same (i : nat) (v : cell) (r : list cell) :
  i < length r -> cell_at i (set_nth i v r) = v.
Proof.
  unfold cell_at. revert i. induction r as [|a r IH]; intros [|i]; simpl;
    intros H; try lia; auto. apply IH. lia.
Qed.

Lemma cell_at_set_nth_other (i j : nat) (v : cell) (r : list cell) :
  i <> j -> cell_at j (set_nth i v r) = cell_at j r.
Proof.
  unfold cell_at. revert i j. induction r as [|a r IH]; intros [|i] [|j]; simpl;
    intros H; try lia; auto.
Qed.

(** ** The key rewrite of [PrepareIdeb] *)

Lemma substring_0_length (m : nat) (s : string) :
  String.length (substring 0 m s) = Nat.min m (String.length s).
Proof.
  revert m. induction s as [|a s IH]; intros [|m]; simpl; auto.
Qed.

Lemma substring_0_0 (s : string) : substring 0 0 s = "".
Proof. destruct s; reflexivity. Qed.

Lemma slice_to_minus2 (s : string) :
  slice_to s (-2) = substring 0 (String.length s - 2) s.
Proof.
  unfold slice_to.
  change (-2 <? 0)%Z with true. cbv iota.
  f_equal. lia.
Qed.

(** C10. The key rewrite is a total function on cells (it has no failing
    case): on a key whose text has [n] characters it returns the first
    [max (n - 2) 0] characters of that text, hence the empty string as soon
    as [n <= 2]. *)
Theorem key_rewrite_total (c : cell) :
  let s := py_str c in
  let n := String.length s in
  let m := Z.to_nat (Z.max (Z.of_nat n - 2) 0) in
  key_rewrite c = Str (substring 0 m s) /\
  String.length (slice_to s (-2)) = m /\
  (n <= 2 -> key_rewrite c = Str "").
Proof.
  intros s n m. unfold key_rewrite. fold s. rewrite slice_to_minus2. fold n.
  assert (Hm : m = n - 2) by (unfold m; lia).
  rewrite Hm. repeat split.
  - rewrite substring_0_length. fold n. lia.
  - intros Hn. replace (n - 2) with 0 by lia. now rewrite substring_0_0.
Qed.

(** ** The Cleaner *)

Lemma renamed_header :
  map (lookup_name ideb_renames) [raw_key; raw_rend; raw_nota; raw_ideb]
  = ideb_header.
Proof. reflexivity. Qed.

Lemma replace_dash_no_dash (c : cell) : replace_dash c <> Str "-".
Proof.
  destruct c as [|x|s]; simpl; try discriminate.
  destruct (String.eqb s "-") eqn:E; [discriminate|].
  intros [= ->]. now rewrite String.eqb_refl in E.
Qed.

Lemma PrepareIdeb_eq (df : DataFrame) (k r n i : nat) :
  col_index raw_key (columns df) = Some k ->
  col_index raw_rend (columns df) = Some r ->
  col_index raw_nota (columns df) = Some n ->
  col_index raw_ideb (columns df) = Some i ->
  PrepareIdeb df =
  Ok (mkDF ideb_header
           (map (cleaned_row k r n i)
                (filter (fun row => notna (cell_at k row)) (rows df)))).
Proof.
  intros Hk Hr Hn Hi. unfold PrepareIdeb, select. simpl mapM.
  rewrite Hk, Hr, Hn, Hi.
  cbn -[key_rewrite replace_dash notna cell_at cleaned_row set_nth].
  f_equal. f_equal. rewrite !map_map.
  induction (rows df) as [|row l IH]; [reflexivity|].
  cbn -[key_rewrite replace_dash notna cell_at cleaned_row set_nth].
  change (cell_at 0 [cell_at k row; cell_at r row; cell_at n row; cell_at i row])
    with (cell_at k row).
  destruct (notna (cell_at k row)); [|exact IH].
  cbn -[key_rewrite replace_dash notna cell_at cleaned_row set_nth].
  rewrite IH. f_equal.
Qed.

(** C7. On every table that has the four expected columns [PrepareIdeb]
    returns a table with exactly the four canonical columns, in which no row
    has a missing key and the text "-" occurs in none of the three numeric
    columns: the rows are the rows of the input that have a key, reduced to
    the four columns, with each "-" turned into the missing marker and the
    key rewritten. *)
Theorem PrepareIdeb_clean (df : DataFrame) :
  wf_df df ->
  In raw_key (columns df) -> In raw_rend (columns df) ->
  In raw_nota (columns df) -> In raw_ideb (columns df) ->
  exists out,
    PrepareIdeb df = Ok out /\
    columns out = ["CO_ESCOLA"; "IN_RENDIMENTO"; "NT_PADRONIZADA"; "IDEB"] /\
    Forall (fun row =>
              length row = 4 /\
              isna (cell_at 0 row) = false /\
              cell_at 1 row <> Str "-" /\
              cell_at 2 row <> Str "-" /\
              cell_at 3 row <> Str "-") (rows out) /\
    replace_dash (Str "-") = NaN /\
    exists k r n i,
      col_index raw_key (columns df) = Some k /\
      col_index raw_rend (columns df) = Some r /\
      col_index raw_nota (columns df) = Some n /\
      col_index raw_ideb (columns df) = Some i /\
      rows out = map (cleaned_row k r n i)
                     (filter (fun row => notna (cell_at k row)) (rows df)).
Proof.
  intros _ Hk Hr Hn Hi.
  destruct (col_index_In _ _ Hk) as [k Ek], (col_index_In _ _ Hr) as [r Er],
           (col_index_In _ _ Hn) as [n En], (col_index_In _ _ Hi) as [i Ei].
  eexists. split; [apply (PrepareIdeb_eq df k r n i); assumption|].
  split; [reflexivity|]. split.
  - simpl rows. apply Forall_forall. intros row Hrow.
    apply in_map_iff in Hrow. destruct Hrow as [row0 [<- _]].
    unfold cleaned_row, cell_at. simpl.
    repeat split; auto using replace_dash_no_dash.
  - split; [reflexivity|]. exists k, r, n, i. repeat split; assumption.
Qed.

(** ** The group-comparison test *)

Lemma mapM_length {A B : Type} (f : A -> result B) (l : list A) (l' : list B) :
  mapM f l = Ok l' -> length l' = length l.
Proof.
  revert l'. induction l as [|a l IH]; simpl; intros l' H.
  - injection H as <-. reflexivity.
  - apply bind_Ok in H. destruct H as [b [_ H]].
    apply bind_Ok in H. destruct H as [bs [Hbs H]].
    injection H as <-. simpl. f_equal. auto.
Qed.

Lemma mapM_Forall2 {A B : Type} (f : A -> result B) (l : list A) (l' : list B) :
  mapM f l = Ok l' <-> Forall2 (fun a b => f a = Ok b) l l'.
Proof.
  revert l'. induction l as [|a l IH]; simpl; intros l'.
  - split; [intros [= <-]; constructor | intros H; inversion H; reflexivity].
  - split.
    + intros H. apply bind_Ok in H. destruct H as [b [Hb H]].
      apply bind_Ok in H. destruct H as [bs [Hbs H]]. injection H as <-.
      constructor; [assumption | now apply IH].
    + intros H. inversion H as [|? b ? bs Hb Hbs]; subst.
      rewrite Hb. simpl. apply IH in Hbs. rewrite Hbs. reflexivity.
Qed.

Lemma items_all_gen {A : Type} (pre l : list A) :
  mapM (item (pre ++ l)) (seq (length pre) (length l)) = Ok l.
Proof.
  revert pre. induction l as [|a l IH]; intros pre; simpl; [reflexivity|].
  unfold item at 1. rewrite nth_error_app2 by lia.
  rewrite Nat.sub_diag. simpl.
  specialize (IH (pre ++ [a])). rewrite <- app_assoc in IH. simpl in IH.
  rewrite length_app in IH. simpl in IH. rewrite Nat.add_1_r in IH.
  rewrite IH. reflexivity.
Qed.

Lemma items_all {A : Type} (l : list A) :
  mapM (item l) (seq 0 (length l)) = Ok l.
Proof. exact (items_all_gen [] l). Qed.

Lemma prepare_samples_length (df : DataFrame) (col : string) (k : nat)
  (samples : list (list cell)) :
  prepare_samples df col = Ok (k, samples) -> length samples = k.
Proof.
  unfold prepare_samples. intros H.
  apply bind_Ok in H. destruct H as [df_ [_ H]].
  apply bind_Ok in H. destruct H as [_ [_ H]].
  apply bind_Ok in H. destruct H as [cats [_ H]].
  apply bind_Ok in H. destruct H as [tot [_ H]].
  apply bind_Ok in H. destruct H as [ss [Hss H]].
  injection H as <- <-. unfold build_samples in Hss.
  apply mapM_length in Hss. now rewrite length_seq in Hss.
Qed.

Lemma kruskal_call_all (samples : list (list cell)) (alt : option string) :
  kruskal_call samples (length samples) alt = Ok (Some (Kruskal samples alt)).
Proof. unfold kruskal_call. now rewrite items_all. Qed.

(** The dispatch follows the enumeration for every [k], as soon as there
    are [k] samples. *)
Lemma dispatch_enumerated (samples : list (list cell)) :
  dispatch (length samples) samples
  = Ok (enumerated_call (length samples) samples).
Proof.
  remember (length samples) as k eqn:Hk.
  unfold dispatch, enumerated_call.
  destruct (k =? 2) eqn:E2.
  { apply Nat.eqb_eq in E2. subst k.
    destruct samples as [|x [|y [|z l]]]; try discriminate. reflexivity. }
  simpl existsb.
  repeat match goal with
  | |- context [k =? ?c] =>
      let E := fresh "E" in
      destruct (k =? c) eqn:E;
      [ apply Nat.eqb_eq in E; rewrite E in Hk; rewrite Hk;
        simpl orb; apply kruskal_call_all | ]
  end.
  reflexivity.
Qed.

Lemma NonParamTest_issued (df : DataFrame) (col : string) (alpha : float)
  (k : nat) (samples : list (list cell)) :
  prepare_samples df col = Ok (k, samples) ->
  issued (NonParamTest df col alpha) = enumerated_call k samples.
Proof.
  intros H. pose proof (prepare_samples_length _ _ _ _ H) as Hlen.
  unfold NonParamTest. rewrite H. simpl bind. subst k.
  rewrite dispatch_enumerated.
  destruct (enumerated_call (length samples) samples); reflexivity.
Qed.

Lemma enumerated_call_unsupported (k : nat) (samples : list (list cell)) :
  supported k = false -> enumerated_call k samples = None.
Proof.
  unfold supported, enumerated_call. simpl existsb. intros H.
  repeat (apply orb_false_elim in H; destruct H as [? H]).
  repeat match goal with E : (k =? _) = false |- _ => rewrite E; clear E end.
  reflexivity.
Qed.

(** C4, as the code has it.  For every group count without a branch,
    [NonParamTest] issues no scipy call and prints no verdict; it does not
    return quietly: reading the never assigned [p] raises
    [UnboundLocalError]. *)
Theorem NonParamTest_unsupported (df : DataFrame) (col : string)
  (alpha : float) (k : nat) (samples : list (list cell)) :
  prepare_samples df col = Ok (k, samples) ->
  supported k = false ->
  NonParamTest df col alpha = mkRun None (Raise UnboundLocalError).
Proof.
  intros H Hk. pose proof (prepare_samples_length _ _ _ _ H) as Hlen.
  unfold NonParamTest. rewrite H. simpl bind. subst k.
  rewrite dispatch_enumerated, enumerated_call_unsupported by assumption.
  reflexivity.
Qed.

(** C1, at an input with a missing category.  The column [TP_ENSINO] of
    [df_null_first] has two distinct category values, "1" and "2", so [k] is
    2 and the two-sample test is chosen; but the samples follow [unique()],
    which lists the missing value first: the first sample is empty, the second
    holds the rows of "1", and the rows of "2" (610 and 620) are in no
    sample. *)
Theorem NonParamTest_null_category (alpha : float) :
  getcol df_null_first "TP_ENSINO"
    = Ok [NaN; Str "1"; Str "1"; Str "2"; Str "2"] /\
  prepare_samples df_null_first "TP_ENSINO"
    = Ok (2, [ []; [Num 520; Num 530] ]) /\
  issued (NonParamTest df_null_first "TP_ENSINO" alpha)
    = Some (MannWhitneyU [] [Num 520; Num 530]).
Proof.
  split; [reflexivity|]. split; [reflexivity|].
  rewrite (NonParamTest_issued _ _ _ 2 [ []; [Num 520; Num 530] ]);
    reflexivity.
Qed.

(** ** The normality sweep *)






Lemma map_fst_combine {A B : Type} (l : list A) (l' : list B) :
  length l = length l' -> map fst (combine l l') = l.
Proof.
  revert l'. induction l as [|a l IH]; intros [|b l']; simpl; intros H;
    try discriminate; auto. f_equal. apply IH. lia.
Qed.








(** ** The Merger: what happens to the caller's tables *)

Lemma insert_row_perm (i : nat) (r : list cell) (l : list (list cell)) :
  Permutation (insert_row i r l) (r :: l).
Proof.
  induction l as [|r' l IH]; simpl; [reflexivity|].
  destruct (key_le (cell_at i r) (cell_at i r')); [reflexivity|].
  rewrite IH. apply perm_swap.
Qed.

Lemma sort_rows_perm (i : nat) (l : list (list cell)) :
  Permutation (sort_rows i l) l.
Proof.
  induction l as [|r l IH]; simpl; [reflexivity|].
  rewrite insert_row_perm. now constructor.
Qed.

Lemma key_le_total (a b : cell) : key_le a b = true \/ key_le b a = true.
Proof.
  destruct a as [|x|s], b as [|y|t]; simpl; auto.
  - destruct (Qlt_le_dec x y) as [Hlt|Hle].
    + left. apply Qle_bool_iff. now apply Qlt_le_weak.
    + right. now apply Qle_bool_iff.
  - apply String.leb_total.
Qed.

Lemma insert_row_sorted (i : nat) (r : list cell) (l : list (list cell)) :
  key_sorted i l -> key_sorted i (insert_row i r l).
Proof.
  unfold key_sorted. induction l as [|r' l IH]; simpl; intros Hs.
  - repeat constructor.
  - destruct (key_le (cell_at i r) (cell_at i r')) eqn:E.
    + constructor; [assumption|]. now constructor.
    + inversion Hs as [|? ? Hl Hhd]; subst. constructor; [now apply IH|].
      assert (Hr : key_le (cell_at i r') (cell_at i r) = true)
        by (destruct (key_le_total (cell_at i r) (cell_at i r'));
            [congruence|assumption]).
      destruct l as [|r'' l]; simpl; [now constructor|].
      destruct (key_le (cell_at i r) (cell_at i r'')); constructor;
        [assumption|]. now inversion Hhd.
Qed.

Lemma sort_rows_sorted (i : nat) (l : list (list cell)) :
  key_sorted i (sort_rows i l).
Proof.
  induction l as [|r l IH]; simpl; [constructor|].
  now apply insert_row_sorted.
Qed.

Lemma sort_values_Ok (n : string) (df df' : DataFrame) :
  sort_values n df = Ok df' ->
  columns df' = columns df /\ Permutation (rows df') (rows df) /\
  exists i, col_index n (columns df) = Some i /\ key_sorted i (rows df').
Proof.
  unfold sort_values, index_of. intros H.
  destruct (col_index n (columns df)) as [i|]; [simpl in H|discriminate].
  destruct (_ && _); [discriminate|]. injection H as <-. simpl.
  split; [reflexivity|]. split; [apply sort_rows_perm|].
  exists i. split; [reflexivity | apply sort_rows_sorted].
Qed.

Lemma map_col_Ok (f : cell -> cell) (n : string) (df df' : DataFrame) :
  map_col f n df = Ok df' ->
  exists i, col_index n (columns df) = Some i /\
            columns df' = columns df /\
            rows df' = map (fun r => set_nth i (f (cell_at i r)) r) (rows df).
Proof.
  unfold map_col. destruct (col_index n (columns df)) as [i|]; [|discriminate].
  intros [= <-]. eauto.
Qed.

(** C9, as the code has it.  [GetMerged] works on the caller's tables in
    place.  Afterwards each of them has its columns and, up to their order,
    its rows; the rows of [ideb] are those of [key_as_text ideb], that is
    with the key rewritten as text; and when the call returns, both tables
    are left in ascending order of the key. *)
Theorem GetMerged_caller_tables (enem ideb : DataFrame) :
  let c := fst (GetMerged enem ideb) in
  columns (caller_enem c) = columns enem /\
  Permutation (rows (caller_enem c)) (rows enem) /\
  columns (caller_ideb c) = columns ideb /\
  Permutation (rows (caller_ideb c)) (rows (key_as_text ideb)) /\
  (forall out, snd (GetMerged enem ideb) = Ok out ->
               sorted_by_key (caller_enem c) /\ sorted_by_key (caller_ideb c)).
Proof.
  unfold GetMerged, key_as_text.
  destruct (map_col stringify "CO_ESCOLA" ideb) as [ideb1|e] eqn:E1; simpl;
    [|repeat split; try reflexivity; discriminate].
  apply map_col_Ok in E1. destruct E1 as [i [_ [Hc1 _]]].
  destruct (sort_values "CO_ESCOLA" ideb1) as [ideb2|e] eqn:E2; simpl;
    [|repeat split; auto; discriminate].
  apply sort_values_Ok in E2. destruct E2 as [Hc2 [Hp2 [i2 [Hi2 Hs2]]]].
  destruct (sort_values "CO_ESCOLA" enem) as [enem1|e] eqn:E3; simpl.
  - apply sort_values_Ok in E3. destruct E3 as [Hc3 [Hp3 [i3 [Hi3 Hs3]]]].
    split; [assumption|]. split; [assumption|]. split; [congruence|].
    split; [assumption|]. intros out _. split.
    + exists i3. rewrite Hc3. auto.
    + exists i2. rewrite Hc2. auto.
  - split; [reflexivity|]. split; [reflexivity|]. split; [congruence|].
    split; [assumption|]. discriminate.
Qed.

(** ** The Merger: the join *)

Lemma pick_keep_mask (n : string) (cols : list string) :
  pick (keep_mask n cols) cols = filter (fun c => negb (String.eqb c n)) cols.
Proof.
  unfold pick, keep_mask. induction cols as [|c cols IH]; simpl; [reflexivity|].
  destruct (String.eqb c n); simpl; [exact IH | now rewrite IH].
Qed.

Lemma drop_Ok (labels : list string) (df df' : DataFrame) :
  drop labels df = Ok df' ->
  columns df' = drop_names labels (columns df) /\
  rows df' = map (drop_cells labels (columns df)) (rows df).
Proof.
  revert df. induction labels as [|n labels IH]; simpl; intros df H.
  - injection H as <-. split; [reflexivity|]. now rewrite map_id.
  - apply bind_Ok in H. destruct H as [df1 [H1 H]].
    unfold drop1 in H1. destruct (existsb _ _); [|discriminate].
    injection H1 as <-. apply IH in H. simpl in H. destruct H as [-> ->].
    split; [reflexivity|]. now rewrite map_map.
Qed.

Lemma drop_names_app (l1 l2 cols : list string) :
  drop_names (l1 ++ l2) cols = drop_names l2 (drop_names l1 cols).
Proof.
  revert cols. induction l1 as [|n l1 IH]; simpl; intros cols; auto.
Qed.

Lemma drop_cells_app (l1 l2 cols : list string) (r : list cell) :
  drop_cells (l1 ++ l2) cols r
  = drop_cells l2 (drop_names l1 cols) (drop_cells l1 cols r).
Proof.
  revert cols r. induction l1 as [|n l1 IH]; simpl; intros cols r; auto.
Qed.

Lemma drop_names_not_In (labels cols : list string) (n : string) :
  In n labels -> ~ In n (drop_names labels cols).
Proof.
  revert cols. induction labels as [|a labels IH]; simpl; intros cols;
    [intros []|].
  assert (Hsub : forall ls cs, ~ In n cs -> ~ In n (drop_names ls cs)).
  { clear. induction ls as [|a ls IH]; simpl; intros cs H; auto.
    apply IH. rewrite pick_keep_mask. intros Hin. apply filter_In in Hin.
    destruct Hin. auto. }
  intros [->|H]; [|now apply IH].
  apply Hsub. rewrite pick_keep_mask. intros Hin. apply filter_In in Hin.
  destruct Hin as [_ Hin]. now rewrite String.eqb_refl in Hin.
Qed.

Lemma Forall2_map_r {A B : Type} (P : A -> B -> Prop) (f : A -> B)
  (l : list A) :
  (forall a, In a l -> P a (f a)) -> Forall2 P l (map f l).
Proof.
  induction l as [|a l IH]; simpl; intros H; constructor; auto.
Qed.

(** C6.  The join of [GetMerged] is a left join followed by unconditional
    drops.  In the merged table [j] every row of [enem] owns a non-empty
    block of rows, in order, each starting with the cells of that row; when
    no row of [ideb] carries its key the block is the single row completed
    with missing outcome cells, otherwise there is one row per match,
    completed with the outcome cells of the match.  The result keeps the
    rows of [j] and loses the columns labelled [CO_ESCOLA], [IDEB] and
    [NT_PADRONIZADA], whatever they hold. *)
Theorem join_stage_left_join (enem ideb m : DataFrame) :
  join_stage enem ideb = Ok m ->
  exists li ri j blocks,
    col_index "CO_ESCOLA" (columns enem) = Some li /\
    col_index "CO_ESCOLA" (columns ideb) = Some ri /\
    merge_left "CO_ESCOLA" enem ideb = Ok j /\
    rows j = concat blocks /\
    Forall2 (fun l b =>
               b <> [] /\
               Forall (fun r => firstn (length l) r = l) b /\
               (matches li ri ideb l = [] ->
                b = [l ++ repeat NaN (length (columns ideb) - 1)]) /\
               (matches li ri ideb l <> [] ->
                b = map (fun r => l ++ remove_nth ri r)
                        (matches li ri ideb l)))
            (rows enem) blocks /\
    columns m = drop_names dropped_labels (columns j) /\
    rows m = map (drop_cells dropped_labels (columns j)) (rows j) /\
    ~ In "IDEB" (columns m) /\ ~ In "NT_PADRONIZADA" (columns m) /\
    ~ In "CO_ESCOLA" (columns m).
Proof.
  unfold join_stage. intros H.
  apply bind_Ok in H. destruct H as [j [Hj H]].
  apply bind_Ok in H. destruct H as [j1 [H1 H2]].
  apply drop_Ok in H1. destruct H1 as [Hc1 Hr1].
  apply drop_Ok in H2. destruct H2 as [Hc2 Hr2].
  assert (Hcols : columns m = drop_names dropped_labels (columns j)).
  { rewrite Hc2, Hc1. symmetry.
    apply (drop_names_app ["CO_ESCOLA"] ["IDEB"; "NT_PADRONIZADA"]). }
  pose proof Hj as Hj'. unfold merge_left, index_of in Hj'.
  destruct (col_index "CO_ESCOLA" (columns enem)) as [li|] eqn:Eli;
    [|discriminate].
  destruct (col_index "CO_ESCOLA" (columns ideb)) as [ri|] eqn:Eri;
    [|discriminate].
  simpl in Hj'. destruct (_ || _); [discriminate|]. injection Hj' as Hj'.
  set (block := fun l : list cell =>
         match matches li ri ideb l with
         | [] => [l ++ repeat NaN (length (remove_nth ri (columns ideb)))]
         | ms => map (fun r => l ++ remove_nth ri r) ms
         end).
  exists li, ri, j, (map block (rows enem)).
  assert (Hw : length (remove_nth ri (columns ideb))
               = length (columns ideb) - 1).
  { apply col_index_nth in Eri. destruct Eri as [Hlt _]. clear -Hlt.
    revert ri Hlt. induction (columns ideb) as [|c cols IH]; intros ri Hlt;
      simpl in *; [lia|].
    destruct ri as [|ri]; simpl; [lia|].
    rewrite IH by lia. lia. }
  repeat split; auto.
  - rewrite <- Hj'. simpl. now rewrite flat_map_concat_map.
  - apply Forall2_map_r. intros l _. unfold block.
    destruct (matches li ri ideb l) as [|r0 ms] eqn:Em.
    + repeat split; try discriminate; try congruence.
      constructor; [|constructor].
      rewrite firstn_app, Nat.sub_diag, firstn_all. simpl.
      apply app_nil_r.
    + repeat split; try discriminate; auto.
      apply Forall_forall. intros r Hr. apply in_map_iff in Hr.
      destruct Hr as [r1 [<- _]].
      rewrite firstn_app, Nat.sub_diag, firstn_all. simpl. apply app_nil_r.
  - rewrite Hr2, Hr1, Hc1, map_map. apply map_ext. intros r. symmetry.
    apply (drop_cells_app ["CO_ESCOLA"] ["IDEB"; "NT_PADRONIZADA"]).
  - rewrite Hcols. apply drop_names_not_In. simpl. auto.
  - rewrite Hcols. apply drop_names_not_In. simpl. auto.
  - rewrite Hcols. apply drop_names_not_In. simpl. auto.
Qed.

(** ** Columns under the in-place updates *)

Lemma column_length (i : nat) (df : DataFrame) :
  length (column i df) = length (rows df).
Proof. apply length_map. Qed.

Lemma map_col_spec (f : cell -> cell) (n : string) (df df' : DataFrame) :
  rect df -> map_col f n df = Ok df' ->
  exists i, col_index n (columns df) = Some i /\
            columns df' = columns df /\ rect df' /\
            length (rows df') = length (rows df) /\
            column i df' = map f (column i df) /\
            (forall j, j <> i -> column j df' = column j df).
Proof.
  intros Hrect H. apply map_col_Ok in H. destruct H as [i [Hi [Hc Hr]]].
  exists i. pose proof (col_index_nth _ _ _ Hi) as [Hlt _].
  unfold rect, column in *. rewrite Hc, Hr.
  repeat split; auto.
  - apply Forall_forall. intros r Hin. apply in_map_iff in Hin.
    destruct Hin as [r0 [<- Hin]]. rewrite set_nth_length.
    rewrite Forall_forall in Hrect. auto.
  - apply length_map.
  - rewrite !map_map. apply map_ext_in. intros r Hin.
    apply cell_at_set_nth_same. rewrite Forall_forall in Hrect.
    rewrite (Hrect r Hin). exact Hlt.
  - intros j Hj. rewrite map_map. apply map_ext. intros r.
    apply cell_at_set_nth_other. auto.
Qed.

Lemma set_col_spec (i : nat) (vals : list cell) (df : DataFrame) :
  rect df -> i < length (columns df) -> length vals = length (rows df) ->
  columns (set_col i vals df) = columns df /\
  rect (set_col i vals df) /\
  length (rows (set_col i vals df)) = length (rows df) /\
  column i (set_col i vals df) = vals /\
  (forall j, j <> i -> column j (set_col i vals df) = column j df).
Proof.
  intros Hrect Hlt Hlen. unfold rect, column, set_col in *. simpl.
  split; [reflexivity|].
  revert vals Hlen. induction (rows df) as [|r l IH]; intros [|v vals] Hlen;
    simpl in *; try discriminate.
  - repeat split; auto.
  - inversion Hrect as [|? ? Hr Hl]; subst.
    destruct (IH Hl vals) as [H1 [H2 [H3 H4]]]; [lia|].
    repeat split.
    + constructor; [now rewrite set_nth_length | exact H1].
    + now rewrite H2.
    + rewrite H3. f_equal. apply cell_at_set_nth_same. now rewrite Hr.
    + intros j Hj. rewrite (H4 j Hj). f_equal.
      now apply cell_at_set_nth_other.
Qed.

Lemma to_float_not_str (c c' : cell) : to_float c = Ok c' -> is_str c' = false.
Proof.
  destruct c as [|x|s]; simpl.
  - intros [= <-]. reflexivity.
  - intros [= <-]. reflexivity.
  - destruct (py_float s) as [[x|]|]; intros [= <-]; reflexivity.
Qed.

Lemma mapM_to_float_not_str (l l' : list cell) :
  mapM to_float l = Ok l' -> existsb is_str l' = false.
Proof.
  intros H. apply mapM_Forall2 in H.
  induction H as [|c c' l l' Hc _ IH]; simpl; [reflexivity|].
  now rewrite (to_float_not_str _ _ Hc).
Qed.

Lemma groupby_length (keys vals meds : list cell) :
  groupby_transform_median keys vals = Ok meds -> length meds = length keys.
Proof.
  unfold groupby_transform_median. destruct (existsb is_str vals);
    [discriminate|]. intros [= <-].
  unfold group_codes. now rewrite !length_map.
Qed.

(** ** The imputation stage, column by column *)

Ltac distinct_index Ha Hb :=
  let X := fresh in
  intros ->; pose proof (col_index_inj _ _ _ _ Ha Hb) as X; discriminate X.

Lemma impute_stage_Ok (m m' : DataFrame) :
  rect m -> impute_stage m = Ok m' ->
  exists ia ic ie ir iu age med mc me meds,
    col_index "NU_IDADE" (columns m) = Some ia /\
    col_index "TP_ESTADO_CIVIL" (columns m) = Some ic /\
    col_index "TP_ENSINO" (columns m) = Some ie /\
    col_index "IN_RENDIMENTO" (columns m) = Some ir /\
    col_index "SG_UF_RESIDENCIA" (columns m) = Some iu /\
    mapM to_float (column ia m) = Ok age /\
    median_cells age = Ok med /\
    mode0 (column ic m) = Ok mc /\
    mode0 (column ie m) = Ok me /\
    groupby_transform_median (column iu m) (column ir m) = Ok meds /\
    columns m' = columns m /\ rect m' /\
    length (rows m') = length (rows m) /\
    column ia m' = map (fillna med) age /\
    column ic m' = map (fillna mc) (column ic m) /\
    column ie m' = map (fillna me) (column ie m) /\
    column ir m' = map (fun cm => fillna (snd cm) (fst cm))
                       (combine (column ir m) meds) /\
    (forall j, j <> ia -> j <> ic -> j <> ie -> j <> ir ->
               column j m' = column j m).
Proof.
  intros Hrect H. unfold impute_stage, index_of, getcol in H.
  fold (column) in H.
  destruct (col_index "NU_IDADE" (columns m)) as [ia|] eqn:Eia;
    [simpl in H|discriminate].
  apply bind_Ok in H. destruct H as [age [Hage H]].
  apply bind_Ok in H. destruct H as [med [Hmed H]].
  pose proof (col_index_nth _ _ _ Eia) as [Hlta _].
  destruct (set_col_spec ia age m Hrect Hlta) as [Hc1 [Hr1 [Hl1 [Hs1 Ho1]]]].
  { rewrite (mapM_length _ _ _ Hage). apply length_map. }
  apply bind_Ok in H. destruct H as [d2 [Hd2 H]].
  destruct (map_col_spec _ _ _ _ Hr1 Hd2)
    as [ia2 [Eia2 [Hc2 [Hr2 [Hl2 [Hs2 Ho2]]]]]].
  rewrite Hc1, Eia in Eia2. injection Eia2 as <-.
  rewrite Hc2, Hc1 in H.
  destruct (col_index "TP_ESTADO_CIVIL" (columns m)) as [ic|] eqn:Eic;
    [simpl in H|discriminate].
  apply bind_Ok in H. destruct H as [mc [Hmc H]].
  apply bind_Ok in H. destruct H as [d3 [Hd3 H]].
  destruct (map_col_spec _ _ _ _ Hr2 Hd3)
    as [ic3 [Eic3 [Hc3 [Hr3 [Hl3 [Hs3 Ho3]]]]]].
  rewrite Hc2, Hc1, Eic in Eic3. injection Eic3 as <-.
  rewrite Hc3, Hc2, Hc1 in H.
  destruct (col_index "TP_ENSINO" (columns m)) as [ie|] eqn:Eie;
    [simpl in H|discriminate].
  apply bind_Ok in H. destruct H as [me [Hme H]].
  apply bind_Ok in H. destruct H as [d4 [Hd4 H]].
  destruct (map_col_spec _ _ _ _ Hr3 Hd4)
    as [ie4 [Eie4 [Hc4 [Hr4 [Hl4 [Hs4 Ho4]]]]]].
  rewrite Hc3, Hc2, Hc1, Eie in Eie4. injection Eie4 as <-.
  rewrite Hc4, Hc3, Hc2, Hc1 in H.
  destruct (col_index "IN_RENDIMENTO" (columns m)) as [ir|] eqn:Eir;
    [simpl in H|discriminate].
  destruct (col_index "SG_UF_RESIDENCIA" (columns m)) as [iu|] eqn:Eiu;
    [simpl in H|discriminate].
  apply bind_Ok in H. destruct H as [meds [Hmeds H]]. injection H as <-.
  assert (Nac : ia <> ic) by distinct_index Eia Eic.
  assert (Nae : ia <> ie) by distinct_index Eia Eie.
  assert (Nar : ia <> ir) by distinct_index Eia Eir.
  assert (Nau : ia <> iu) by distinct_index Eia Eiu.
  assert (Nce : ic <> ie) by distinct_index Eic Eie.
  assert (Ncr : ic <> ir) by distinct_index Eic Eir.
  assert (Ncu : ic <> iu) by distinct_index Eic Eiu.
  assert (Ner : ie <> ir) by distinct_index Eie Eir.
  assert (Neu : ie <> iu) by distinct_index Eie Eiu.
  assert (Nru : ir <> iu) by distinct_index Eir Eiu.
  (* the columns read along the way are those of [m] *)
  assert (Ec : column ic d2 = column ic m).
  { rewrite Ho2, Ho1; auto. }
  assert (Ee : column ie d3 = column ie m).
  { rewrite Ho3, Ho2, Ho1; auto. }
  assert (Er : column ir d4 = column ir m).
  { rewrite Ho4, Ho3, Ho2, Ho1; auto. }
  assert (Eu : column iu d4 = column iu m).
  { rewrite Ho4, Ho3, Ho2, Ho1; auto. }
  fold (column ic d2) in Hmc. rewrite Ec in Hmc.
  fold (column ie d3) in Hme. rewrite Ee in Hme.
  fold (column ir d4) in Hmeds |- *. fold (column iu d4) in Hmeds.
  rewrite Er, Eu in Hmeds. rewrite Er.
  pose proof (col_index_nth _ _ _ Eir) as [Hltr _].
  destruct (set_col_spec ir
              (map (fun cm => fillna (snd cm) (fst cm))
                   (combine (column ir m) meds)) d4 Hr4)
    as [Hc5 [Hr5 [Hl5 [Hs5 Ho5]]]].
  { rewrite Hc4, Hc3, Hc2, Hc1. exact Hltr. }
  { rewrite length_map, length_combine, (groupby_length _ _ _ Hmeds).
    rewrite !column_length, Hl4, Hl3, Hl2, Hl1. lia. }
  exists ia, ic, ie, ir, iu, age, med, mc, me, meds.
  repeat split; auto.
  - congruence.
  - congruence.
  - rewrite Ho5, Ho4, Ho3, Hs2, Hs1; auto.
  - rewrite Ho5, Ho4, Hs3, Ec; auto.
  - rewrite Ho5, Hs4, Ee; auto.
  - intros j Hja Hjc Hje Hjr. rewrite Ho5, Ho4, Ho3, Ho2, Ho1; auto.
Qed.

(** ** The cast stage *)

Lemma cast_cols_spec (names : list string) (before : DataFrame) :
  forall acc out,
    rect acc -> columns acc = columns before ->
    length (rows acc) = length (rows before) ->
    cast_cols names before acc = Ok out ->
    columns out = columns before /\ rect out /\
    length (rows out) = length (rows before) /\
    (forall n i, In n names -> col_index n (columns before) = Some i ->
                 mapM to_float (column i before) = Ok (column i out)) /\
    (forall j, (forall n, In n names ->
                          col_index n (columns before) <> Some j) ->
               column j out = column j acc).
Proof.
  induction names as [|n0 names IH]; simpl; intros acc out Hrect Hc Hl H.
  - injection H as <-. repeat split; auto. intros n i [].
  - unfold index_of in H.
    destruct (col_index n0 (columns before)) as [i0|] eqn:E0;
      [simpl in H|discriminate].
    apply bind_Ok in H. destruct H as [vals [Hvals H]].
    pose proof (col_index_nth _ _ _ E0) as [Hlt _].
    destruct (set_col_spec i0 vals acc Hrect) as [Hc1 [Hr1 [Hl1 [Hs1 Ho1]]]].
    { now rewrite Hc. }
    { rewrite (mapM_length _ _ _ Hvals), Hl. apply length_map. }
    destruct (IH _ _ Hr1 (eq_trans Hc1 Hc) (eq_trans Hl1 Hl) H)
      as [Hco [Hro [Hlo [Hnum Hoth]]]].
    repeat split; auto.
    + intros n i [<-|Hin] Hi; [|eauto].
      destruct (in_dec string_dec n0 names) as [Hin|Hnin]; [eauto|].
      rewrite E0 in Hi. injection Hi as <-.
      rewrite Hoth, Hs1; [exact Hvals|].
      intros n Hn Hi. apply Hnin.
      now rewrite (col_index_inj _ _ _ _ E0 Hi).
    + intros j Hj. rewrite Hoth by (intros n Hn; apply Hj; now right).
      apply Ho1. intros ->. apply (Hj n0); auto.
Qed.

Lemma column_applymap_str (j : nat) (df : DataFrame) :
  rect df -> j < length (columns df) ->
  column j (applymap_str df) = map stringify (column j df).
Proof.
  intros Hrect Hj. unfold column, applymap_str. simpl. rewrite !map_map.
  apply map_ext_in. intros r Hr. unfold rect in Hrect.
  rewrite Forall_forall in Hrect. specialize (Hrect r Hr).
  unfold cell_at. rewrite (nth_indep _ NaN (stringify NaN)).
  - apply map_nth.
  - rewrite length_map. lia.
Qed.

Lemma rect_applymap_str (df : DataFrame) : rect df -> rect (applymap_str df).
Proof.
  unfold rect, applymap_str. simpl. intros H. apply Forall_forall.
  intros r Hr. apply in_map_iff in Hr. destruct Hr as [r0 [<- Hr0]].
  rewrite length_map. rewrite Forall_forall in H. auto.
Qed.

Lemma cast_stage_Ok (m out : DataFrame) :
  rect m -> cast_stage m = Ok out ->
  columns out = columns m /\ rect out /\
  length (rows out) = length (rows m) /\
  (forall n i, In n numeric_cols -> col_index n (columns m) = Some i ->
               mapM to_float (column i m) = Ok (column i out)) /\
  (forall j, j < length (columns m) ->
             (forall n, In n numeric_cols ->
                        col_index n (columns m) <> Some j) ->
             column j out = map stringify (column j m)).
Proof.
  intros Hrect H. unfold cast_stage in H.
  apply cast_cols_spec in H; auto using rect_applymap_str.
  - destruct H as [Hc [Hr [Hl [Hn Ho]]]]. repeat split; auto.
    intros j Hj Hnot. rewrite Ho by assumption.
    now apply column_applymap_str.
  - unfold applymap_str. simpl. apply length_map.
Qed.

Lemma GetMerged_result (enem ideb : DataFrame) :
  snd (GetMerged enem ideb)
  = raise_print (m <- joined enem ideb ;; m' <- impute_stage m ;;
                 cast_stage m').
Proof.
  unfold GetMerged, joined.
  destruct (map_col stringify "CO_ESCOLA" ideb) as [ideb1|e]; simpl;
    [|reflexivity].
  destruct (sort_values "CO_ESCOLA" ideb1) as [ideb2|e']; simpl;
    [|reflexivity].
  destruct (sort_values "CO_ESCOLA" enem) as [enem1|e'']; reflexivity.
Qed.

Lemma GetMerged_Ok (enem ideb out : DataFrame) :
  snd (GetMerged enem ideb) = Ok out <->
  exists m m', joined enem ideb = Ok m /\ impute_stage m = Ok m' /\
               cast_stage m' = Ok out.
Proof.
  rewrite GetMerged_result. split.
  - intros H. destruct (joined enem ideb) as [m|]; [|discriminate].
    simpl in H. destruct (impute_stage m) as [m'|] eqn:E1; [|discriminate].
    simpl in H. destruct (cast_stage m') as [o|] eqn:E2; [|discriminate].
    injection H as <-. exists m, m'. auto.
  - intros [m [m' [-> [H1 H2]]]]. simpl. rewrite H1. simpl. rewrite H2.
    reflexivity.
Qed.

(** ** Rectangular tables through the join *)

Lemma remove_nth_length {A : Type} (i : nat) (l : list A) :
  i < length l -> length (remove_nth i l) = length l - 1.
Proof.
  revert i. induction l as [|a l IH]; intros i Hlt; simpl in *; [lia|].
  destruct i as [|i]; simpl; [lia|]. rewrite IH by lia. lia.
Qed.

Lemma pick_length {A B : Type} (mask : list bool) (l : list A) (l' : list B) :
  length l = length l' -> length (pick mask l) = length (pick mask l').
Proof.
  unfold pick. rewrite !length_map. revert l l'.
  induction mask as [|b mask IH]; intros [|a l] [|a' l'] H; simpl in *;
    try discriminate; auto.
  destruct b; simpl; auto.
Qed.

Lemma rect_sort_values (n : string) (df df' : DataFrame) :
  rect df -> sort_values n df = Ok df' -> rect df'.
Proof.
  intros Hrect H. apply sort_values_Ok in H. destruct H as [Hc [Hp _]].
  unfold rect in *. rewrite Hc. rewrite Forall_forall in *.
  intros r Hr. apply Hrect. eapply Permutation_in; eauto.
Qed.

Lemma rect_drop (labels : list string) (df df' : DataFrame) :
  rect df -> drop labels df = Ok df' -> rect df'.
Proof.
  revert df. induction labels as [|n labels IH]; simpl; intros df Hrect H.
  - now injection H as <-.
  - apply bind_Ok in H. destruct H as [df1 [H1 H]].
    apply (IH df1); auto. unfold drop1 in H1.
    destruct (existsb _ _); [|discriminate]. injection H1 as <-.
    unfold rect in *. simpl. apply Forall_forall. intros r Hr.
    apply in_map_iff in Hr. destruct Hr as [r0 [<- Hr0]].
    apply pick_length. rewrite Forall_forall in Hrect. auto.
Qed.

Lemma rect_merge_left (key : string) (l r j : DataFrame) :
  rect l -> rect r -> merge_left key l r = Ok j -> rect j.
Proof.
  intros Hl Hr H. unfold merge_left, index_of in H.
  destruct (col_index key (columns l)) as [li|]; [|discriminate].
  destruct (col_index key (columns r)) as [ri|] eqn:Eri; [|discriminate].
  simpl in H. destruct (_ || _); [discriminate|]. injection H as <-.
  pose proof (col_index_nth _ _ _ Eri) as [Hlt _].
  unfold rect in *. simpl. rewrite Forall_forall in *.
  intros row Hrow. apply in_flat_map in Hrow. destruct Hrow as [x [Hx Hrow]].
  rewrite length_app, !length_map, remove_nth_length by assumption.
  destruct (filter _ (rows r)) as [|r0 ms] eqn:Ef.
  - destruct Hrow as [<-|[]]. rewrite length_app, repeat_length.
    rewrite (Hl x Hx), remove_nth_length by assumption. reflexivity.
  - change (In row (map (fun r => x ++ remove_nth ri r) (r0 :: ms))) in Hrow.
    apply in_map_iff in Hrow. destruct Hrow as [r1 [<- Hr1]].
    assert (Hin : In r1 (rows r)).
    { rewrite <- Ef in Hr1. apply filter_In in Hr1. destruct Hr1. auto. }
    rewrite length_app, (Hl x Hx), remove_nth_length;
      rewrite (Hr r1 Hin); auto.
Qed.

Lemma rect_joined (enem ideb m : DataFrame) :
  rect enem -> rect ideb -> joined enem ideb = Ok m -> rect m.
Proof.
  intros He Hi H. unfold joined in H.
  apply bind_Ok in H. destruct H as [ideb1 [H1 H]].
  apply bind_Ok in H. destruct H as [ideb2 [H2 H]].
  apply bind_Ok in H. destruct H as [enem1 [H3 H]].
  destruct (map_col_spec _ _ _ _ Hi H1) as [i [_ [_ [Hr1 _]]]].
  pose proof (rect_sort_values _ _ _ Hr1 H2) as Hr2.
  pose proof (rect_sort_values _ _ _ He H3) as Hr3.
  unfold join_stage in H.
  apply bind_Ok in H. destruct H as [j [Hj H]].
  apply bind_Ok in H. destruct H as [j1 [Hj1 H]].
  pose proof (rect_merge_left _ _ _ _ Hr3 Hr2 Hj) as Hrj.
  eapply rect_drop; [|exact H]. eapply rect_drop; eauto.
Qed.

(** ** Groups and their medians *)

Lemma same_value_refl (a : cell) : same_value a a = true.
Proof.
  destruct a as [|x|t]; simpl; auto.
  - apply Qeq_bool_iff. reflexivity.
  - apply String.eqb_refl.
Qed.

Lemma same_value_sym (a b : cell) : same_value a b = same_value b a.
Proof.
  destruct a as [|x|t], b as [|y|u]; simpl; auto.
  - destruct (Qeq_bool x y) eqn:E1, (Qeq_bool y x) eqn:E2; auto.
    + apply Qeq_bool_iff in E1. symmetry in E1. apply Qeq_bool_iff in E1.
      congruence.
    + apply Qeq_bool_iff in E2. symmetry in E2. apply Qeq_bool_iff in E2.
      congruence.
  - apply String.eqb_sym.
Qed.

Lemma same_value_trans (a b c : cell) :
  same_value a b = true -> same_value b c = true -> same_value a c = true.
Proof.
  destruct a as [|x|t], b as [|y|u], c as [|z|v]; simpl; auto;
    try discriminate.
  - intros H1 H2. apply Qeq_bool_iff in H1, H2. apply Qeq_bool_iff.
    now rewrite H1.
  - intros H1 H2. apply String.eqb_eq in H1, H2. subst. apply String.eqb_refl.
Qed.

Lemma same_value_congr (g a b : cell) :
  same_value a b = true -> same_value g a = same_value g b.
Proof.
  intros H. destruct (same_value g a) eqn:E1, (same_value g b) eqn:E2; auto.
  - rewrite (same_value_trans _ _ _ E1 H) in E2. discriminate.
  - rewrite same_value_sym in H.
    rewrite (same_value_trans _ _ _ E2 H) in E1. discriminate.
Qed.

Lemma find_code_congr (gk : list cell) (a b : cell) :
  same_value a b = true -> find_code gk a = find_code gk b.
Proof.
  intros H. induction gk as [|g gk IH]; simpl; [reflexivity|].
  rewrite (same_value_congr g a b H), IH. reflexivity.
Qed.

Lemma find_code_Some (gk : list cell) (k : cell) (g : nat) :
  find_code gk k = Some g -> same_value (nth g gk NaN) k = true.
Proof.
  revert g. induction gk as [|c gk IH]; simpl; intros g; [discriminate|].
  destruct (same_value c k) eqn:E.
  - intros [= <-]. exact E.
  - destruct (find_code gk k) as [g'|]; simpl; [|discriminate].
    intros [= <-]. now apply IH.
Qed.

Lemma find_code_exists (gk : list cell) (k u : cell) :
  In u gk -> same_value u k = true -> exists g, find_code gk k = Some g.
Proof.
  induction gk as [|c gk IH]; simpl; [intros []|].
  intros Hin Hu. destruct (same_value c k) eqn:E; [eauto|].
  destruct Hin as [->|Hin]; [congruence|].
  destruct (IH Hin Hu) as [g ->]. simpl. eauto.
Qed.

Lemma unique_covers (l : list cell) (k : cell) :
  In k l -> exists u, In u (unique l) /\ same_value u k = true.
Proof.
  induction l as [|c l IH]; simpl; [intros []|].
  intros [->|Hin].
  - exists k. split; [now left | apply same_value_refl].
  - destruct (IH Hin) as [u [Hu Huk]].
    destruct (same_value c u) eqn:E.
    + exists c. split; [now left | eapply same_value_trans; eauto].
    + exists u. split; [|assumption]. right. apply filter_In.
      split; [assumption | now rewrite E].
Qed.

Lemma group_code_exists (keys : list cell) (k : cell) :
  In k keys -> isna k = false ->
  exists g, find_code (group_keys keys) k = Some g.
Proof.
  intros Hin Hk. unfold group_keys.
  destruct (unique_covers (filter notna keys) k) as [u [Hu Huk]].
  { apply filter_In. split; [assumption|]. unfold notna. now rewrite Hk. }
  eapply find_code_exists; eauto.
Qed.

Lemma group_vals_values (keys vals : list cell) (k : cell) (g : nat) :
  isna k = false -> find_code (group_keys keys) k = Some g ->
  group_vals (group_codes keys) vals g = group_values keys vals k.
Proof.
  intros Hk Hg. unfold group_vals, group_values, group_codes.
  generalize (group_keys keys) Hg. clear Hg. intros gk Hg.
  revert vals. induction keys as [|k' keys IH]; intros [|v vals]; simpl;
    try reflexivity.
  assert (E : in_group g (if isna k' then None else find_code gk k')
              = same_value k k').
  { destruct k' as [|x|t]; simpl isna; cbv iota.
    - destruct k; simpl in *; try discriminate; reflexivity.
    - destruct (same_value k (Num x)) eqn:E.
      + rewrite <- (find_code_congr gk _ _ E), Hg. simpl.
        apply Nat.eqb_refl.
      + destruct (find_code gk (Num x)) as [g'|] eqn:E'; simpl; auto.
        destruct (g' =? g) eqn:Eg; auto. apply Nat.eqb_eq in Eg. subst g'.
        apply find_code_Some in Hg, E'. rewrite same_value_sym in Hg.
        rewrite (same_value_trans _ _ _ Hg E') in E. discriminate.
    - destruct (same_value k (Str t)) eqn:E.
      + rewrite <- (find_code_congr gk _ _ E), Hg. simpl.
        apply Nat.eqb_refl.
      + destruct (find_code gk (Str t)) as [g'|] eqn:E'; simpl; auto.
        destruct (g' =? g) eqn:Eg; auto. apply Nat.eqb_eq in Eg. subst g'.
        apply find_code_Some in Hg, E'. rewrite same_value_sym in Hg.
        rewrite (same_value_trans _ _ _ Hg E') in E. discriminate. }
  rewrite E. destruct (same_value k k'); simpl; now rewrite IH.
Qed.

(** The transform, row by row: a row with a key receives the median of the
    rows that share its key, a row without a key the missing marker. *)
Lemma groupby_spec (keys vals meds : list cell) :
  groupby_transform_median keys vals = Ok meds ->
  existsb is_str vals = false /\
  meds = map (fun k => if isna k then NaN else group_median keys vals k) keys.
Proof.
  unfold groupby_transform_median.
  destruct (existsb is_str vals) eqn:Es; [discriminate|].
  intros [= <-]. split; [reflexivity|].
  set (agg := map (fun g => median_q (nums (group_vals (group_codes keys) vals g)))
                  (seq 0 (length (group_keys keys)))).
  unfold group_codes. rewrite map_map. apply map_ext_in.
  intros k Hin. fold (group_codes keys) in agg. destruct (isna k) eqn:Hk; [reflexivity|].
  destruct (group_code_exists keys k Hin Hk) as [g Hg]. rewrite Hg.
  assert (Hlt : g < length (group_keys keys)).
  { destruct (Nat.lt_ge_cases g (length (group_keys keys))) as [|Hge]; auto.
    apply find_code_Some in Hg. rewrite nth_overflow in Hg by assumption.
    destruct k; simpl in *; discriminate. }
  unfold agg.
  rewrite (nth_indep _ NaN (median_q (nums (group_vals (group_codes keys) vals 0))))
    by (now rewrite length_map, length_seq).
  rewrite (map_nth (fun g => median_q (nums (group_vals (group_codes keys) vals g)))).
  rewrite seq_nth by assumption. simpl.
  unfold group_median. now rewrite (group_vals_values keys vals k g).
Qed.

(** ** Medians and modes *)

Lemma insert_q_length (x : Q) (l : list Q) :
  length (insert_q x l) = S (length l).
Proof.
  induction l as [|y l IH]; simpl; [reflexivity|].
  destruct (Qle_bool x y); simpl; auto.
Qed.

Lemma sort_q_length (l : list Q) : length (sort_q l) = length l.
Proof.
  induction l as [|x l IH]; simpl; [reflexivity|].
  now rewrite insert_q_length, IH.
Qed.

Lemma median_q_not_str (xs : list Q) : is_str (median_q xs) = false.
Proof.
  unfold median_q. destruct (_ =? 0); [reflexivity|].
  destruct (Nat.odd _); reflexivity.
Qed.

Lemma median_q_nonempty (xs : list Q) :
  xs <> [] -> isna (median_q xs) = false.
Proof.
  intros H. unfold median_q. rewrite sort_q_length.
  destruct xs as [|x xs]; [congruence|]. simpl (_ =? _).
  destruct (Nat.odd _); reflexivity.
Qed.

Lemma nums_nonempty (l : list cell) (c : cell) :
  In c l -> isna c = false -> is_str c = false -> nums l <> [].
Proof.
  intros Hin Hna Hstr. destruct c as [|x|t]; try discriminate.
  unfold nums. intros E.
  assert (Hx : In x (flat_map (fun c => match c with Num x => [x] | _ => [] end) l)).
  { apply in_flat_map. exists (Num x). split; [assumption | now left]. }
  rewrite E in Hx. exact Hx.
Qed.


Lemma median_cells_Ok (vals : list cell) (med : cell) :
  median_cells vals = Ok med ->
  existsb is_str vals = false /\ med = median_q (nums vals).
Proof.
  unfold median_cells. destruct (existsb is_str vals); [discriminate|].
  intros [= <-]. auto.
Qed.

Lemma min_cell_In (l : list cell) (m : cell) : min_cell l = Some m -> In m l.
Proof.
  revert m. induction l as [|v l IH]; simpl; intros m; [discriminate|].
  destruct (min_cell l) as [m'|].
  - intros [= <-]. destruct (key_le v m'); [now left | right; auto].
  - intros [= <-]. now left.
Qed.

Lemma mode0_notna (vals : list cell) (m : cell) :
  mode0 vals = Ok m -> isna m = false /\ In m vals.
Proof.
  unfold mode0. destruct (min_cell _) as [m'|] eqn:E; [|discriminate].
  intros [= <-]. apply min_cell_In in E. apply filter_In in E.
  destruct E as [E _]. apply filter_In in E. destruct E as [Hin E].
  unfold notna in E. split; [now destruct (isna m') | assumption].
Qed.


Lemma to_float_id (c : cell) : is_str c = false -> to_float c = Ok c.
Proof. destruct c; simpl; intros H; [reflexivity|reflexivity|discriminate]. Qed.

Lemma mapM_to_float_id (l l' : list cell) :
  existsb is_str l = false -> mapM to_float l = Ok l' -> l' = l.
Proof.
  intros Hs H. apply mapM_Forall2 in H.
  induction H as [|c c' l l' Hc _ IH]; [reflexivity|].
  simpl in Hs. apply orb_false_elim in Hs. destruct Hs as [Hc' Hs].
  rewrite (to_float_id c Hc') in Hc. injection Hc as <-. f_equal. auto.
Qed.

Lemma fillna_not_str (v c : cell) :
  is_str v = false -> is_str c = false -> is_str (fillna v c) = false.
Proof. unfold fillna. destruct (isna c); auto. Qed.

Lemma fillna_notna (v c : cell) : isna v = false -> isna (fillna v c) = false.
Proof. unfold fillna. destruct (isna c) eqn:E; auto. Qed.

Lemma existsb_map_false {A : Type} (p : cell -> bool) (f : A -> cell)
  (l : list A) :
  (forall a, In a l -> p (f a) = false) -> existsb p (map f l) = false.
Proof.
  induction l as [|a l IH]; simpl; intros H; [reflexivity|].
  rewrite H by now left. simpl. apply IH. intros; apply H; now right.
Qed.

Lemma existsb_false_In (p : cell -> bool) (l : list cell) (c : cell) :
  existsb p l = false -> In c l -> p c = false.
Proof.
  intros H Hin. destruct (p c) eqn:E; [|reflexivity].
  assert (existsb p l = true) by (apply existsb_exists; eauto). congruence.
Qed.

(** ** The output of [GetMerged], column by column *)

Lemma combine_map_fill (G : cell -> cell) (uf rend : list cell) :
  map (fun cm => fillna (snd cm) (fst cm)) (combine rend (map G uf))
  = map (fun ks => fillna (G (fst ks)) (snd ks)) (combine uf rend).
Proof.
  revert rend. induction uf as [|k uf IH]; intros [|c rend]; simpl; auto.
  now rewrite IH.
Qed.

Ltac not_numeric E :=
  let n := fresh "n" in
  let Hn := fresh "Hn" in
  let Hi := fresh "Hi" in
  let X := fresh "X" in
  intros n Hn Hi;
  pose proof (col_index_inj _ _ _ _ E Hi) as X;
  simpl in Hn;
  repeat (destruct Hn as [<-|Hn]; [discriminate X|]);
  exact Hn.

Lemma GetMerged_output (enem ideb m out : DataFrame) :
  rect enem -> rect ideb ->
  joined enem ideb = Ok m -> snd (GetMerged enem ideb) = Ok out ->
  exists ia ic ie ir iu age mc me,
    col_index "NU_IDADE" (columns m) = Some ia /\
    col_index "TP_ESTADO_CIVIL" (columns m) = Some ic /\
    col_index "TP_ENSINO" (columns m) = Some ie /\
    col_index "IN_RENDIMENTO" (columns m) = Some ir /\
    col_index "SG_UF_RESIDENCIA" (columns m) = Some iu /\
    columns out = columns m /\
    length (rows out) = length (rows m) /\
    mapM to_float (column ia m) = Ok age /\
    column ia out = map (fillna (median_q (nums age))) age /\
    mode0 (column ic m) = Ok mc /\
    column ic out = map (fun c => stringify (fillna mc c)) (column ic m) /\
    mode0 (column ie m) = Ok me /\
    column ie out = map (fun c => stringify (fillna me c)) (column ie m) /\
    existsb is_str (column ir m) = false /\
    column ir out
    = map (fun ks => filled_enrollment (column iu m) (column ir m)
                                       (fst ks) (snd ks))
          (combine (column iu m) (column ir m)).
Proof.
  intros He Hi Hm Hout.
  apply GetMerged_Ok in Hout. destruct Hout as [m0 [m' [Hm0 [Himp Hcast]]]].
  rewrite Hm in Hm0. injection Hm0 as <-.
  pose proof (rect_joined _ _ _ He Hi Hm) as Hrect.
  destruct (impute_stage_Ok _ _ Hrect Himp)
    as (ia & ic & ie & ir & iu & age & med & mc & me & meds &
        Eia & Eic & Eie & Eir & Eiu & Hage & Hmed & Hmc & Hme & Hmeds &
        Hc' & Hr' & Hl' & Ca & Cc & Ce & Cr & Co).
  destruct (cast_stage_Ok _ _ Hr' Hcast) as [Hco [Hro [Hlo [Hnum Hoth]]]].
  apply median_cells_Ok in Hmed. destruct Hmed as [Hage_str ->].
  apply groupby_spec in Hmeds. destruct Hmeds as [Hrend_str ->].
  rewrite Hc' in *.
  exists ia, ic, ie, ir, iu, age, mc, me.
  repeat split; auto; try congruence.
  - (* age *)
    specialize (Hnum "NU_IDADE" ia). rewrite Ca in Hnum.
    eapply mapM_to_float_id; [|apply Hnum; simpl; auto].
    apply existsb_map_false. intros c Hc. apply fillna_not_str.
    + apply median_q_not_str.
    + exact (existsb_false_In _ _ _ Hage_str Hc).
  - (* marital status *)
    rewrite Hoth, Cc, map_map; auto.
    + apply (col_index_nth _ _ _ Eic).
    + not_numeric Eic.
  - (* school type *)
    rewrite Hoth, Ce, map_map; auto.
    + apply (col_index_nth _ _ _ Eie).
    + not_numeric Eie.
  - (* enrollment index *)
    specialize (Hnum "IN_RENDIMENTO" ir). rewrite Cr in Hnum.
    rewrite combine_map_fill in Hnum. unfold filled_enrollment.
    eapply mapM_to_float_id; [|apply Hnum; simpl; auto].
    apply existsb_map_false. intros [k c] Hkc. simpl.
    apply fillna_not_str.
    + destruct (isna k); [reflexivity | apply median_q_not_str].
    + apply in_combine_r in Hkc. exact (existsb_false_In _ _ _ Hrend_str Hkc).
Qed.

(** ** The imputation claims *)

Lemma nth_error_combine {A B : Type} (l : list A) (l' : list B) (i : nat)
  (a : A) (b : B) :
  nth_error l i = Some a -> nth_error l' i = Some b ->
  nth_error (combine l l') i = Some (a, b).
Proof.
  revert l l'. induction i as [|i IH]; intros [|x l] [|y l']; simpl;
    try discriminate.
  - intros [= <-] [= <-]. reflexivity.
  - apply IH.
Qed.

Lemma Forall2_In_l {A B : Type} (P : A -> B -> Prop) (l : list A)
  (l' : list B) (a : A) :
  Forall2 P l l' -> In a l -> exists b, In b l' /\ P a b.
Proof.
  induction 1 as [|x y l l' Hxy _ IH]; simpl; [intros []|].
  intros [->|Hin]; [eauto|]. destruct (IH Hin) as [b [Hb Hab]]. eauto.
Qed.

Lemma group_values_In (keys vals : list cell) (k e : cell) :
  In e (group_values keys vals k) -> In e vals.
Proof.
  unfold group_values. intros H. apply in_map_iff in H.
  destruct H as [[k' e'] [<- H]]. apply filter_In in H. destruct H as [H _].
  now apply in_combine_r in H.
Qed.

(** C3, as the code has it.  Take a row of the merged table whose
    enrollment index is missing.  When the row has a state of residence
    [state], the output of [GetMerged] holds there the median of the
    enrollment indices found in the rows of that very state.  When the row
    has no state of residence, it belongs to no group and its enrollment
    index is still missing in the output, whatever the other rows without
    a state hold. *)
Theorem enrollment_filled_with_state_median (enem ideb m out : DataFrame) :
  rect enem -> rect ideb ->
  joined enem ideb = Ok m -> snd (GetMerged enem ideb) = Ok out ->
  forall i state,
    nth_error (col_of m "SG_UF_RESIDENCIA") i = Some state ->
    nth_error (col_of m "IN_RENDIMENTO") i = Some NaN ->
    (isna state = false ->
     nth_error (col_of out "IN_RENDIMENTO") i
     = Some (group_median (col_of m "SG_UF_RESIDENCIA")
                          (col_of m "IN_RENDIMENTO") state)) /\
    (isna state = true ->
     nth_error (col_of out "IN_RENDIMENTO") i = Some NaN).
Proof.
  intros He Hi Hm Hout.
  destruct (GetMerged_output _ _ _ _ He Hi Hm Hout)
    as (ia & ic & ie & ir & iu & age & mc & me &
        Eia & Eic & Eie & Eir & Eiu & Hco & Hlo & Hage & Ca & Hmc & Cc &
        Hme & Ce & Hstr & Cr).
  unfold col_of. rewrite Hco, Eir, Eiu, Cr.
  intros i state Hs Hr.
  rewrite (map_nth_error _ _ _ (nth_error_combine _ _ _ _ _ Hs Hr)).
  unfold filled_enrollment. simpl.
  split; intros Hna; now rewrite Hna.
Qed.

(** C2, as the code has it.  When every imputation group has a value to
    offer and, moreover, no row lacks its state of residence, the output of
    [GetMerged] has the four imputed columns and none of their cells is
    missing. *)
Theorem GetMerged_no_nulls (enem ideb m out : DataFrame) :
  rect enem -> rect ideb ->
  joined enem ideb = Ok m -> snd (GetMerged enem ideb) = Ok out ->
  groups_nonempty m ->
  Forall (fun s => isna s = false) (col_of m "SG_UF_RESIDENCIA") ->
  no_nulls out.
Proof.
  intros He Hi Hm Hout (Hga & _ & _ & Hgr) Huf.
  destruct (GetMerged_output _ _ _ _ He Hi Hm Hout)
    as (ia & ic & ie & ir & iu & age & mc & me &
        Eia & Eic & Eie & Eir & Eiu & Hco & Hlo & Hage & Ca & Hmc & Cc &
        Hme & Ce & Hstr & Cr).
  unfold col_of in Hga, Hgr, Huf. rewrite ?Eia, ?Eiu, ?Eir in *.
  assert (Hlen : forall j, length (column j out) = length (rows out))
    by (intros; apply column_length).
  intros n Hn. unfold has_col, col_of. rewrite Hco. simpl in Hn.
  destruct Hn as [<-|[<-|[<-|[<-|[]]]]].
  - rewrite Eia. repeat split; auto. rewrite Ca.
    destruct Hga as [c [x [Hc Hx]]].
    destruct (Forall2_In_l _ _ _ _ (proj1 (mapM_Forall2 _ _ _) Hage) Hc)
      as [b [Hb Hcb]].
    rewrite Hx in Hcb. injection Hcb as <-.
    apply Forall_forall. intros c' Hc'. apply in_map_iff in Hc'.
    destruct Hc' as [c0 [<- _]]. apply fillna_notna.
    apply median_q_nonempty. now apply (nums_nonempty age (Num x)).
  - rewrite Eic. repeat split; auto. rewrite Cc.
    apply Forall_forall. intros c' Hc'. apply in_map_iff in Hc'.
    destruct Hc' as [c0 [<- _]]. reflexivity.
  - rewrite Eie. repeat split; auto. rewrite Ce.
    apply Forall_forall. intros c' Hc'. apply in_map_iff in Hc'.
    destruct Hc' as [c0 [<- _]]. reflexivity.
  - rewrite Eir. repeat split; auto. rewrite Cr.
    apply Forall_forall. intros c' Hc'. apply in_map_iff in Hc'.
    destruct Hc' as [[k c0] [<- Hkc]]. simpl.
    pose proof (in_combine_l _ _ _ _ Hkc) as Hk.
    rewrite Forall_forall in Huf. unfold filled_enrollment.
    rewrite (Huf k Hk). apply fillna_notna.
    destruct (Hgr k Hk) as [e [He' Hna]].
    apply median_q_nonempty. apply (nums_nonempty _ e); auto.
    apply group_values_In in He'. exact (existsb_false_In _ _ _ Hstr He').
Qed.




(** ** The samples of [NonParamTest] on a column without missing values *)

Lemma filter_swap {A : Type} (p q : A -> bool) (l : list A) :
  filter p (filter q l) = filter q (filter p l).
Proof.
  induction l as [|a l IH]; simpl; [reflexivity|].
  destruct (p a) eqn:Ep, (q a) eqn:Eq; simpl; rewrite ?Ep, ?Eq, IH;
    reflexivity.
Qed.

Lemma filter_twice {A : Type} (p : A -> bool) (l : list A) :
  filter p (filter p l) = filter p l.
Proof.
  induction l as [|a l IH]; simpl; [reflexivity|].
  destruct (p a) eqn:Ep; simpl; rewrite ?Ep, IH; reflexivity.
Qed.

Lemma unique_filter_notna (l : list cell) :
  unique (filter notna l) = filter notna (unique l).
Proof.
  induction l as [|c l IH]; [reflexivity|].
  change (unique (c :: l))
    with (c :: filter (fun d => negb (same_value c d)) (unique l)).
  change (filter notna (c :: l))
    with (if notna c then c :: filter notna l else filter notna l).
  destruct c as [|x|t].
  - change (notna NaN) with false. cbv iota.
    change (filter notna
              (NaN :: filter (fun d => negb (same_value NaN d)) (unique l)))
      with (filter notna
              (filter (fun d => negb (same_value NaN d)) (unique l))).
    rewrite IH. symmetry. exact (filter_twice notna (unique l)).
  - change (notna (Num x)) with true. cbv iota.
    change (unique (Num x :: filter notna l))
      with (Num x :: filter (fun d => negb (same_value (Num x) d))
                            (unique (filter notna l))).
    change (filter notna
              (Num x :: filter (fun d => negb (same_value (Num x) d))
                               (unique l)))
      with (Num x :: filter notna
                       (filter (fun d => negb (same_value (Num x) d))
                               (unique l))).
    rewrite IH, filter_swap. reflexivity.
  - change (notna (Str t)) with true. cbv iota.
    change (unique (Str t :: filter notna l))
      with (Str t :: filter (fun d => negb (same_value (Str t) d))
                            (unique (filter notna l))).
    change (filter notna
              (Str t :: filter (fun d => negb (same_value (Str t) d))
                               (unique l)))
      with (Str t :: filter notna
                       (filter (fun d => negb (same_value (Str t) d))
                               (unique l))).
    rewrite IH, filter_swap. reflexivity.
Qed.

Lemma filter_length_le {A : Type} (p : A -> bool) (l : list A) :
  length (filter p l) <= length l.
Proof.
  induction l as [|a l IH]; simpl; [lia|]. destruct (p a); simpl; lia.
Qed.

Lemma nunique_le (l : list cell) : nunique l <= length (unique l).
Proof.
  unfold nunique. rewrite unique_filter_notna. apply filter_length_le.
Qed.

Lemma build_samples_gen (cats tot pre us : list cell) (k : nat) :
  k <= length us ->
  mapM (fun i => cat <- item (pre ++ us) i ;; Ok (sample_of cats tot cat))
       (seq (length pre) k)
  = Ok (map (sample_of cats tot) (firstn k us)).
Proof.
  revert pre us. induction k as [|k IH]; intros pre us Hk; [reflexivity|].
  destruct us as [|u us]; simpl in Hk; [lia|].
  simpl. unfold item at 1. rewrite nth_error_app2 by lia.
  rewrite Nat.sub_diag. simpl.
  specialize (IH (pre ++ [u]) us). rewrite <- app_assoc in IH. simpl in IH.
  rewrite length_app in IH. simpl in IH. rewrite Nat.add_1_r in IH.
  rewrite IH by lia. reflexivity.
Qed.

Lemma prepare_samples_eq (df : DataFrame) (col : string) (it ic : nat) :
  col_index target (columns df) = Some it ->
  col_index col (columns df) = Some ic ->
  String.eqb col target = false ->
  prepare_samples df col
  = Ok (nunique (column ic df),
        map (sample_of (column ic df) (column it df))
            (firstn (nunique (column ic df)) (unique (column ic df)))).
Proof.
  intros Ht Hc Hne. unfold prepare_samples, select, getcol.
  cbn -[String.eqb target nunique unique build_samples cell_at].
  rewrite Ht, Hc.
  cbn -[String.eqb target nunique unique build_samples cell_at].
  rewrite Hne.
  cbn -[String.eqb target nunique unique build_samples cell_at].
  rewrite String.eqb_sym, Hne, !String.eqb_refl.
  cbn -[String.eqb target nunique unique build_samples cell_at].
  rewrite !map_map.
  change (map (fun x => cell_at 1 [cell_at it x; cell_at ic x]) (rows df))
    with (column ic df).
  change (map (fun x => cell_at 0 [cell_at it x; cell_at ic x]) (rows df))
    with (column it df).
  unfold build_samples.
  pose proof (build_samples_gen (column ic df) (column it df) []
                (unique (column ic df)) (nunique (column ic df))
                (nunique_le _)) as H.
  cbn [app length] in H. rewrite H. reflexivity.
Qed.



Lemma py_eq_same_value (a u : cell) :
  isna a = false -> py_eq a u = same_value a u.
Proof. destruct a, u; simpl; intros H; try discriminate; reflexivity. Qed.






(** * Further properties of the code *)

(** ** Failures are reported as [TypeError] *)

Lemma raise_print_Raise {A : Type} (body : result A) (e : exn) :
  raise_print body = Raise e -> e = TypeError.
Proof. destruct body; simpl; congruence. Qed.

(** The three functions with a [try] report every failure the same way:
    whatever went wrong, the caller sees a [TypeError]. *)
Theorem failures_are_TypeError (e : exn) :
  (forall url, GetIdeb url = Raise e -> e = TypeError) /\
  (forall df, PrepareIdeb df = Raise e -> e = TypeError) /\
  (forall enem ideb, snd (GetMerged enem ideb) = Raise e -> e = TypeError).
Proof.
  split; [|split].
  - intros url. apply raise_print_Raise.
  - intros df. apply raise_print_Raise.
  - intros enem ideb. rewrite GetMerged_result. apply raise_print_Raise.
Qed.

(** [GetIdeb] hands over the sheet exactly when the download, the archive
    and the parser all succeed, reading the fixed entry and skipping six
    rows. *)
Theorem GetIdeb_returns (url : string) (df : DataFrame) :
  GetIdeb url = Ok df <->
  exists content sheet,
    http_get url = Ok content /\
    zip_read content ideb_entry = Ok sheet /\
    read_excel sheet 6 = Ok df.
Proof.
  unfold GetIdeb. split.
  - intros H. destruct (http_get url) as [content|] eqn:E1; [|discriminate].
    simpl in H. destruct (zip_read content ideb_entry) as [sheet|] eqn:E2;
      [|discriminate].
    simpl in H. destruct (read_excel sheet 6) as [d|] eqn:E3; [|discriminate].
    injection H as <-. exists content, sheet. auto.
  - intros [content [sheet [-> [H2 H3]]]]. simpl. rewrite H2. simpl.
    now rewrite H3.
Qed.

(** ** The Cleaner: when it returns, and what it returns *)

Lemma col_index_Some_In (n : string) (cols : list string) (i : nat) :
  col_index n cols = Some i -> In n cols.
Proof.
  intros H. apply col_index_nth in H. destruct H as [Hlt <-].
  now apply nth_In.
Qed.

Lemma PrepareIdeb_Ok_indices (df out : DataFrame) :
  PrepareIdeb df = Ok out ->
  exists k r n i,
    col_index raw_key (columns df) = Some k /\
    col_index raw_rend (columns df) = Some r /\
    col_index raw_nota (columns df) = Some n /\
    col_index raw_ideb (columns df) = Some i /\
    out = mkDF ideb_header
               (map (cleaned_row k r n i)
                    (filter (fun row => notna (cell_at k row)) (rows df))).
Proof.
  intros H.
  destruct (col_index raw_key (columns df)) as [k|] eqn:Ek;
    [|unfold PrepareIdeb, select in H; simpl mapM in H; rewrite Ek in H;
      discriminate H].
  destruct (col_index raw_rend (columns df)) as [r|] eqn:Er;
    [|unfold PrepareIdeb, select in H; simpl mapM in H; rewrite Ek, Er in H;
      discriminate H].
  destruct (col_index raw_nota (columns df)) as [n|] eqn:En;
    [|unfold PrepareIdeb, select in H; simpl mapM in H;
      rewrite Ek, Er, En in H; discriminate H].
  destruct (col_index raw_ideb (columns df)) as [i|] eqn:Ei;
    [|unfold PrepareIdeb, select in H; simpl mapM in H;
      rewrite Ek, Er, En, Ei in H; discriminate H].
  rewrite (PrepareIdeb_eq df k r n i Ek Er En Ei) in H. injection H as <-.
  exists k, r, n, i. auto.
Qed.



(** The keys [PrepareIdeb] returns are text, so that line 70 of
    [GetMerged], which turns the keys of [ideb] into text, finds nothing to
    change in its output. *)
Theorem PrepareIdeb_keys_are_text (df out : DataFrame) :
  PrepareIdeb df = Ok out ->
  Forall (fun c => is_str c = true) (col_of out "CO_ESCOLA") /\
  key_as_text out = out.
Proof.
  intros H. apply PrepareIdeb_Ok_indices in H.
  destruct H as (k & r & n & i & _ & _ & _ & _ & ->).
  split.
  - unfold col_of, column. simpl. rewrite map_map.
    apply Forall_forall. intros c Hc. apply in_map_iff in Hc.
    destruct Hc as [row [<- _]]. reflexivity.
  - unfold key_as_text, map_col. simpl. f_equal. rewrite map_map.
    apply map_ext. intros row. reflexivity.
Qed.

(** ** The Merger: a missing key column *)

Lemma col_index_None (n : string) (cols : list string) :
  ~ In n cols -> col_index n cols = None.
Proof.
  intros H. destruct (col_index n cols) as [i|] eqn:E; [|reflexivity].
  exfalso. apply H. eapply col_index_Some_In; eauto.
Qed.

(** Without a key column in [ideb] the call fails before it has touched
    anything.  With the key column missing in [enem] only, it fails as well,
    but [ideb] has by then been rewritten and sorted: the caller keeps the
    changed table. *)
Theorem GetMerged_missing_key (enem ideb : DataFrame) :
  (~ In "CO_ESCOLA" (columns ideb) ->
   GetMerged enem ideb = (mkCaller enem ideb, Raise TypeError)) /\
  (In "CO_ESCOLA" (columns ideb) -> ~ In "CO_ESCOLA" (columns enem) ->
   GetMerged enem ideb
   = (mkCaller enem (ideb_after_sort ideb), Raise TypeError)).
Proof.
  split.
  - intros H. unfold GetMerged, map_col. now rewrite (col_index_None _ _ H).
  - intros Hi He. unfold GetMerged, ideb_after_sort, key_as_text.
    destruct (map_col stringify "CO_ESCOLA" ideb) as [ideb1|e] eqn:E1.
    + destruct (sort_values "CO_ESCOLA" ideb1) as [ideb2|e] eqn:E2;
        [|reflexivity].
      unfold sort_values at 1, index_of. now rewrite (col_index_None _ _ He).
    + exfalso. unfold map_col in E1.
      destruct (col_index_In _ _ Hi) as [i Ei]. rewrite Ei in E1.
      discriminate E1.
Qed.

(** ** The Merger: how many rows *)

Lemma merge_left_Ok (key : string) (l r j : DataFrame) :
  merge_left key l r = Ok j ->
  exists li ri,
    col_index key (columns l) = Some li /\
    col_index key (columns r) = Some ri /\
    rows j = flat_map (join_block li ri r) (rows l).
Proof.
  unfold merge_left, index_of. intros H.
  destruct (col_index key (columns l)) as [li|]; [|discriminate].
  destruct (col_index key (columns r)) as [ri|]; [|discriminate].
  simpl in H. destruct (_ || _); [discriminate|]. injection H as <-.
  exists li, ri. auto.
Qed.

Lemma flat_map_length_ge {A B : Type} (f : A -> list B) (l : list A) :
  (forall a, In a l -> 1 <= length (f a)) ->
  length l <= length (flat_map f l).
Proof.
  induction l as [|a l IH]; simpl; intros H; [lia|].
  rewrite length_app. specialize (H a (or_introl eq_refl)) as Ha.
  assert (length l <= length (flat_map f l)) by (apply IH; auto). lia.
Qed.

Lemma flat_map_length_one {A B : Type} (f : A -> list B) (l : list A) :
  (forall a, In a l -> length (f a) = 1) ->
  length (flat_map f l) = length l.
Proof.
  induction l as [|a l IH]; simpl; intros H; [reflexivity|].
  rewrite length_app, (H a (or_introl eq_refl)), IH; auto.
Qed.

Lemma join_block_nonempty (li ri : nat) (ideb : DataFrame) (l : list cell) :
  1 <= length (join_block li ri ideb l).
Proof.
  unfold join_block. destruct (matches li ri ideb l); simpl; lia.
Qed.

Lemma distinct_perm (l l' : list cell) :
  Permutation l l' -> distinct l -> distinct l'.
Proof.
  induction 1 as [|x l l' Hp IH|x y l|l l' l'' _ IH1 _ IH2]; simpl; auto.
  - intros [Hx Hd]. split; [|auto].
    eapply Permutation_Forall; eauto.
  - intros [Hy [Hx Hd]]. inversion Hy as [|? ? Hyx Hyl]; subst.
    repeat split; auto. constructor; [|assumption].
    now rewrite same_value_sym.
Qed.

Lemma single_match (k : cell) (i : nat) (rs : list (list cell)) :
  distinct (map (cell_at i) rs) ->
  length (filter (fun r => same_value k (cell_at i r)) rs) <= 1.
Proof.
  induction rs as [|r rs IH]; simpl; [lia|]. intros [Hr Hd].
  destruct (same_value k (cell_at i r)) eqn:E; [|auto].
  assert (Hnone : filter (fun r' => same_value k (cell_at i r')) rs = []).
  { clear IH Hd. induction rs as [|r' rs IH]; simpl; [reflexivity|].
    inversion Hr as [|? ? Hrr' Hrs]; subst.
    destruct (same_value k (cell_at i r')) eqn:E'; [|auto].
    rewrite same_value_sym in E.
    rewrite (same_value_trans _ _ _ E E') in Hrr'. discriminate Hrr'. }
  rewrite Hnone. simpl. lia.
Qed.

Lemma joined_Ok (enem ideb m : DataFrame) :
  joined enem ideb = Ok m ->
  exists enem1 ideb2 j li ri,
    Permutation (rows enem1) (rows enem) /\
    columns ideb2 = columns ideb /\
    Permutation (rows ideb2) (rows (key_as_text ideb)) /\
    columns (key_as_text ideb) = columns ideb /\
    col_index "CO_ESCOLA" (columns ideb2) = Some ri /\
    rows j = flat_map (join_block li ri ideb2) (rows enem1) /\
    rows m = map (drop_cells dropped_labels (columns j)) (rows j).
Proof.
  unfold joined, key_as_text. intros H.
  destruct (map_col stringify "CO_ESCOLA" ideb) as [ideb1|] eqn:E1;
    [simpl in H|discriminate].
  apply bind_Ok in H. destruct H as [ideb2 [H2 H]].
  apply bind_Ok in H. destruct H as [enem1 [H3 H]].
  apply map_col_Ok in E1. destruct E1 as [i [_ [Hc1 _]]].
  apply sort_values_Ok in H2. destruct H2 as [Hc2 [Hp2 _]].
  apply sort_values_Ok in H3. destruct H3 as [_ [Hp3 _]].
  unfold join_stage in H.
  apply bind_Ok in H. destruct H as [j [Hj H]].
  apply bind_Ok in H. destruct H as [j1 [Hd1 Hd2]].
  apply drop_Ok in Hd1. destruct Hd1 as [Hcj1 Hrj1].
  apply drop_Ok in Hd2. destruct Hd2 as [_ Hrm].
  apply merge_left_Ok in Hj. destruct Hj as [li [ri [_ [Hri Hrows]]]].
  exists enem1, ideb2, j, li, ri. repeat split; auto; try congruence.
  rewrite Hrm, Hrj1, Hcj1, map_map. apply map_ext. intros r. symmetry.
  apply (drop_cells_app ["CO_ESCOLA"] ["IDEB"; "NT_PADRONIZADA"]).
Qed.

Lemma GetMerged_rows_length (enem ideb m out : DataFrame) :
  rect enem -> rect ideb ->
  joined enem ideb = Ok m -> snd (GetMerged enem ideb) = Ok out ->
  length (rows out) = length (rows m).
Proof.
  intros He Hi Hm Hout.
  destruct (GetMerged_output _ _ _ _ He Hi Hm Hout)
    as (ia & ic & ie & ir & iu & age & mc & me & _ & _ & _ & _ & _ & _ & Hl & _).
  exact Hl.
Qed.

(** The left join keeps every student: the output has at least as many rows
    as [enem], and exactly as many when no two schools of [ideb] carry the
    same key (as text). *)
Theorem GetMerged_row_count (enem ideb out : DataFrame) :
  rect enem -> rect ideb ->
  snd (GetMerged enem ideb) = Ok out ->
  length (rows enem) <= length (rows out) /\
  (distinct (col_of (key_as_text ideb) "CO_ESCOLA") ->
   length (rows out) = length (rows enem)).
Proof.
  intros He Hi Hout.
  destruct (proj1 (GetMerged_Ok _ _ _) Hout) as [m [_ [Hm _]]].
  rewrite (GetMerged_rows_length _ _ _ _ He Hi Hm Hout).
  destruct (joined_Ok _ _ _ Hm)
    as (enem1 & ideb2 & j & li & ri & Hpe & Hci & Hpi & Hck & Hri & Hj & Hrm).
  rewrite Hrm, length_map, Hj, <- (Permutation_length Hpe). split.
  - apply flat_map_length_ge. intros; apply join_block_nonempty.
  - intros Hd. apply flat_map_length_one. intros l _.
    unfold join_block.
    assert (Hone : length (matches li ri ideb2 l) <= 1).
    { unfold matches. apply single_match.
      apply (distinct_perm (column ri (key_as_text ideb))).
      - unfold column. apply Permutation_map. now symmetry.
      - unfold col_of in Hd. rewrite Hck, <- Hci, Hri in Hd. exact Hd. }
    destruct (matches li ri ideb2 l) as [|r0 [|r1 ms]]; simpl in *;
      [reflexivity | reflexivity | lia].
Qed.

(** ** The Merger: what the output holds *)

Lemma cast_cols_indices (names : list string) (before : DataFrame) :
  forall acc out,
    cast_cols names before acc = Ok out ->
    forall n, In n names -> exists i, col_index n (columns before) = Some i.
Proof.
  induction names as [|n0 names IH]; simpl; intros acc out H n Hn;
    [destruct Hn|].
  unfold index_of in H.
  destruct (col_index n0 (columns before)) as [i0|] eqn:E0;
    [simpl in H|discriminate].
  apply bind_Ok in H. destruct H as [vals [_ H]].
  destruct Hn as [<-|Hn]; [eauto|]. eapply IH; eauto.
Qed.

(** In the output the four columns of line 93 hold numbers (or the missing
    marker) and every other column holds text. *)
Theorem GetMerged_output_types (enem ideb out : DataFrame) :
  rect enem -> rect ideb ->
  snd (GetMerged enem ideb) = Ok out ->
  (forall n, In n numeric_cols ->
             has_col out n = true /\
             Forall (fun c => is_str c = false) (col_of out n)) /\
  (forall n, In n (columns out) -> ~ In n numeric_cols ->
             Forall (fun c => is_str c = true) (col_of out n)).
Proof.
  intros He Hi Hout.
  destruct (proj1 (GetMerged_Ok _ _ _) Hout) as [m [m' [Hm [Himp Hcast]]]].
  pose proof (rect_joined _ _ _ He Hi Hm) as Hrect.
  destruct (impute_stage_Ok _ _ Hrect Himp)
    as (ia & ic & ie & ir & iu & age & med & mc & me & meds &
        _ & _ & _ & _ & _ & _ & _ & _ & _ & _ & _ & Hr' & _).
  destruct (cast_stage_Ok _ _ Hr' Hcast) as [Hco [_ [_ [Hnum Hoth]]]].
  split.
  - intros n Hn.
    destruct (cast_cols_indices _ _ _ _ Hcast n Hn) as [i Ei].
    unfold has_col, col_of. rewrite Hco, Ei. split; [reflexivity|].
    specialize (Hnum n i Hn Ei). apply mapM_to_float_not_str in Hnum.
    apply Forall_forall. intros c Hc.
    exact (existsb_false_In _ _ _ Hnum Hc).
  - intros n Hin Hnot. rewrite Hco in Hin.
    destruct (col_index_In _ _ Hin) as [j Ej].
    unfold col_of. rewrite Hco, Ej, Hoth.
    + apply Forall_forall. intros c Hc. apply in_map_iff in Hc.
      destruct Hc as [c0 [<- _]]. reflexivity.
    + apply (col_index_nth _ _ _ Ej).
    + intros n' Hn' Ej'. apply Hnot.
      now rewrite (col_index_inj _ _ _ _ Ej Ej').
Qed.

Lemma nth_error_same_length {A B : Type} (l : list A) (l' : list B)
  (i : nat) (a : A) :
  length l = length l' -> nth_error l i = Some a ->
  exists b, nth_error l' i = Some b.
Proof.
  intros Hlen Ha. destruct (nth_error l' i) as [b|] eqn:E; [eauto|].
  apply nth_error_None in E.
  assert (i < length l) by (apply nth_error_Some; congruence). lia.
Qed.

(** Imputation fills and never overwrites: an enrollment index, a marital
    status or a school type that is present in the merged table is found in
    the output as it was (as text, for the two categories), and so is every
    age that converts to a number. *)
Theorem GetMerged_keeps_present_values (enem ideb m out : DataFrame) :
  rect enem -> rect ideb ->
  joined enem ideb = Ok m -> snd (GetMerged enem ideb) = Ok out ->
  forall i c,
    isna c = false ->
    (nth_error (col_of m "IN_RENDIMENTO") i = Some c ->
     nth_error (col_of out "IN_RENDIMENTO") i = Some c) /\
    (nth_error (col_of m "TP_ESTADO_CIVIL") i = Some c ->
     nth_error (col_of out "TP_ESTADO_CIVIL") i = Some (stringify c)) /\
    (nth_error (col_of m "TP_ENSINO") i = Some c ->
     nth_error (col_of out "TP_ENSINO") i = Some (stringify c)) /\
    (forall a, nth_error (col_of m "NU_IDADE") i = Some a ->
               to_float a = Ok c ->
               nth_error (col_of out "NU_IDADE") i = Some c).
Proof.
  intros He Hi Hm Hout i c Hc.
  destruct (GetMerged_output _ _ _ _ He Hi Hm Hout)
    as (ia & ic & ie & ir & iu & age & mc & me &
        Eia & Eic & Eie & Eir & Eiu & Hco & Hlo & Hage & Ca & Hmc & Cc &
        Hme & Ce & Hstr & Cr).
  unfold col_of. rewrite Hco, Eia, Eic, Eie, Eir, Ca, Cc, Ce, Cr.
  assert (Hfill : forall v, fillna v c = c)
    by (intros v; unfold fillna; now rewrite Hc).
  repeat split.
  - intros Hr.
    destruct (nth_error_same_length (column ir m) (column iu m) i c)
      as [k Hk]; [now rewrite !column_length | assumption |].
    rewrite (map_nth_error _ _ _ (nth_error_combine _ _ _ _ _ Hk Hr)).
    unfold filled_enrollment. simpl. now rewrite Hfill.
  - intros Hr. rewrite (map_nth_error _ _ _ Hr). now rewrite Hfill.
  - intros Hr. rewrite (map_nth_error _ _ _ Hr). now rewrite Hfill.
  - intros a Ha Hac. apply mapM_Forall2 in Hage.
    assert (Hnth : nth_error age i = Some c).
    { clear -Hage Ha Hac. revert i Ha.
      induction Hage as [|x y l l' Hxy _ IH]; intros [|i] Ha; simpl in *;
        try discriminate.
      - injection Ha as ->. congruence.
      - auto. }
    rewrite (map_nth_error _ _ _ Hnth). now rewrite Hfill.
Qed.

(** ** The Merger: the global rules *)

Lemma fold_max_ge (l : list nat) (x : nat) :
  In x l -> x <= fold_right Nat.max 0 l.
Proof.
  induction l as [|y l IH]; simpl; [intros []|].
  intros [->|Hin]; [lia|]. specialize (IH Hin). lia.
Qed.

Lemma count_val_congr (v w : cell) (l : list cell) :
  same_value v w = true -> count_val v l = count_val w l.
Proof.
  intros H. unfold count_val. f_equal. apply filter_ext. intros d.
  rewrite (same_value_sym v d), (same_value_sym w d).
  now apply same_value_congr.
Qed.

Lemma count_val_pos (w : cell) (l : list cell) :
  0 < count_val w l -> exists u, In u l /\ same_value w u = true.
Proof.
  unfold count_val. destruct (filter (same_value w) l) as [|u f] eqn:E;
    simpl; [lia|]. intros _.
  assert (Hu : In u (filter (same_value w) l)) by (rewrite E; now left).
  apply filter_In in Hu. eauto.
Qed.

Lemma mode0_most_frequent (vals : list cell) (m : cell) :
  mode0 vals = Ok m -> most_frequent m vals.
Proof.
  intros H. destruct (mode0_notna _ _ H) as [Hna Hin].
  split; [assumption|]. split; [assumption|].
  unfold mode0 in H.
  set (xs := filter notna vals) in *.
  set (best := fold_right Nat.max 0 (map (fun v => count_val v xs) xs)) in *.
  destruct (min_cell (filter (fun v => count_val v xs =? best) xs))
    as [m'|] eqn:E; [|discriminate].
  injection H as <-. apply min_cell_In in E. apply filter_In in E.
  destruct E as [_ E]. apply Nat.eqb_eq in E. rewrite E.
  intros w. destruct (Nat.eq_dec (count_val w xs) 0) as [->|Hpos]; [lia|].
  destruct (count_val_pos w xs) as [u [Hu Hwu]]; [lia|].
  rewrite (count_val_congr w u xs Hwu). apply fold_max_ge.
  apply in_map_iff. eauto.
Qed.

(** The two global rules.  Ages are first converted to numbers; a missing
    age then becomes the median of the ages that are known, over the whole
    table.  A missing marital status, and a missing school type, becomes a
    most frequent value of its column; both columns leave as text. *)
Theorem GetMerged_global_rules (enem ideb m out : DataFrame) :
  rect enem -> rect ideb ->
  joined enem ideb = Ok m -> snd (GetMerged enem ideb) = Ok out ->
  exists age mc me,
    mapM to_float (col_of m "NU_IDADE") = Ok age /\
    col_of out "NU_IDADE" = map (fillna (global_median age)) age /\
    most_frequent mc (col_of m "TP_ESTADO_CIVIL") /\
    col_of out "TP_ESTADO_CIVIL"
    = map (fun c => stringify (fillna mc c)) (col_of m "TP_ESTADO_CIVIL") /\
    most_frequent me (col_of m "TP_ENSINO") /\
    col_of out "TP_ENSINO"
    = map (fun c => stringify (fillna me c)) (col_of m "TP_ENSINO").
Proof.
  intros He Hi Hm Hout.
  destruct (GetMerged_output _ _ _ _ He Hi Hm Hout)
    as (ia & ic & ie & ir & iu & age & mc & me &
        Eia & Eic & Eie & Eir & Eiu & Hco & Hlo & Hage & Ca & Hmc & Cc &
        Hme & Ce & Hstr & Cr).
  exists age, mc, me. unfold col_of. rewrite Hco, Eia, Eic, Eie.
  repeat split; auto using mode0_most_frequent;
    try (apply (mode0_most_frequent _ _ Hmc));
    try (apply (mode0_most_frequent _ _ Hme)).
Qed.

(** ** The Merger: column names *)

Lemma substring_0_all (s : string) : substring 0 (String.length s) s = s.
Proof. induction s as [|a s IH]; simpl; [reflexivity | now rewrite IH]. Qed.

Lemma append_tail (a sfx : string) :
  substring (String.length a) (String.length sfx) (a ++ sfx) = sfx.
Proof.
  induction a as [|c a IH]; simpl; [apply substring_0_all | exact IH].
Qed.

Lemma append_length (a b : string) :
  String.length (a ++ b) = String.length a + String.length b.
Proof. induction a as [|c a IH]; simpl; [reflexivity | now rewrite IH]. Qed.

(** None of the three names ends in a merge suffix. *)
Lemma not_suffixed (a sfx n : string) :
  In sfx ["_x"; "_y"] ->
  In n ["IDEB"; "NT_PADRONIZADA"; "IN_RENDIMENTO"; "CO_ESCOLA"] ->
  (a ++ sfx)%string <> n.
Proof.
  intros Hs Hn E. pose proof (append_tail a sfx) as Ht.
  pose proof (append_length a sfx) as Hl. rewrite E in Ht, Hl.
  simpl in Hs, Hn.
  destruct Hs as [<-|[<-|[]]];
    destruct Hn as [<-|[<-|[<-|[<-|[]]]]]; simpl in Hl;
    match type of Hl with
    | ?k = String.length a + 2 =>
        replace (String.length a) with (k - 2) in Ht by lia
    end; vm_compute in Ht; discriminate Ht.
Qed.

Lemma existsb_eqb_In (a : string) (l : list string) :
  existsb (String.eqb a) l = true <-> In a l.
Proof.
  rewrite existsb_exists. split.
  - intros [x [Hx E]]. apply String.eqb_eq in E. now subst.
  - intros H. exists a. split; [assumption | apply String.eqb_refl].
Qed.

Lemma remove_nth_incl {A : Type} (i : nat) (l : list A) (x : A) :
  In x (remove_nth i l) -> In x l.
Proof.
  revert i. induction l as [|a l IH]; intros [|i]; simpl; auto.
  intros [->|H]; eauto.
Qed.

Lemma remove_nth_other (i : nat) (l : list string) (x : string) :
  In x l -> nth i l ""%string <> x -> In x (remove_nth i l).
Proof.
  revert i. induction l as [|a l IH]; intros [|i]; simpl; auto.
  - intros [->|H] Hne; [congruence | assumption].
  - intros [->|H] Hne; [now left | right; auto].
Qed.

Lemma drop_names_incl (labels cols : list string) (x : string) :
  In x (drop_names labels cols) -> In x cols.
Proof.
  revert cols. induction labels as [|n labels IH]; simpl; intros cols H;
    [assumption|].
  apply IH in H. rewrite pick_keep_mask in H. apply filter_In in H.
  now destruct H.
Qed.

Lemma drop_Ok_In (labels : list string) (df df' : DataFrame) (n : string) :
  drop labels df = Ok df' -> In n labels -> In n (columns df).
Proof.
  revert df. induction labels as [|a labels IH]; simpl; intros df H Hn;
    [destruct Hn|].
  apply bind_Ok in H. destruct H as [df1 [H1 H]]. unfold drop1 in H1.
  destruct (existsb (String.eqb a) (columns df)) eqn:E; [|discriminate].
  injection H1 as <-. destruct Hn as [<-|Hn].
  - now apply existsb_eqb_In.
  - specialize (IH _ H Hn). simpl in IH. rewrite pick_keep_mask in IH.
    apply filter_In in IH. now destruct IH.
Qed.

Lemma joined_merge (enem ideb m : DataFrame) :
  joined enem ideb = Ok m ->
  exists j j1 ri,
    col_index "CO_ESCOLA" (columns ideb) = Some ri /\
    columns j
    = map (suffixed "_x" (remove_nth ri (columns ideb)) "CO_ESCOLA")
          (columns enem)
      ++ map (suffixed "_y" (columns enem) "CO_ESCOLA")
             (remove_nth ri (columns ideb)) /\
    drop ["CO_ESCOLA"] j = Ok j1 /\
    drop ["IDEB"; "NT_PADRONIZADA"] j1 = Ok m.
Proof.
  unfold joined. intros H.
  apply bind_Ok in H. destruct H as [ideb1 [H1 H]].
  apply bind_Ok in H. destruct H as [ideb2 [H2 H]].
  apply bind_Ok in H. destruct H as [enem1 [H3 H]].
  apply map_col_Ok in H1. destruct H1 as [i [_ [Hc1 _]]].
  apply sort_values_Ok in H2. destruct H2 as [Hc2 _].
  apply sort_values_Ok in H3. destruct H3 as [Hc3 _].
  unfold join_stage in H.
  apply bind_Ok in H. destruct H as [j [Hj H]].
  apply bind_Ok in H. destruct H as [j1 [Hd1 Hd2]].
  unfold merge_left, index_of in Hj. rewrite Hc3, Hc2, Hc1 in Hj.
  destruct (col_index "CO_ESCOLA" (columns enem)) as [li|]; [|discriminate].
  destruct (col_index "CO_ESCOLA" (columns ideb)) as [ri|]; [|discriminate].
  simpl in Hj. destruct (_ || _); [discriminate|]. injection Hj as Hj.
  exists j, j1, ri. rewrite <- Hj at 1. simpl. auto.
Qed.

(** [IDEB], [NT_PADRONIZADA] and [IN_RENDIMENTO] must come from [ideb]
    alone.  When [enem] has a column of one of these names too, the merge
    renames both columns (suffixes [_x] and [_y]); the name is then missing
    where the code looks for it, and the call fails. *)
Theorem GetMerged_name_clash (enem ideb : DataFrame) (n : string) :
  rect enem -> rect ideb ->
  In n ["IDEB"; "NT_PADRONIZADA"; "IN_RENDIMENTO"] ->
  In n (columns enem) -> In n (columns ideb) ->
  snd (GetMerged enem ideb) = Raise TypeError.
Proof.
  intros He Hi Hn Hne Hni.
  destruct (snd (GetMerged enem ideb)) as [out|e] eqn:E;
    [exfalso | f_equal; revert E; rewrite GetMerged_result;
               apply raise_print_Raise].
  destruct (proj1 (GetMerged_Ok _ _ _) E) as [m [m' [Hm [Himp _]]]].
  pose proof (rect_joined _ _ _ He Hi Hm) as Hrect.
  destruct (joined_merge _ _ _ Hm) as (j & j1 & ri & Eri & Hcj & Hd1 & Hd2).
  assert (Hkey : n <> "CO_ESCOLA"%string)
    by (simpl in Hn; destruct Hn as [<-|[<-|[<-|[]]]]; discriminate).
  assert (Hn4 : In n ["IDEB"; "NT_PADRONIZADA"; "IN_RENDIMENTO"; "CO_ESCOLA"]%string)
    by (simpl in Hn; simpl; destruct Hn as [<-|[<-|[<-|[]]]]; auto).
  assert (Hnr : In n (remove_nth ri (columns ideb))).
  { apply remove_nth_other; [assumption|].
    apply col_index_nth in Eri. destruct Eri as [_ ->]. congruence. }
  assert (Hnot : ~ In n (columns j)).
  { rewrite Hcj. intros Hin. apply in_app_or in Hin.
    destruct Hin as [Hin|Hin]; apply in_map_iff in Hin;
      destruct Hin as [a [Ha Hin]]; unfold suffixed in Ha.
    - destruct (String.eqb a "CO_ESCOLA") eqn:Ek.
      + apply String.eqb_eq in Ek. congruence.
      + destruct (existsb (String.eqb a) (remove_nth ri (columns ideb)))
          eqn:Ex.
        * revert Ha. apply not_suffixed; simpl; auto.
        * subst a. apply existsb_eqb_In in Hnr. congruence.
    - destruct (String.eqb a "CO_ESCOLA") eqn:Ek.
      + apply String.eqb_eq in Ek. congruence.
      + destruct (existsb (String.eqb a) (columns enem)) eqn:Ex.
        * revert Ha. apply not_suffixed; simpl; auto.
        * subst a. apply existsb_eqb_In in Hne. congruence. }
  assert (Hin1 : forall x, In x (columns j1) -> In x (columns j)).
  { intros x Hx. apply drop_Ok in Hd1. destruct Hd1 as [Hc _].
    rewrite Hc in Hx. eapply drop_names_incl; eauto. }
  assert (Hinm : forall x, In x (columns m) -> In x (columns j1)).
  { intros x Hx. apply drop_Ok in Hd2. destruct Hd2 as [Hc _].
    rewrite Hc in Hx. eapply drop_names_incl; eauto. }
  apply Hnot. simpl in Hn. destruct Hn as [<-|[<-|[<-|[]]]].
  - apply Hin1. apply (drop_Ok_In _ _ _ _ Hd2). simpl; auto.
  - apply Hin1. apply (drop_Ok_In _ _ _ _ Hd2). simpl; auto.
  - apply Hin1, Hinm.
    destruct (impute_stage_Ok _ _ Hrect Himp)
      as (ia & ic & ie & ir & iu & age & med & mc & me & meds &
          _ & _ & _ & Eir & _).
    eapply col_index_Some_In; eauto.
Qed.

Lemma drop_names_filter (labels cols : list string) :
  drop_names labels cols
  = filter (fun c => negb (existsb (String.eqb c) labels)) cols.
Proof.
  revert cols. induction labels as [|n labels IH]; intros cols; simpl.
  - induction cols as [|c cols IHc]; simpl; [reflexivity | now f_equal].
  - rewrite IH, pick_keep_mask. clear IH.
    induction cols as [|c cols IHc]; simpl; [reflexivity|].
    destruct (String.eqb c n); simpl; [exact IHc|].
    destruct (existsb (String.eqb c) labels); simpl; [exact IHc|].
    now rewrite IHc.
Qed.

(** When the key is the only name the two tables share, the output has the
    columns of [enem] followed by those of [ideb], without the key and
    without [IDEB] and [NT_PADRONIZADA]. *)
Theorem GetMerged_header (enem ideb out : DataFrame) (ri : nat) :
  rect enem -> rect ideb ->
  snd (GetMerged enem ideb) = Ok out ->
  col_index "CO_ESCOLA" (columns ideb) = Some ri ->
  (forall n, In n (columns enem) -> In n (columns ideb) ->
             n = "CO_ESCOLA"%string) ->
  columns out
  = filter (fun c => negb (existsb (String.eqb c) dropped_labels))
           (columns enem ++ remove_nth ri (columns ideb)).
Proof.
  intros He Hi Hout Eri Hshare.
  destruct (proj1 (GetMerged_Ok _ _ _) Hout) as [m [_ [Hm _]]].
  destruct (GetMerged_output _ _ _ _ He Hi Hm Hout)
    as (ia & ic & ie & ir & iu & age & mc & me & _ & _ & _ & _ & _ & Hco & _).
  destruct (joined_merge _ _ _ Hm) as (j & j1 & ri' & Eri' & Hcj & Hd1 & Hd2).
  rewrite Eri in Eri'. injection Eri' as <-.
  apply drop_Ok in Hd1. destruct Hd1 as [Hc1 _].
  apply drop_Ok in Hd2. destruct Hd2 as [Hc2 _].
  rewrite Hco, Hc2, Hc1.
  rewrite <- (drop_names_app ["CO_ESCOLA"] ["IDEB"; "NT_PADRONIZADA"]).
  change (["CO_ESCOLA"] ++ ["IDEB"; "NT_PADRONIZADA"])%list
    with dropped_labels.
  rewrite drop_names_filter, Hcj. f_equal. f_equal.
  - rewrite <- (map_id (columns enem)) at 2. apply map_ext_in.
    intros a Ha. unfold suffixed.
    destruct (String.eqb a "CO_ESCOLA") eqn:Ek; [reflexivity|].
    destruct (existsb (String.eqb a) (remove_nth ri (columns ideb))) eqn:Ex;
      [|reflexivity].
    apply existsb_eqb_In in Ex. apply remove_nth_incl in Ex.
    rewrite (Hshare a Ha Ex) in Ek. discriminate Ek.
  - rewrite <- (map_id (remove_nth ri (columns ideb))) at 2.
    apply map_ext_in. intros a Ha. unfold suffixed.
    destruct (String.eqb a "CO_ESCOLA") eqn:Ek; [reflexivity|].
    destruct (existsb (String.eqb a) (columns enem)) eqn:Ex; [|reflexivity].
    apply existsb_eqb_In in Ex. apply remove_nth_incl in Ha.
    rewrite (Hshare a Ex Ha) in Ek. discriminate Ek.
Qed.

(** ** The Merger: calling it again *)

Lemma sort_rows_of_sorted (i : nat) (l : list (list cell)) :
  key_sorted i l -> sort_rows i l = l.
Proof.
  unfold key_sorted. induction l as [|a l IH]; intros Hs; [reflexivity|].
  inversion Hs as [|? ? Hl Hhd]; subst. simpl. rewrite (IH Hl).
  destruct l as [|b l]; [reflexivity|]. simpl.
  inversion Hhd as [|? ? Hab]; subst. now rewrite Hab.
Qed.

Lemma existsb_perm {A : Type} (p : A -> bool) (l l' : list A) :
  Permutation l l' -> existsb p l = existsb p l'.
Proof.
  induction 1 as [|x l l' _ IH|x y l|l l' l'' _ IH1 _ IH2]; simpl.
  - reflexivity.
  - now rewrite IH.
  - destruct (p x), (p y); reflexivity.
  - congruence.
Qed.

Lemma sort_values_again (n : string) (df d : DataFrame) :
  sort_values n df = Ok d -> sort_values n d = Ok d.
Proof.
  unfold sort_values, index_of. intros H.
  destruct (col_index n (columns df)) as [i|] eqn:Ei; [simpl in H|discriminate].
  destruct (existsb is_num (map (cell_at i) (rows df))
            && existsb is_str (map (cell_at i) (rows df))) eqn:Em;
    [discriminate|].
  injection H as <-. simpl. rewrite Ei. simpl.
  assert (Hp : Permutation (map (cell_at i) (sort_rows i (rows df)))
                           (map (cell_at i) (rows df)))
    by (apply Permutation_map, sort_rows_perm).
  rewrite (existsb_perm is_num _ _ Hp), (existsb_perm is_str _ _ Hp), Em.
  now rewrite (sort_rows_of_sorted i _ (sort_rows_sorted i (rows df))).
Qed.

Lemma stringify_twice (i : nat) (c : cell) (r : list cell) :
  set_nth i (stringify (cell_at i (set_nth i (stringify c) r)))
          (set_nth i (stringify c) r)
  = set_nth i (stringify c) r.
Proof.
  revert i. induction r as [|a r IH]; intros [|i]; simpl; try reflexivity.
  f_equal. apply IH.
Qed.

Lemma key_text_again (n : string) (df d : DataFrame) :
  map_col stringify n df = Ok d -> map_col stringify n d = Ok d.
Proof.
  intros H. apply map_col_Ok in H. destruct H as [i [Ei [Hc Hr]]].
  unfold map_col. rewrite Hc, Ei. destruct d as [cols rs]. simpl in *.
  subst. f_equal. f_equal. rewrite map_map. apply map_ext. intros r.
  apply stringify_twice.
Qed.

Lemma map_fixed {A : Type} (f : A -> A) (l : list A) :
  map f l = l -> forall x, In x l -> f x = x.
Proof.
  induction l as [|a l IH]; simpl; intros H x Hx; [destruct Hx|].
  injection H as Ha Hl. destruct Hx as [<-|Hx]; auto.
Qed.

Lemma key_text_sorted (n : string) (d1 d2 : DataFrame) :
  map_col stringify n d1 = Ok d1 -> sort_values n d1 = Ok d2 ->
  map_col stringify n d2 = Ok d2.
Proof.
  intros H1 H2. apply map_col_Ok in H1. destruct H1 as [i [Ei [_ Hr]]].
  apply sort_values_Ok in H2. destruct H2 as [Hc [Hp _]].
  unfold map_col. rewrite Hc, Ei. destruct d2 as [cols rs]. simpl in *.
  subst cols. f_equal. f_equal.
  rewrite <- (map_id rs) at 2. apply map_ext_in. intros r Hin.
  apply (map_fixed _ _ (eq_sym Hr)). eapply Permutation_in; eauto.
Qed.

Lemma GetMerged_again (enem ideb : DataFrame) (c : Caller)
  (r : result DataFrame) :
  GetMerged enem ideb = (c, r) ->
  GetMerged (caller_enem c) (caller_ideb c) = (c, r).
Proof.
  unfold GetMerged at 1.
  destruct (map_col stringify "CO_ESCOLA" ideb) as [ideb1|e1] eqn:E1.
  - pose proof (key_text_again _ _ _ E1) as K1.
    destruct (sort_values "CO_ESCOLA" ideb1) as [ideb2|e2] eqn:E2.
    + pose proof (key_text_sorted _ _ _ K1 E2) as K2.
      pose proof (sort_values_again _ _ _ E2) as S2.
      destruct (sort_values "CO_ESCOLA" enem) as [enem1|e3] eqn:E3.
      * pose proof (sort_values_again _ _ _ E3) as S3.
        intros [= <- <-]. unfold GetMerged. simpl.
        now rewrite K2, S2, S3.
      * intros [= <- <-]. unfold GetMerged. simpl.
        now rewrite K2, S2, E3.
    + intros [= <- <-]. unfold GetMerged. simpl. now rewrite K1, E2.
  - intros [= <- <-]. unfold GetMerged. simpl. now rewrite E1.
Qed.

(** [GetMerged] can be called again on the tables it has left behind: the
    second call returns what the first returned and leaves the two tables
    as the first left them.  The keys are taken to be distinct within each
    table: the order in which a sort leaves rows of equal keys is then of
    no concern, neither in the first call nor in the second. *)
Theorem GetMerged_idempotent (enem ideb : DataFrame) :
  distinct (col_of enem "CO_ESCOLA") ->
  distinct (col_of (key_as_text ideb) "CO_ESCOLA") ->
  GetMerged (caller_enem (fst (GetMerged enem ideb)))
            (caller_ideb (fst (GetMerged enem ideb)))
  = GetMerged enem ideb.
Proof.
  intros _ _. destruct (GetMerged enem ideb) as [c r] eqn:E. simpl.
  now apply (GetMerged_again enem ideb).
Qed.

(** ** The group comparison: verdict and failures *)

Lemma msg_same_diff : msg_same <> msg_diff.
Proof. discriminate. Qed.

(** When [k] has a branch and scipy answers, exactly one line is printed:
    the p-value and the column, with the "same distribution" message when
    [p > alpha] and the "different distributions" message otherwise, which
    includes a p-value that is nan. *)
Theorem NonParamTest_verdict (df : DataFrame) (col : string) (alpha : float)
  (k : nat) (samples : list (list cell)) (call : test_call) (stat p : float) :
  prepare_samples df col = Ok (k, samples) ->
  enumerated_call k samples = Some call ->
  run_test call = Ok (stat, p) ->
  NonParamTest df col alpha
  = mkRun (Some call)
          (Ok [(if py_gt p alpha then msg_same else msg_diff, p, col)]) /\
  msg_same <> msg_diff /\
  (p = None -> py_gt p alpha = false).
Proof.
  intros H Hcall Hrun. pose proof (prepare_samples_length _ _ _ _ H) as Hlen.
  split; [|split; [exact msg_same_diff | intros ->; reflexivity]].
  unfold NonParamTest. rewrite H. simpl bind. subst k.
  rewrite dispatch_enumerated, Hcall, Hrun. simpl.
  destruct (py_gt p alpha); reflexivity.
Qed.

(** [NonParamTest] has no [try]: a missing column is a [KeyError] before
    any test is chosen, and an exception of scipy reaches the caller as it
    is, with nothing printed. *)
Theorem NonParamTest_failures (df : DataFrame) (col : string) (alpha : float) :
  (~ In target (columns df) \/ ~ In col (columns df) ->
   NonParamTest df col alpha = mkRun None (Raise KeyError)) /\
  (forall k samples call e,
     prepare_samples df col = Ok (k, samples) ->
     enumerated_call k samples = Some call ->
     run_test call = Raise e ->
     NonParamTest df col alpha = mkRun (Some call) (Raise e)).
Proof.
  split.
  - intros Hmiss. unfold NonParamTest, prepare_samples, select. simpl mapM.
    destruct Hmiss as [Hm|Hm].
    + now rewrite (col_index_None _ _ Hm).
    + rewrite (col_index_None _ _ Hm).
      destruct (col_index target (columns df)); reflexivity.
  - intros k samples call e H Hcall Hrun.
    pose proof (prepare_samples_length _ _ _ _ H) as Hlen.
    unfold NonParamTest. rewrite H. simpl bind. subst k.
    now rewrite dispatch_enumerated, Hcall, Hrun.
Qed.

Lemma firstn_member (n : nat) (l : list cell) (u : cell) :
  In u (firstn n l) -> In u l.
Proof.
  revert l. induction n as [|n IH]; intros l Hin.
  - destruct Hin.
  - destruct l as [|c l]; [destruct Hin|]. simpl in Hin.
    destruct Hin as [->|Hin]; [now left | right; auto].
Qed.

Lemma unique_In (l : list cell) (u : cell) : In u (unique l) -> In u l.
Proof.
  induction l as [|c l IH]; simpl; [auto|].
  intros [->|H]; [now left|]. apply filter_In in H. right. now apply IH.
Qed.

Lemma In_combine_l {A B : Type} (l : list A) (l' : list B) (a : A) :
  length l = length l' -> In a l -> exists b, In (a, b) (combine l l').
Proof.
  revert l'. induction l as [|x l IH]; intros [|y l'] Hlen Hin; simpl in *;
    try discriminate; [destruct Hin|].
  destruct Hin as [->|Hin]; [eauto|].
  destruct (IH l') as [b Hb]; [lia | assumption | eauto].
Qed.

(** On a category column without missing values no sample is empty, and
    there are no more samples than rows. *)
Theorem NonParamTest_samples_nonempty (df : DataFrame) (col : string)
  (k : nat) (samples : list (list cell)) :
  In target (columns df) ->
  String.eqb col target = false ->
  Forall (fun c => isna c = false) (col_of df col) ->
  prepare_samples df col = Ok (k, samples) ->
  Forall (fun s => s <> []) samples /\ k <= length (rows df).
Proof.
  intros Ht Hne Hna H.
  destruct (col_index_In _ _ Ht) as [it Eit].
  destruct (col_index col (columns df)) as [ic|] eqn:Eic.
  - unfold col_of in Hna. rewrite Eic in Hna.
    rewrite (prepare_samples_eq df col it ic Eit Eic Hne) in H.
    injection H as <- <-. split.
    + apply Forall_forall. intros s Hs. apply in_map_iff in Hs.
      destruct Hs as [u [<- Hu]]. apply firstn_member, unique_In in Hu.
      destruct (In_combine_l (column ic df) (column it df) u) as [t Hut];
        [now rewrite !column_length | assumption |].
      unfold sample_of. intros Hnil.
      assert (Hin : In (u, t) (filter (fun ct => py_eq (fst ct) u)
                                 (combine (column ic df) (column it df)))).
      { apply filter_In. split; [assumption|]. simpl.
        rewrite Forall_forall in Hna.
        rewrite py_eq_same_value by auto. apply same_value_refl. }
      apply (in_map snd) in Hin. rewrite Hnil in Hin. exact Hin.
    + etransitivity; [apply nunique_le|].
      rewrite <- (column_length ic df).
      clear. induction (column ic df) as [|c l IH]; simpl; [lia|].
      pose proof (filter_length_le (fun d => negb (same_value c d)) (unique l)).
      lia.
  - exfalso. unfold prepare_samples, select in H. simpl mapM in H.
    rewrite Eit, Eic in H. discriminate H.
Qed.

(** ** The normality sweep: failures *)

Lemma sweep_Raise (test : list cell -> result (float * float)) (alpha : float)
  (input : list (string * list cell)) (e : exn) :
  sweep test alpha input = Raise e ->
  exists nv, In nv input /\ test (snd nv) = Raise e.
Proof.
  unfold sweep. induction input as [|nv input IH]; simpl; [discriminate|].
  destruct (test (snd nv)) as [sp|e'] eqn:E; simpl.
  - destruct (mapM _ input) as [out|e'']; simpl; [discriminate|].
    intros [= <-]. destruct IH as [nv' [Hin Hnv']]; [reflexivity|]. eauto.
  - intros [= <-]. eauto.
Qed.

(** [NormalityTest] has no [try] either: when it raises, the exception is
    the one scipy raised on one of the numeric columns. *)
Theorem NormalityTest_failure (df : DataFrame) (alpha : float) (e : exn) :
  NormalityTest df alpha = Raise e ->
  exists nv, In nv (select_dtypes_numeric df) /\
             (shapiro (snd nv) = Raise e \/ normaltest (snd nv) = Raise e).
Proof.
  unfold NormalityTest. intros H.
  destruct (sweep shapiro alpha (select_dtypes_numeric df)) as [o1|e1] eqn:E1.
  - simpl in H.
    destruct (sweep normaltest alpha (select_dtypes_numeric df))
      as [o2|e2] eqn:E2; [discriminate|].
    simpl in H. injection H as <-.
    destruct (sweep_Raise _ _ _ _ E2) as [nv [Hin Hnv]]. eauto.
  - simpl in H. injection H as <-.
    destruct (sweep_Raise _ _ _ _ E1) as [nv [Hin Hnv]]. eauto.
Qed.

(** ** The Merger: inputs it cannot take *)

(** A student table without rows has no most frequent marital status: the
    call fails. *)
Theorem GetMerged_empty_enem (enem ideb : DataFrame) :
  rows enem = [] -> rect ideb ->
  snd (GetMerged enem ideb) = Raise TypeError.
Proof.
  intros Hrows Hi.
  assert (He : rect enem) by (unfold rect; rewrite Hrows; constructor).
  destruct (snd (GetMerged enem ideb)) as [out|e] eqn:E;
    [exfalso | f_equal; revert E; rewrite GetMerged_result;
               apply raise_print_Raise].
  destruct (proj1 (GetMerged_Ok _ _ _) E) as [m [_ [Hm _]]].
  destruct (joined_Ok _ _ _ Hm)
    as (enem1 & ideb2 & j & li & ri & Hpe & _ & _ & _ & _ & Hj & Hrm).
  rewrite Hrows in Hpe. apply Permutation_sym, Permutation_nil in Hpe.
  rewrite Hpe in Hj. simpl in Hj. rewrite Hj in Hrm. simpl in Hrm.
  destruct (GetMerged_output _ _ _ _ He Hi Hm E)
    as (ia & ic & ie & ir & iu & age & mc & me &
        _ & _ & _ & _ & _ & _ & _ & _ & _ & Hmc & _).
  unfold column in Hmc. rewrite Hrm in Hmc. discriminate Hmc.
Qed.

Lemma mapM_to_float_text (l l' : list cell) (s : string) :
  mapM to_float l = Ok l' -> In (Str s) l -> py_float s <> None.
Proof.
  intros H Hin Hs. apply mapM_Forall2 in H.
  destruct (Forall2_In_l _ _ _ _ H Hin) as [b [_ Hb]].
  simpl in Hb. rewrite Hs in Hb. discriminate Hb.
Qed.

(** A text that Python's [float] refuses, in one of the four columns that
    are cast, makes the call fail. *)
Theorem GetMerged_unparsable_number (enem ideb m : DataFrame) (n s : string) :
  rect enem -> rect ideb -> joined enem ideb = Ok m ->
  In n numeric_cols -> In (Str s) (col_of m n) -> py_float s = None ->
  snd (GetMerged enem ideb) = Raise TypeError.
Proof.
  intros He Hi Hm Hn Hin Hs.
  destruct (snd (GetMerged enem ideb)) as [out|e] eqn:E;
    [exfalso | f_equal; revert E; rewrite GetMerged_result;
               apply raise_print_Raise].
  destruct (proj1 (GetMerged_Ok _ _ _) E) as [m0 [m' [Hm0 [Himp Hcast]]]].
  rewrite Hm in Hm0. injection Hm0 as <-.
  pose proof (rect_joined _ _ _ He Hi Hm) as Hrect.
  destruct (impute_stage_Ok _ _ Hrect Himp)
    as (ia & ic & ie & ir & iu & age & med & mc & me & meds &
        Eia & Eic & Eie & Eir & Eiu & Hage & Hmed & Hmc & Hme & Hmeds &
        Hc' & Hr' & Hl' & Ca & Cc & Ce & Cr & Co).
  destruct (cast_stage_Ok _ _ Hr' Hcast) as [_ [_ [_ [Hnum _]]]].
  unfold col_of in Hin.
  destruct (col_index n (columns m)) as [i|] eqn:Ei; [|destruct Hin].
  assert (Hraw : forall l', mapM to_float (column i m) = Ok l' -> False).
  { intros l' Hl. exact (mapM_to_float_text _ _ _ Hl Hin Hs). }
  simpl in Hn. destruct Hn as [<-|[<-|[<-|[<-|[]]]]].
  - rewrite Eia in Ei. injection Ei as <-. eauto.
  - apply (Hraw (column i out)). rewrite <- (Co i).
    + apply (Hnum "NU_NOTA_TOT"); [simpl; auto | now rewrite Hc'].
    + distinct_index Ei Eia.
    + distinct_index Ei Eic.
    + distinct_index Ei Eie.
    + distinct_index Ei Eir.
  - rewrite Eir in Ei. injection Ei as <-.
    apply groupby_spec in Hmeds. destruct Hmeds as [Hstr _].
    pose proof (existsb_false_In _ _ _ Hstr Hin) as X. discriminate X.
  - apply (Hraw (column i out)). rewrite <- (Co i).
    + apply (Hnum "Q005"); [simpl; auto 6 | now rewrite Hc'].
    + distinct_index Ei Eia.
    + distinct_index Ei Eic.
    + distinct_index Ei Eie.
    + distinct_index Ei Eir.
Qed.

(** ** The Merger: a median lies among the values *)

Lemma insert_q_In (x y : Q) (l : list Q) :
  In y (insert_q x l) -> y = x \/ In y l.
Proof.
  induction l as [|z l IH]; simpl.
  - intros [<-|[]]. now left.
  - destruct (Qle_bool x z); simpl.
    + intros [<-|H]; auto.
    + intros [<-|H]; auto. destruct (IH H); auto.
Qed.

Lemma sort_q_In (y : Q) (l : list Q) : In y (sort_q l) -> In y l.
Proof.
  induction l as [|x l IH]; simpl; [auto|].
  intros H. apply insert_q_In in H. destruct H as [->|H]; auto.
Qed.

Lemma median_q_in_range (xs : list Q) :
  xs <> [] ->
  exists lo hi med,
    In lo xs /\ In hi xs /\ median_q xs = Num med /\
    (lo <= med)%Q /\ (med <= hi)%Q.
Proof.
  intros Hne. unfold median_q.
  assert (Hlen : length (sort_q xs) <> 0).
  { rewrite sort_q_length. destruct xs; simpl; congruence. }
  destruct (length (sort_q xs) =? 0) eqn:E0;
    [apply Nat.eqb_eq in E0; contradiction|].
  set (s := sort_q xs) in *. set (n := length s) in *.
  assert (Hmid : n / 2 < n) by (apply Nat.div_lt; lia).
  assert (Hb : In (nth (n / 2) s 0%Q) xs)
    by (apply sort_q_In, nth_In; exact Hmid).
  destruct (Nat.odd n).
  - exists (nth (n / 2) s 0%Q), (nth (n / 2) s 0%Q), (nth (n / 2) s 0%Q).
    repeat split; auto; apply Qle_refl.
  - assert (Ha : In (nth (n / 2 - 1) s 0%Q) xs)
      by (apply sort_q_In, nth_In;
          apply Nat.le_lt_trans with (n / 2);
          [apply Nat.le_sub_l | exact Hmid]).
    set (a := nth (n / 2 - 1) s 0%Q) in *.
    set (b := nth (n / 2) s 0%Q) in *.
    clearbody a b.
    destruct (Qlt_le_dec a b) as [Hab|Hba].
    + exists a, b, (Qred ((a + b) / 2)).
      split; [exact Ha|]. split; [exact Hb|]. split; [reflexivity|].
      rewrite Qred_correct. unfold Qdiv. change (/ 2)%Q with (1 # 2)%Q.
      split; lra.
    + exists b, a, (Qred ((a + b) / 2)).
      split; [exact Hb|]. split; [exact Ha|]. split; [reflexivity|].
      rewrite Qred_correct. unfold Qdiv. change (/ 2)%Q with (1 # 2)%Q.
      split; lra.
Qed.

(** The value written into a missing enrollment index is no invention: when
    the state of the row has an enrollment index at all, the value lies
    between two enrollment indices of that state. *)
Theorem GetMerged_fill_in_range (enem ideb m out : DataFrame) (i : nat)
  (state known : cell) :
  rect enem -> rect ideb ->
  joined enem ideb = Ok m -> snd (GetMerged enem ideb) = Ok out ->
  nth_error (col_of m "SG_UF_RESIDENCIA") i = Some state ->
  nth_error (col_of m "IN_RENDIMENTO") i = Some NaN ->
  isna state = false ->
  In known (group_values (col_of m "SG_UF_RESIDENCIA")
                         (col_of m "IN_RENDIMENTO") state) ->
  isna known = false ->
  exists lo hi med,
    In (Num lo) (group_values (col_of m "SG_UF_RESIDENCIA")
                              (col_of m "IN_RENDIMENTO") state) /\
    In (Num hi) (group_values (col_of m "SG_UF_RESIDENCIA")
                              (col_of m "IN_RENDIMENTO") state) /\
    nth_error (col_of out "IN_RENDIMENTO") i = Some (Num med) /\
    (lo <= med)%Q /\ (med <= hi)%Q.
Proof.
  intros He Hi Hm Hout Hs Hr Hna Hknown Hk.
  destruct (GetMerged_output _ _ _ _ He Hi Hm Hout)
    as (ia & ic & ie & ir & iu & age & mc & me &
        Eia & Eic & Eie & Eir & Eiu & Hco & Hlo & Hage & Ca & Hmc & Cc &
        Hme & Ce & Hstr & Cr).
  unfold col_of in *. rewrite Hco, Eir in *. rewrite Eiu in *. rewrite Cr.
  rewrite (map_nth_error _ _ _ (nth_error_combine _ _ _ _ _ Hs Hr)).
  unfold filled_enrollment, group_median. simpl. rewrite Hna.
  set (g := group_values (column iu m) (column ir m) state) in *.
  assert (Hg : nums g <> []).
  { apply (nums_nonempty g known); auto.
    apply group_values_In in Hknown.
    exact (existsb_false_In _ _ _ Hstr Hknown). }
  destruct (median_q_in_range _ Hg) as (lo & hi & med & Hlo' & Hhi & Hmed & H1 & H2).
  assert (Hnum : forall x, In x (nums g) -> In (Num x) g).
  { intros x Hx. unfold nums in Hx. apply in_flat_map in Hx.
    destruct Hx as [c [Hc Hx]]. destruct c; simpl in Hx;
      try (destruct Hx); [subst; assumption | contradiction]. }
  exists lo, hi, med. rewrite Hmed. repeat split; auto.
Qed.

End Pipeline.


(** * The statements at the sample tables *)

Ltac nodup_strings :=
  repeat (constructor; [simpl; intros H;
                        repeat (destruct H as [H|H]; [discriminate H|]);
                        exact H|]); constructor.

Ltac rect_rows := unfold rect; simpl; repeat constructor.

Lemma key_rewrite_total_witness :
  key_rewrite repr_unused (Str "3500101") = Str "35001" /\
  (String.length "7" <= 2 -> key_rewrite repr_unused (Str "7") = Str "").
Proof.
  split.
  - exact (proj1 (key_rewrite_total repr_unused (Str "3500101"))).
  - exact (proj2 (proj2 (key_rewrite_total repr_unused (Str "7")))).
Defined.

Lemma PrepareIdeb_clean_witness :
  wf_df raw_sample /\
  In raw_key (columns raw_sample) /\ In raw_rend (columns raw_sample) /\
  In raw_nota (columns raw_sample) /\ In raw_ideb (columns raw_sample) /\
  exists out,
    PrepareIdeb repr_unused raw_sample = Ok out /\
    columns out = ["CO_ESCOLA"; "IN_RENDIMENTO"; "NT_PADRONIZADA"; "IDEB"].
Proof.
  assert (Hwf : wf_df raw_sample) by (split; [nodup_strings | rect_rows]).
  assert (H1 : In raw_key (columns raw_sample)) by (simpl; auto).
  assert (H2 : In raw_rend (columns raw_sample)) by (simpl; auto).
  assert (H3 : In raw_nota (columns raw_sample)) by (simpl; auto).
  assert (H4 : In raw_ideb (columns raw_sample)) by (simpl; auto 6).
  split; [exact Hwf|]. split; [exact H1|]. split; [exact H2|].
  split; [exact H3|]. split; [exact H4|].
  destruct (PrepareIdeb_clean repr_unused raw_sample Hwf H1 H2 H3 H4)
    as [out [Hout [Hcols _]]].
  exists out. split; assumption.
Defined.

Example PrepareIdeb_sample :
  PrepareIdeb repr_unused raw_sample
  = Ok (mkDF ideb_header
             [ [Str "35001"; Num (4 # 5); Num 4; Num (16 # 5)];
               [Str "33001"; NaN; NaN; NaN] ]).
Proof. reflexivity. Qed.

Lemma join_stage_left_join_witness :
  join_stage enem_sample ideb_sample
  = Ok (mkDF merged_header
             [ [Num 17; Str "1"; Str "1"; Str "SP"; Num 520; Num 4;
                Num (9 # 10)];
               [NaN; NaN; Str "1"; Str "SP"; Num 610; Num 3; Num (4 # 5)];
               [Num 18; Str "1"; NaN; Str "SP"; Num 480; Num 5; NaN];
               [Num 19; Str "2"; Str "1"; Str "RJ"; Num 700; Num 2;
                Num (3 # 5)];
               [Num 18; Str "1"; Str "2"; Str "RJ"; Num 555; Num 4; NaN] ]) /\
  exists li ri j blocks,
    col_index "CO_ESCOLA" (columns enem_sample) = Some li /\
    col_index "CO_ESCOLA" (columns ideb_sample) = Some ri /\
    merge_left "CO_ESCOLA" enem_sample ideb_sample = Ok j /\
    rows j = concat blocks /\
    length blocks = 5.
Proof.
  split; [reflexivity|].
  destruct (join_stage_left_join enem_sample ideb_sample _ eq_refl)
    as (li & ri & j & blocks & Hli & Hri & Hj & Hrows & Hblocks & _).
  exists li, ri, j, blocks. repeat split; auto.
  apply Forall2_length in Hblocks. rewrite <- Hblocks. reflexivity.
Defined.


Lemma rect_enem_sample : rect enem_sample.
Proof. rect_rows. Qed.

Lemma rect_ideb_sample : rect ideb_sample.
Proof. rect_rows. Qed.

Lemma rect_enem_nostate : rect enem_nostate.
Proof. rect_rows. Qed.


Lemma joined_sample : joined repr_unused enem_sample ideb_sample = Ok merged_sample.
Proof. reflexivity. Qed.

Lemma GetMerged_sample :
  snd (GetMerged repr_unused float_unused enem_sample ideb_sample)
  = Ok output_sample.
Proof. reflexivity. Qed.

(** Two states with distinct medians, 3/5 for RJ and 17/20 for SP, while the
    median over all rows is 4/5: the second row (RJ) and the fifth (SP)
    each receive the median of their own state.  In [enem_nostate] the
    fifth row has no state and keeps its missing enrollment index. *)
Lemma enrollment_filled_with_state_median_witness :
  rect enem_sample /\ rect ideb_sample /\
  joined repr_unused enem_sample ideb_sample = Ok merged_sample /\
  snd (GetMerged repr_unused float_unused enem_sample ideb_sample)
  = Ok output_sample /\
  nth_error (col_of merged_sample "SG_UF_RESIDENCIA") 1 = Some (Str "RJ") /\
  nth_error (col_of merged_sample "IN_RENDIMENTO") 1 = Some NaN /\
  isna (Str "RJ") = false /\
  nth_error (col_of output_sample "IN_RENDIMENTO") 1
  = Some (group_median (col_of merged_sample "SG_UF_RESIDENCIA")
                       (col_of merged_sample "IN_RENDIMENTO") (Str "RJ")) /\
  nth_error (col_of output_sample "IN_RENDIMENTO") 4
  = Some (group_median (col_of merged_sample "SG_UF_RESIDENCIA")
                       (col_of merged_sample "IN_RENDIMENTO") (Str "SP")) /\
  nth_error (col_of output_sample "IN_RENDIMENTO") 1
  <> Some (global_median (col_of merged_sample "IN_RENDIMENTO")) /\
  nth_error (col_of output_sample "IN_RENDIMENTO") 4
  <> Some (global_median (col_of merged_sample "IN_RENDIMENTO")) /\
  nth_error (col_of merged_nostate "SG_UF_RESIDENCIA") 4 = Some NaN /\
  nth_error (col_of merged_nostate "IN_RENDIMENTO") 4 = Some NaN /\
  nth_error (col_of output_nostate "IN_RENDIMENTO") 4 = Some NaN.
Proof.
  pose proof (enrollment_filled_with_state_median repr_unused float_unused
                enem_sample ideb_sample merged_sample output_sample
                rect_enem_sample rect_ideb_sample joined_sample
                GetMerged_sample) as H.
  split; [exact rect_enem_sample|]. split; [exact rect_ideb_sample|].
  split; [exact joined_sample|]. split; [exact GetMerged_sample|].
  split; [reflexivity|]. split; [reflexivity|]. split; [reflexivity|].
  split; [exact (proj1 (H 1 (Str "RJ") eq_refl eq_refl) eq_refl)|].
  split; [exact (proj1 (H 4 (Str "SP") eq_refl eq_refl) eq_refl)|].
  split; [intros E; vm_compute in E; discriminate E|].
  split; [intros E; vm_compute in E; discriminate E|].
  split; [reflexivity|]. split; [reflexivity|].
  exact (proj2 (enrollment_filled_with_state_median repr_unused float_unused
                  enem_nostate ideb_sample merged_nostate output_nostate
                  rect_enem_nostate rect_ideb_sample eq_refl eq_refl
                  4 NaN eq_refl eq_refl) eq_refl).
Defined.

Example state_medians_sample :
  group_median (col_of merged_sample "SG_UF_RESIDENCIA")
               (col_of merged_sample "IN_RENDIMENTO") (Str "RJ")
  = Num (3 # 5) /\
  group_median (col_of merged_sample "SG_UF_RESIDENCIA")
               (col_of merged_sample "IN_RENDIMENTO") (Str "SP")
  = Num (17 # 20) /\
  global_median (col_of merged_sample "IN_RENDIMENTO") = Num (4 # 5) /\
  col_of output_sample "IN_RENDIMENTO"
  = [Num (3 # 5); Num (3 # 5); Num (4 # 5); Num (9 # 10); Num (17 # 20)].
Proof. repeat split; reflexivity. Qed.

Lemma groups_nonempty_sample : groups_nonempty float_unused merged_sample.
Proof.
  repeat split.
  - exists (Num 19), 19%Q. split; [simpl; auto | reflexivity].
  - exists (Str "2"). split; [simpl; auto | reflexivity].
  - exists (Str "1"). split; [simpl; auto | reflexivity].
  - intros s Hs. simpl in Hs.
    destruct Hs as [<-|[<-|[<-|[<-|[<-|[]]]]]].
    + exists (Num (3 # 5)). split; [simpl; auto | reflexivity].
    + exists (Num (3 # 5)). split; [simpl; auto | reflexivity].
    + exists (Num (4 # 5)). split; [simpl; auto | reflexivity].
    + exists (Num (4 # 5)). split; [simpl; auto | reflexivity].
    + exists (Num (4 # 5)). split; [simpl; auto | reflexivity].
Qed.

Lemma GetMerged_no_nulls_witness :
  rect enem_sample /\ rect ideb_sample /\
  joined repr_unused enem_sample ideb_sample = Ok merged_sample /\
  snd (GetMerged repr_unused float_unused enem_sample ideb_sample)
  = Ok output_sample /\
  groups_nonempty float_unused merged_sample /\
  Forall (fun s => isna s = false) (col_of merged_sample "SG_UF_RESIDENCIA") /\
  no_nulls output_sample.
Proof.
  assert (Huf : Forall (fun s => isna s = false)
                       (col_of merged_sample "SG_UF_RESIDENCIA"))
    by (simpl; repeat constructor).
  split; [exact rect_enem_sample|]. split; [exact rect_ideb_sample|].
  split; [exact joined_sample|]. split; [exact GetMerged_sample|].
  split; [exact groups_nonempty_sample|]. split; [exact Huf|].
  exact (GetMerged_no_nulls repr_unused float_unused enem_sample ideb_sample
           merged_sample output_sample rect_enem_sample rect_ideb_sample
           joined_sample GetMerged_sample groups_nonempty_sample Huf).
Defined.

(** C2 fails when a row has no state of residence.  In [enem_nostate] every
    group has a value to offer, the rows without a state included (school
    35001 has an enrollment index), yet the row of school 35009 leaves
    [GetMerged] with a missing enrollment index. *)
Lemma groups_nonempty_null_state :
  rect enem_nostate /\ rect ideb_sample /\
  joined repr_unused enem_nostate ideb_sample = Ok merged_nostate /\
  snd (GetMerged repr_unused float_unused enem_nostate ideb_sample)
  = Ok output_nostate /\
  groups_nonempty float_unused merged_nostate /\
  ~ no_nulls output_nostate.
Proof.
  split; [exact rect_enem_nostate|]. split; [exact rect_ideb_sample|].
  split; [reflexivity|]. split; [reflexivity|]. split.
  - repeat split.
    + exists (Num 19), 19%Q. split; [simpl; auto | reflexivity].
    + exists (Str "2"). split; [simpl; auto | reflexivity].
    + exists (Str "1"). split; [simpl; auto | reflexivity].
    + intros s Hs. simpl in Hs.
      destruct Hs as [<-|[<-|[<-|[<-|[<-|[]]]]]].
      * exists (Num (3 # 5)). split; [simpl; auto | reflexivity].
      * exists (Num (3 # 5)). split; [simpl; auto | reflexivity].
      * exists (Num (4 # 5)). split; [simpl; auto | reflexivity].
      * exists (Num (9 # 10)). split; [simpl; auto | reflexivity].
      * exists (Num (4 # 5)). split; [simpl; auto | reflexivity].
  - intros H. destruct (H "IN_RENDIMENTO") as [_ [_ Hall]]; [simpl; auto|].
    rewrite Forall_forall in Hall. specialize (Hall NaN).
    assert (Hin : In NaN (col_of output_nostate "IN_RENDIMENTO"))
      by (simpl; auto 6).
    specialize (Hall Hin). discriminate Hall.
Qed.





Lemma NonParamTest_unsupported_witness :
  prepare_samples df_nine "Q006"
  = Ok (9, [ [Num 410]; [Num 420]; [Num 430]; [Num 440]; [Num 450];
             [Num 460]; [Num 470]; [Num 480]; [Num 490] ]) /\
  supported 9 = false /\
  NonParamTest mannwhitneyu_sample kruskal_sample df_nine "Q006" alpha_default
  = mkRun None (Raise UnboundLocalError).
Proof.
  split; [reflexivity|]. split; [reflexivity|].
  exact (NonParamTest_unsupported mannwhitneyu_sample kruskal_sample df_nine
           "Q006" alpha_default 9 _ eq_refl eq_refl).
Defined.

(** C4 fails at nine groups: the call does not return quietly (which would
    be [Ok []], nothing printed), it raises. *)
Lemma nine_groups_raise :
  nunique (col_of df_nine "Q006") = 9 /\
  supported 9 = false /\
  printed (NonParamTest mannwhitneyu_sample kruskal_sample df_nine "Q006"
                        alpha_default)
  = Raise UnboundLocalError /\
  printed (NonParamTest mannwhitneyu_sample kruskal_sample df_nine "Q006"
                        alpha_default)
  <> Ok [].
Proof.
  split; [reflexivity|]. split; [reflexivity|]. split; [reflexivity|].
  intros H. vm_compute in H. discriminate H.
Qed.

(** C9 fails: after the call the caller's two tables are in another order
    than before. *)
Lemma GetMerged_reorders_caller_tables :
  caller_enem (fst (GetMerged repr_unused float_unused enem_sample ideb_sample))
  <> enem_sample /\
  caller_ideb (fst (GetMerged repr_unused float_unused enem_sample ideb_sample))
  <> ideb_sample /\
  rows (caller_enem (fst (GetMerged repr_unused float_unused enem_sample
                                    ideb_sample)))
  = [ [Str "33001"; Num 19; Str "2"; Str "1"; Str "RJ"; Num 700; Num 2];
      [Str "33009"; Num 18; Str "1"; Str "2"; Str "RJ"; Num 555; Num 4];
      [Str "35001"; NaN; NaN; Str "1"; Str "SP"; Num 610; Num 3];
      [Str "35002"; Num 17; Str "1"; Str "1"; Str "SP"; Num 520; Num 4];
      [Str "35009"; Num 18; Str "1"; NaN; Str "SP"; Num 480; Num 5] ].
Proof.
  split; [|split; [|reflexivity]]; intros H; vm_compute in H; discriminate H.
Qed.

Lemma GetMerged_caller_tables_witness :
  snd (GetMerged repr_unused float_unused enem_sample ideb_sample)
  = Ok output_sample /\
  sorted_by_key
    (caller_enem (fst (GetMerged repr_unused float_unused enem_sample
                                 ideb_sample))) /\
  sorted_by_key
    (caller_ideb (fst (GetMerged repr_unused float_unused enem_sample
                                 ideb_sample))).
Proof.
  split; [reflexivity|].
  exact (proj2 (proj2 (proj2 (proj2
           (GetMerged_caller_tables repr_unused float_unused enem_sample
              ideb_sample)))) output_sample eq_refl).
Defined.

(** C3 fails for a row without a state of residence.  In [enem_nostate]
    the fifth row of the merged table has neither a state nor an enrollment
    index.  The rows without a state hold one enrollment index, 4/5, which
    is their median; the row leaves [GetMerged] with its enrollment index
    still missing. *)
Lemma null_state_row_not_filled :
  rect enem_nostate /\ rect ideb_sample /\
  joined repr_unused enem_nostate ideb_sample = Ok merged_nostate /\
  snd (GetMerged repr_unused float_unused enem_nostate ideb_sample)
  = Ok output_nostate /\
  nth_error (col_of merged_nostate "SG_UF_RESIDENCIA") 4 = Some NaN /\
  nth_error (col_of merged_nostate "IN_RENDIMENTO") 4 = Some NaN /\
  group_values (col_of merged_nostate "SG_UF_RESIDENCIA")
               (col_of merged_nostate "IN_RENDIMENTO") NaN
  = [Num (4 # 5); NaN] /\
  group_median (col_of merged_nostate "SG_UF_RESIDENCIA")
               (col_of merged_nostate "IN_RENDIMENTO") NaN
  = Num (4 # 5) /\
  nth_error (col_of output_nostate "IN_RENDIMENTO") 4 = Some NaN /\
  nth_error (col_of output_nostate "IN_RENDIMENTO") 4
  <> Some (group_median (col_of merged_nostate "SG_UF_RESIDENCIA")
                        (col_of merged_nostate "IN_RENDIMENTO") NaN).
Proof.
  split; [exact rect_enem_nostate|]. split; [exact rect_ideb_sample|].
  split; [reflexivity|]. split; [reflexivity|]. split; [reflexivity|].
  split; [reflexivity|]. split; [reflexivity|]. split; [reflexivity|].
  split; [reflexivity|].
  intros E. vm_compute in E. discriminate E.
Qed.


(** * The further properties at the sample tables *)


Lemma PrepareIdeb_keys_are_text_witness :
  PrepareIdeb repr_unused raw_sample = Ok cleaned_sample /\
  Forall (fun c => is_str c = true) (col_of cleaned_sample "CO_ESCOLA") /\
  key_as_text repr_unused cleaned_sample = cleaned_sample.
Proof.
  split; [reflexivity|].
  exact (PrepareIdeb_keys_are_text repr_unused raw_sample cleaned_sample
           eq_refl).
Defined.


Lemma GetMerged_missing_key_witness :
  GetMerged repr_unused float_unused enem_sample ideb_nokey
  = (mkCaller enem_sample ideb_nokey, Raise TypeError) /\
  GetMerged repr_unused float_unused enem_nokey ideb_sample
  = (mkCaller enem_nokey (ideb_after_sort repr_unused ideb_sample),
     Raise TypeError) /\
  rows (ideb_after_sort repr_unused ideb_sample)
  = [ [Str "33001"; Num (3 # 5); NaN; NaN];
      [Str "35001"; Num (4 # 5); Num 4; Num (16 # 5)];
      [Str "35002"; Num (9 # 10); Num 5; Num (9 # 2)] ].
Proof.
  split; [|split; [|reflexivity]].
  - apply (proj1 (GetMerged_missing_key repr_unused float_unused enem_sample
                    ideb_nokey)).
    simpl. intros [H|[H|[H|[]]]]; discriminate H.
  - apply (proj2 (GetMerged_missing_key repr_unused float_unused enem_nokey
                    ideb_sample)).
    + simpl. auto.
    + simpl. intros [H|[H|[]]]; discriminate H.
Defined.

Lemma GetMerged_row_count_witness :
  rect enem_sample /\ rect ideb_sample /\
  snd (GetMerged repr_unused float_unused enem_sample ideb_sample)
  = Ok output_sample /\
  distinct (col_of (key_as_text repr_unused ideb_sample) "CO_ESCOLA") /\
  length (rows output_sample) = length (rows enem_sample).
Proof.
  assert (Hd : distinct (col_of (key_as_text repr_unused ideb_sample)
                                "CO_ESCOLA")).
  { simpl. repeat split; repeat constructor. }
  split; [exact rect_enem_sample|]. split; [exact rect_ideb_sample|].
  split; [exact GetMerged_sample|]. split; [exact Hd|].
  exact (proj2 (GetMerged_row_count repr_unused float_unused enem_sample
                  ideb_sample output_sample rect_enem_sample rect_ideb_sample
                  GetMerged_sample) Hd).
Defined.

Lemma GetMerged_output_types_witness :
  rect enem_sample /\ rect ideb_sample /\
  snd (GetMerged repr_unused float_unused enem_sample ideb_sample)
  = Ok output_sample /\
  Forall (fun c => is_str c = false) (col_of output_sample "Q005") /\
  Forall (fun c => is_str c = true)
         (col_of output_sample "SG_UF_RESIDENCIA").
Proof.
  destruct (GetMerged_output_types repr_unused float_unused enem_sample
              ideb_sample output_sample rect_enem_sample rect_ideb_sample
              GetMerged_sample) as [Hnum Htext].
  split; [exact rect_enem_sample|]. split; [exact rect_ideb_sample|].
  split; [exact GetMerged_sample|]. split.
  - apply (Hnum "Q005"%string). simpl. auto.
  - apply (Htext "SG_UF_RESIDENCIA"%string).
    + simpl. auto.
    + simpl. intros [H|[H|[H|[H|[]]]]]; discriminate H.
Defined.

Lemma GetMerged_keeps_present_values_witness :
  rect enem_sample /\ rect ideb_sample /\
  joined repr_unused enem_sample ideb_sample = Ok merged_sample /\
  snd (GetMerged repr_unused float_unused enem_sample ideb_sample)
  = Ok output_sample /\
  nth_error (col_of merged_sample "IN_RENDIMENTO") 0 = Some (Num (3 # 5)) /\
  nth_error (col_of output_sample "IN_RENDIMENTO") 0 = Some (Num (3 # 5)).
Proof.
  split; [exact rect_enem_sample|]. split; [exact rect_ideb_sample|].
  split; [exact joined_sample|]. split; [exact GetMerged_sample|].
  split; [reflexivity|].
  exact (proj1 (GetMerged_keeps_present_values repr_unused float_unused
                  enem_sample ideb_sample merged_sample output_sample
                  rect_enem_sample rect_ideb_sample joined_sample
                  GetMerged_sample 0 (Num (3 # 5)) eq_refl) eq_refl).
Defined.

Lemma GetMerged_global_rules_witness :
  rect enem_sample /\ rect ideb_sample /\
  joined repr_unused enem_sample ideb_sample = Ok merged_sample /\
  snd (GetMerged repr_unused float_unused enem_sample ideb_sample)
  = Ok output_sample /\
  exists age mc me,
    mapM (to_float float_unused) (col_of merged_sample "NU_IDADE") = Ok age /\
    col_of output_sample "NU_IDADE" = map (fillna (global_median age)) age /\
    most_frequent mc (col_of merged_sample "TP_ESTADO_CIVIL") /\
    col_of output_sample "TP_ESTADO_CIVIL"
    = map (fun c => stringify repr_unused (fillna mc c))
          (col_of merged_sample "TP_ESTADO_CIVIL") /\
    most_frequent me (col_of merged_sample "TP_ENSINO") /\
    col_of output_sample "TP_ENSINO"
    = map (fun c => stringify repr_unused (fillna me c))
          (col_of merged_sample "TP_ENSINO").
Proof.
  split; [exact rect_enem_sample|]. split; [exact rect_ideb_sample|].
  split; [exact joined_sample|]. split; [exact GetMerged_sample|].
  exact (GetMerged_global_rules repr_unused float_unused enem_sample
           ideb_sample merged_sample output_sample rect_enem_sample
           rect_ideb_sample joined_sample GetMerged_sample).
Defined.

Lemma rect_enem_clash : rect enem_clash.
Proof. rect_rows. Qed.

Lemma GetMerged_name_clash_witness :
  rect enem_clash /\ rect ideb_sample /\
  In "IDEB"%string (columns enem_clash) /\
  In "IDEB"%string (columns ideb_sample) /\
  snd (GetMerged repr_unused float_unused enem_clash ideb_sample)
  = Raise TypeError.
Proof.
  assert (He : In "IDEB"%string (columns enem_clash)) by (simpl; auto 10).
  assert (Hi : In "IDEB"%string (columns ideb_sample)) by (simpl; auto 6).
  split; [exact rect_enem_clash|]. split; [exact rect_ideb_sample|].
  split; [exact He|]. split; [exact Hi|].
  apply (GetMerged_name_clash repr_unused float_unused enem_clash ideb_sample
           "IDEB" rect_enem_clash rect_ideb_sample); [|exact He|exact Hi].
  simpl. auto.
Defined.

Lemma GetMerged_header_witness :
  rect enem_sample /\ rect ideb_sample /\
  snd (GetMerged repr_unused float_unused enem_sample ideb_sample)
  = Ok output_sample /\
  col_index "CO_ESCOLA" (columns ideb_sample) = Some 0 /\
  columns output_sample
  = filter (fun c => negb (existsb (String.eqb c) dropped_labels))
           (columns enem_sample ++ remove_nth 0 (columns ideb_sample)).
Proof.
  split; [exact rect_enem_sample|]. split; [exact rect_ideb_sample|].
  split; [exact GetMerged_sample|]. split; [reflexivity|].
  apply (GetMerged_header repr_unused float_unused enem_sample ideb_sample
           output_sample 0 rect_enem_sample rect_ideb_sample GetMerged_sample
           eq_refl).
  intros n He Hi. simpl in He, Hi.
  destruct Hi as [Hi|[Hi|[Hi|[Hi|[]]]]]; subst n; [reflexivity| | |];
    repeat (destruct He as [He|He]; [discriminate He|]); destruct He.
Defined.
Lemma NonParamTest_verdict_witness :
  prepare_samples enem_sample "SG_UF_RESIDENCIA"
  = Ok (2, [ [Num 520; Num 610; Num 480]; [Num 700; Num 555] ]) /\
  NonParamTest mannwhitneyu_sample kruskal_sample enem_sample
               "SG_UF_RESIDENCIA" alpha_default
  = mkRun (Some (MannWhitneyU [Num 520; Num 610; Num 480]
                              [Num 700; Num 555]))
          (Ok [(msg_same, Some (1 # 5)%Q, "SG_UF_RESIDENCIA"%string)]) /\
  NonParamTest mannwhitneyu_sample kruskal_sample enem_sample
               "SG_UF_RESIDENCIA" (Some (1 # 2)%Q)
  = mkRun (Some (MannWhitneyU [Num 520; Num 610; Num 480]
                              [Num 700; Num 555]))
          (Ok [(msg_diff, Some (1 # 5)%Q, "SG_UF_RESIDENCIA"%string)]).
Proof.
  split; [reflexivity|]. split.
  - exact (proj1 (NonParamTest_verdict mannwhitneyu_sample kruskal_sample
                    enem_sample "SG_UF_RESIDENCIA" alpha_default 2 _
                    (MannWhitneyU [Num 520; Num 610; Num 480]
                                  [Num 700; Num 555])
                    (Some (3 # 1)%Q) (Some (1 # 5)%Q)
                    eq_refl eq_refl eq_refl)).
  - exact (proj1 (NonParamTest_verdict mannwhitneyu_sample kruskal_sample
                    enem_sample "SG_UF_RESIDENCIA" (Some (1 # 2)%Q) 2 _
                    (MannWhitneyU [Num 520; Num 610; Num 480]
                                  [Num 700; Num 555])
                    (Some (3 # 1)%Q) (Some (1 # 5)%Q)
                    eq_refl eq_refl eq_refl)).
Defined.

Lemma NonParamTest_failures_witness :
  ~ In "Q006"%string (columns enem_sample) /\
  NonParamTest mannwhitneyu_sample kruskal_sample enem_sample "Q006"
               alpha_default
  = mkRun None (Raise KeyError) /\
  NonParamTest (fun _ _ => Raise ValueError) kruskal_sample enem_sample
               "SG_UF_RESIDENCIA" alpha_default
  = mkRun (Some (MannWhitneyU [Num 520; Num 610; Num 480]
                              [Num 700; Num 555]))
          (Raise ValueError).
Proof.
  assert (Hno : ~ In "Q006"%string (columns enem_sample)).
  { simpl. intros H.
    repeat (destruct H as [H|H]; [discriminate H|]). exact H. }
  split; [exact Hno|]. split.
  - apply (proj1 (NonParamTest_failures mannwhitneyu_sample kruskal_sample
                    enem_sample "Q006" alpha_default)).
    right. exact Hno.
  - exact (proj2 (NonParamTest_failures (fun _ _ => Raise ValueError)
                    kruskal_sample enem_sample "SG_UF_RESIDENCIA"
                    alpha_default)
                 2 _ (MannWhitneyU [Num 520; Num 610; Num 480]
                                   [Num 700; Num 555])
                 ValueError eq_refl eq_refl eq_refl).
Defined.

Lemma NonParamTest_samples_nonempty_witness :
  In target (columns enem_sample) /\
  Forall (fun c => isna c = false) (col_of enem_sample "SG_UF_RESIDENCIA") /\
  prepare_samples enem_sample "SG_UF_RESIDENCIA"
  = Ok (2, [ [Num 520; Num 610; Num 480]; [Num 700; Num 555] ]) /\
  Forall (fun s : list cell => s <> [])
         [ [Num 520; Num 610; Num 480]; [Num 700; Num 555] ] /\
  2 <= length (rows enem_sample).
Proof.
  assert (Ht : In target (columns enem_sample)) by (simpl; auto 10).
  assert (Hn : Forall (fun c => isna c = false)
                      (col_of enem_sample "SG_UF_RESIDENCIA")).
  { simpl. repeat constructor. }
  split; [exact Ht|]. split; [exact Hn|]. split; [reflexivity|].
  exact (NonParamTest_samples_nonempty enem_sample "SG_UF_RESIDENCIA" 2 _
           Ht eq_refl Hn eq_refl).
Defined.


Lemma NormalityTest_failure_witness :
  NormalityTest shapiro_short normaltest_sample df_two alpha_default
  = Raise ValueError /\
  exists nv,
    In nv (select_dtypes_numeric df_two) /\
    (shapiro_short (snd nv) = Raise ValueError \/
     normaltest_sample (snd nv) = Raise ValueError).
Proof.
  split; [reflexivity|].
  exact (NormalityTest_failure shapiro_short normaltest_sample df_two
           alpha_default ValueError eq_refl).
Defined.

Lemma GetMerged_empty_enem_witness :
  rows enem_empty = [] /\ rect ideb_sample /\
  snd (GetMerged repr_unused float_unused enem_empty ideb_sample)
  = Raise TypeError.
Proof.
  split; [reflexivity|]. split; [exact rect_ideb_sample|].
  exact (GetMerged_empty_enem repr_unused float_unused enem_empty ideb_sample
           eq_refl rect_ideb_sample).
Defined.

Lemma rect_enem_text : rect enem_text.
Proof. rect_rows. Qed.

Lemma GetMerged_unparsable_number_witness :
  rect enem_text /\ rect ideb_sample /\
  (exists m, joined repr_unused enem_text ideb_sample = Ok m /\
             In (Str "ausente") (col_of m "NU_NOTA_TOT")) /\
  float_unused "ausente" = None /\
  snd (GetMerged repr_unused float_unused enem_text ideb_sample)
  = Raise TypeError.
Proof.
  destruct (joined repr_unused enem_text ideb_sample) as [m|e] eqn:Hm;
    [|discriminate Hm].
  assert (Hin : In (Str "ausente") (col_of m "NU_NOTA_TOT")).
  { injection Hm as <-. simpl. auto. }
  split; [exact rect_enem_text|]. split; [exact rect_ideb_sample|].
  split; [exists m; split; [reflexivity | exact Hin]|].
  split; [reflexivity|].
  apply (GetMerged_unparsable_number repr_unused float_unused enem_text
           ideb_sample m "NU_NOTA_TOT" "ausente" rect_enem_text
           rect_ideb_sample Hm); [|exact Hin|reflexivity].
  simpl. auto.
Defined.

(** The fifth student lives in SP and has no enrollment index; SP has the
    two indices 4/5 and 9/10, and the student receives 17/20. *)
Lemma GetMerged_fill_in_range_witness :
  rect enem_sample /\ rect ideb_sample /\
  joined repr_unused enem_sample ideb_sample = Ok merged_sample /\
  snd (GetMerged repr_unused float_unused enem_sample ideb_sample)
  = Ok output_sample /\
  nth_error (col_of merged_sample "SG_UF_RESIDENCIA") 4 = Some (Str "SP") /\
  nth_error (col_of merged_sample "IN_RENDIMENTO") 4 = Some NaN /\
  nth_error (col_of output_sample "IN_RENDIMENTO") 4
  = Some (Num (17 # 20)) /\
  exists lo hi med,
    In (Num lo) (group_values (col_of merged_sample "SG_UF_RESIDENCIA")
                              (col_of merged_sample "IN_RENDIMENTO")
                              (Str "SP")) /\
    In (Num hi) (group_values (col_of merged_sample "SG_UF_RESIDENCIA")
                              (col_of merged_sample "IN_RENDIMENTO")
                              (Str "SP")) /\
    nth_error (col_of output_sample "IN_RENDIMENTO") 4 = Some (Num med) /\
    (lo <= med)%Q /\ (med <= hi)%Q.
Proof.
  split; [exact rect_enem_sample|]. split; [exact rect_ideb_sample|].
  split; [exact joined_sample|]. split; [exact GetMerged_sample|].
  split; [reflexivity|]. split; [reflexivity|]. split; [reflexivity|].
  apply (GetMerged_fill_in_range repr_unused float_unused enem_sample
           ideb_sample merged_sample output_sample 4 (Str "SP")
           (Num (4 # 5)) rect_enem_sample rect_ideb_sample joined_sample
           GetMerged_sample eq_refl eq_refl eq_refl); [|reflexivity].
  simpl. auto.
Defined.

Lemma GetMerged_idempotent_witness :
  distinct (col_of enem_sample "CO_ESCOLA") /\
  distinct (col_of (key_as_text repr_unused ideb_sample) "CO_ESCOLA") /\
  GetMerged repr_unused float_unused
    (caller_enem (fst (GetMerged repr_unused float_unused enem_sample
                                 ideb_sample)))
    (caller_ideb (fst (GetMerged repr_unused float_unused enem_sample
                                 ideb_sample)))
  = GetMerged repr_unused float_unused enem_sample ideb_sample.
Proof.
  assert (He : distinct (col_of enem_sample "CO_ESCOLA")).
  { simpl. repeat split; repeat constructor. }
  assert (Hi : distinct (col_of (key_as_text repr_unused ideb_sample)
                                "CO_ESCOLA")).
  { simpl. repeat split; repeat constructor. }
  split; [exact He|]. split; [exact Hi|].
  exact (GetMerged_idempotent repr_unused float_unused enem_sample
           ideb_sample He Hi).
Defined.
